(** * switcher-js: the protocol codec and session client of src/switcher.js

    A shallow embedding of [SwitcherUDPMessage] and [Switcher] and the
    properties of the frame codec, the signing scheme and the session
    state machine.

    Conventions.
    - A Node [Buffer] is a [list byte].
    - Strings that only ever hold ASCII (hex dumps, frame templates) are
      [string]; text decoded from arbitrary bytes is a list of UTF-16 code
      units ([ustring]), since [substr] counts code units.
    - JavaScript numbers are [Z]; the model is exact on safe integers,
      where [parseInt(n)] is [n].  [NaN] is [None] in an [option Z].
    - A call that may throw returns [option] (pure code) or an [Outcome]
      (code that also touches the instance and the network). *)

From Stdlib Require Import ZArith NArith List String Ascii Bool Lia.
From Stdlib Require Import Strings.Byte DecimalString.
Import ListNotations.
Local Open Scope string_scope.
Local Open Scope Z_scope.

(* ================================================================== *)
(** ** Node runtime                                                     *)
(* ================================================================== *)

Definition Buffer := list byte.

Definition byte_val (b : byte) : Z := Z.of_N (Byte.to_N b).

Definition byte_of_Z (z : Z) : byte :=
  match Byte.of_N (Z.to_N (z mod 256)) with
  | Some b => b
  | None => x00
  end.

(** One lowercase hexadecimal digit, as [Buffer.toString('hex')] prints it. *)
Definition hex_digit (n : N) : ascii :=
  match n with
  | 0%N => "0" | 1%N => "1" | 2%N => "2" | 3%N => "3"
  | 4%N => "4" | 5%N => "5" | 6%N => "6" | 7%N => "7"
  | 8%N => "8" | 9%N => "9" | 10%N => "a" | 11%N => "b"
  | 12%N => "c" | 13%N => "d" | 14%N => "e" | _ => "f"
  end%char.

Definition byte_hex (b : byte) : string :=
  let n := Byte.to_N b in
  String (hex_digit (n / 16)) (String (hex_digit (n mod 16)) EmptyString).

(** [buf.toString('hex')] *)
Fixpoint toString_hex (buf : Buffer) : string :=
  match buf with
  | [] => EmptyString
  | b :: rest => byte_hex b ++ toString_hex rest
  end.

(** Value of a hexadecimal digit; Node and [parseInt] accept both cases. *)
Definition hex_value (c : ascii) : option N :=
  let n := N_of_ascii c in
  if ((48 <=? n) && (n <=? 57))%N then Some (n - 48)%N
  else if ((97 <=? n) && (n <=? 102))%N then Some (n - 87)%N
  else if ((65 <=? n) && (n <=? 70))%N then Some (n - 55)%N
  else None.

(** [Buffer.from(s, 'hex')]: pairs of digits are decoded until the first
    pair that is not two hexadecimal digits; a trailing single character is
    dropped. *)
Fixpoint Buffer_from_hex (s : string) : Buffer :=
  match s with
  | String c1 (String c2 rest) =>
      match hex_value c1, hex_value c2 with
      | Some h, Some l => byte_of_Z (Z.of_N (16 * h + l)) :: Buffer_from_hex rest
      | _, _ => []
      end
  | _ => []
  end.

(** [Buffer.from(s)] (UTF-8) for a string of 8-bit code units. *)
Fixpoint Buffer_from_string (s : string) : Buffer :=
  match s with
  | EmptyString => []
  | String c rest =>
      let n := Z.of_N (N_of_ascii c) in
      if n <? 128 then byte_of_Z n :: Buffer_from_string rest
      else byte_of_Z (Z.lor 192 (Z.shiftr n 6))
           :: byte_of_Z (Z.lor 128 (Z.land n 63))
           :: Buffer_from_string rest
  end.

(** [s.substr(start, len)] for non-negative arguments. *)
Definition substr (s : string) (start len : nat) : string :=
  substring start len s.

(** [parseInt(s, 16)] on a slice of a hex dump: the longest prefix of
    hexadecimal digits, most significant first; [None] is [NaN].  The
    slices the source passes hold digits only, so the sign, white space
    and [0x] prefix rules of [parseInt] never apply. *)
Fixpoint parseInt16_from (acc : option Z) (s : string) : option Z :=
  match s with
  | EmptyString => acc
  | String c rest =>
      match hex_value c with
      | Some d =>
          parseInt16_from
            (Some (16 * match acc with Some a => a | None => 0 end + Z.of_N d))
            rest
      | None => acc
      end
  end.

Definition parseInt16 (s : string) : option Z := parseInt16_from None s.

(** Text decoded from bytes: UTF-16 code units. *)
Definition ustring := list Z.

Definition REPLACEMENT : Z := 65533.

Definition is_cont (lo hi : Z) (b : byte) : bool :=
  (lo <=? byte_val b) && (byte_val b <=? hi).

(** Code units of one code point. *)
Definition code_units (cp : Z) : ustring :=
  if cp <? 65536 then [cp]
  else [55296 + Z.shiftr (cp - 65536) 10; 56320 + Z.land (cp - 65536) 1023].

(** [buf.toString()]: UTF-8 decoding with one U+FFFD per maximal ill-formed
    subpart, as the WHATWG decoder of Node does. *)
Fixpoint toString_utf8 (buf : Buffer) : ustring :=
  match buf with
  | [] => []
  | b :: rest =>
      let v := byte_val b in
      if v <? 128 then v :: toString_utf8 rest
      else if (194 <=? v) && (v <=? 223) then
        match rest with
        | c1 :: rest1 =>
            if is_cont 128 191 c1
            then (Z.land v 31 * 64 + Z.land (byte_val c1) 63) :: toString_utf8 rest1
            else REPLACEMENT :: toString_utf8 rest
        | [] => [REPLACEMENT]
        end
      else if (224 <=? v) && (v <=? 239) then
        let lo := if v =? 224 then 160 else 128 in
        let hi := if v =? 237 then 159 else 191 in
        match rest with
        | c1 :: rest1 =>
            if is_cont lo hi c1 then
              match rest1 with
              | c2 :: rest2 =>
                  if is_cont 128 191 c2
                  then (Z.land v 15 * 4096 + Z.land (byte_val c1) 63 * 64
                        + Z.land (byte_val c2) 63) :: toString_utf8 rest2
                  else REPLACEMENT :: toString_utf8 rest1
              | [] => [REPLACEMENT]
              end
            else REPLACEMENT :: toString_utf8 rest
        | [] => [REPLACEMENT]
        end
      else if (240 <=? v) && (v <=? 244) then
        let lo := if v =? 240 then 144 else 128 in
        let hi := if v =? 244 then 143 else 191 in
        match rest with
        | c1 :: rest1 =>
            if is_cont lo hi c1 then
              match rest1 with
              | c2 :: rest2 =>
                  if is_cont 128 191 c2 then
                    match rest2 with
                    | c3 :: rest3 =>
                        if is_cont 128 191 c3
                        then (code_units
                                (Z.land v 7 * 262144
                                 + Z.land (byte_val c1) 63 * 4096
                                 + Z.land (byte_val c2) 63 * 64
                                 + Z.land (byte_val c3) 63)
                              ++ toString_utf8 rest3)%list
                        else REPLACEMENT :: toString_utf8 rest2
                    | [] => [REPLACEMENT]
                    end
                  else REPLACEMENT :: toString_utf8 rest1
              | [] => [REPLACEMENT]
              end
            else REPLACEMENT :: toString_utf8 rest
        | [] => [REPLACEMENT]
        end
      else REPLACEMENT :: toString_utf8 rest
  end.

(** [s.substr(start, len)] on decoded text. *)
Definition usubstr (s : ustring) (start len : nat) : ustring :=
  firstn len (skipn start s).

(** [s.replace(/\0/g, '')] *)
Definition remove_nul (s : ustring) : ustring :=
  filter (fun c => negb (c =? 0)) s.

(** python-struct, [struct.pack('<I', v)] and [struct.pack('>I', v)]: the
    field is written with [writeUInt32LE] / [writeUInt32BE], which raise a
    RangeError outside [0, 2^32). *)
Definition pack_le32 (v : Z) : option Buffer :=
  if (0 <=? v) && (v <? 4294967296)
  then Some [byte_of_Z v; byte_of_Z (Z.shiftr v 8);
             byte_of_Z (Z.shiftr v 16); byte_of_Z (Z.shiftr v 24)]
  else None.

Definition pack_be32 (v : Z) : option Buffer :=
  if (0 <=? v) && (v <? 4294967296)
  then Some [byte_of_Z (Z.shiftr v 24); byte_of_Z (Z.shiftr v 16);
             byte_of_Z (Z.shiftr v 8); byte_of_Z v]
  else None.

(** The values a variable of the source can hold where it matters:
    [undefined], [null] or a string. *)
Inductive jsval : Type :=
| JUndefined
| JNull
| JString (s : string).

(** ['literal' + v] *)
Definition js_to_string (v : jsval) : string :=
  match v with
  | JUndefined => "undefined"
  | JNull => "null"
  | JString s => s
  end.

(** [if (v)] *)
Definition truthy (v : jsval) : bool :=
  match v with
  | JString (String _ _) => true
  | _ => false
  end.

(** [Number.prototype.toString()] of a non-negative integer. *)
Definition decimal (z : Z) : string :=
  NilEmpty.string_of_uint (N.to_uint (Z.to_N z)).

(** [ToInt32], the conversion [>>] and [&] apply to their operands. *)
Definition to_int32 (z : Z) : Z :=
  let m := z mod 4294967296 in
  if m <? 2147483648 then m else m - 4294967296.

(** [x >>> 0] *)
Definition to_uint32 (z : Z) : Z := z mod 4294967296.

(** Code units of an ASCII string, to compare it with decoded text. *)
Fixpoint ustring_of_string (s : string) : ustring :=
  match s with
  | EmptyString => []
  | String c rest => Z.of_N (N_of_ascii c) :: ustring_of_string rest
  end.

Fixpoint ustring_eqb (a b : ustring) : bool :=
  match a, b with
  | [], [] => true
  | x :: a', y :: b' => (x =? y) && ustring_eqb a' b'
  | _, _ => false
  end.

(* ================================================================== *)
(** ** crc.js                                                           *)
(* ================================================================== *)

Module Crc.

(** Modelled from the spec: [src/crc.js], which exports [crc16ccitt], is not
    among the sources.  Section 4.1 gives the algorithm: each byte is XORed
    into the high byte of a 16-bit accumulator, then for 8 iterations: if
    the high bit is set, shift left and XOR with the polynomial 0x1021, else
    shift left; no final reflection.  The second argument is the value the
    accumulator starts from, [crc16ccitt(buf, previous)], and not the
    polynomial, which is fixed: the function gives 4129 for the empty buffer
    and 24198 for the text 123456789 when called with 0x1021, as every call
    in switcher.js does, and signs the frame fef05200 with c91c7da5. *)
Definition POLY : Z := 4129.   (* 0x1021 *)

Definition shift_step (poly acc : Z) : Z :=
  if Z.testbit acc 15
  then Z.lxor (Z.land (Z.shiftl acc 1) 65535) poly
  else Z.land (Z.shiftl acc 1) 65535.

Definition update (poly acc : Z) (b : byte) : Z :=
  Nat.iter 8 (shift_step poly) (Z.lxor acc (Z.shiftl (byte_val b) 8)).

Definition crc16ccitt (buf : Buffer) (previous : Z) : Z :=
  fold_left (update POLY) buf previous.

End Crc.

(** The reference CRC of the Rocksoft parameter model with width 16, no
    input reflection, no output reflection and no final XOR: the message is
    a stream of bits, most significant bit of each byte first, clocked one
    bit at a time through a 16-bit shift register with feedback [poly]. *)
Definition bits_of_byte (b : byte) : list bool :=
  map (Z.testbit (byte_val b)) [7; 6; 5; 4; 3; 2; 1; 0].

Definition message_bits (buf : Buffer) : list bool :=
  flat_map bits_of_byte buf.

Definition register_clock (poly reg : Z) (bit : bool) : Z :=
  let shifted := Z.land (Z.shiftl reg 1) 65535 in
  if xorb (Z.testbit reg 15) bit then Z.lxor shifted poly else shifted.

Definition crc16_reference (poly init : Z) (buf : Buffer) : Z :=
  fold_left (register_clock poly) (message_bits buf) init.

Definition CRC16_CCITT_POLY : Z := 4129.   (* 0x1021 *)

(* ================================================================== *)
(** ** class SwitcherUDPMessage                                         *)
(* ================================================================== *)

Definition P_SESSION : string := "00000000".
Definition P_KEY : string := "00000000000000000000000000000000".

Definition SWITCHER_UDP_IP : string := "0.0.0.0".
Definition SWITCHER_UDP_PORT : Z := 20002.

Definition OFF : Z := 0.
Definition ON : Z := 1.

Record SwitcherUDPMessage : Type := {
  data_str : ustring;
  data_hex : string
}.

(** [constructor(message_buffer)] *)
Definition new_SwitcherUDPMessage (message_buffer : Buffer) : SwitcherUDPMessage :=
  {| data_str := toString_utf8 message_buffer;
     data_hex := toString_hex message_buffer |}.

(** [static is_valid(message_buffer)] *)
Definition is_valid (message_buffer : Buffer) : bool :=
  negb (negb (String.eqb (substr (toString_hex message_buffer) 0 4) "fef0")
        && negb (Z.of_nat (List.length message_buffer) =? 165)).

(** [inet_ntoa(num)]; [NaN >> k] is 0. *)
Definition inet_ntoa (num : option Z) : string :=
  let n := match num with Some z => to_int32 z | None => 0 end in
  let a := to_uint32 (Z.land (Z.shiftr n 24) 255) in
  let b := to_uint32 (Z.land (Z.shiftr n 16) 255) in
  let c := to_uint32 (Z.land (Z.shiftr n 8) 255) in
  let d := to_uint32 (Z.land n 255) in
  (decimal a ++ "." ++ decimal b ++ "." ++ decimal c ++ "." ++ decimal d)%string.

Definition extract_ip_addr (m : SwitcherUDPMessage) : string :=
  let ip_addr_section := substr (data_hex m) 152 8 in
  let ip_addr_int :=
    parseInt16 (substr ip_addr_section 0 2 ++ substr ip_addr_section 2 2
                ++ substr ip_addr_section 4 2 ++ substr ip_addr_section 6 2)%string in
  inet_ntoa ip_addr_int.

Definition extract_device_name (m : SwitcherUDPMessage) : ustring :=
  remove_nul (usubstr (data_str m) 40 32).

Definition extract_device_id (m : SwitcherUDPMessage) : string :=
  substr (data_hex m) 36 6.

Definition extract_switch_state (m : SwitcherUDPMessage) : Z :=
  if String.eqb (substr (data_hex m) 266 4) "0000" then OFF else ON.

Definition extract_shutdown_remaining_seconds (m : SwitcherUDPMessage) : option Z :=
  let time_left_section := substr (data_hex m) 294 8 in
  parseInt16 (substr time_left_section 6 2 ++ substr time_left_section 4 2
              ++ substr time_left_section 2 2 ++ substr time_left_section 0 2)%string.

Definition extract_default_shutdown_seconds (m : SwitcherUDPMessage) : option Z :=
  let shutdown_settings_section := substr (data_hex m) 310 8 in
  parseInt16 (substr shutdown_settings_section 6 2 ++ substr shutdown_settings_section 4 2
              ++ substr shutdown_settings_section 2 2
              ++ substr shutdown_settings_section 0 2)%string.

Definition extract_power_consumption (m : SwitcherUDPMessage) : option Z :=
  let power_consumption_section := substr (data_hex m) 270 4 in
  parseInt16 (substr power_consumption_section 2 2
              ++ substr power_consumption_section 0 2)%string.

(* ================================================================== *)
(** ** Sockets, events and the world outside the instance               *)
(* ================================================================== *)

(** The object a [status] event carries. *)
Record StatusReport : Type := {
  name : ustring;
  state : Z;
  remaining_seconds : option Z;
  default_shutdown_seconds : option Z;
  power_consumption : option Z
}.

(** What can be thrown or passed to [reject]. *)
Inductive Exn : Type :=
| RangeError                      (* struct.pack out of range *)
| ConnectFailed                   (* net.connect: 'close' or 'error' before 'ready' *)
| SocketFailed (message : string) (* 'error' on an open TCP socket *)
| ERR_SOCKET_DGRAM_NOT_RUNNING.   (* dgram close() on a closed socket *)

Inductive ErrorValue : Type :=
| ConnectionError (ip : string) (port : Z)
| LoginFailed (cause : Exn)
| StatusReportFailed (message : string)
| ListenerError (message : string).

Inductive Event : Type :=
| READY_EVENT (device_id ip : string)
| ERROR_EVENT (error : ErrorValue)
| STATUS_EVENT (report : StatusReport)
| STATE_CHANGED_EVENT (new_state : string)
| DURATION_CHANGED_EVENT (duration : Z)
| STATUS_CALLBACK (report : StatusReport).   (* [callback(...)] of [status] *)

(** A [net.Socket]: it has a [destroyed] property. *)
Record TcpSocket : Type := { destroyed : bool }.

(** A [dgram.Socket]: open until [close()]; it has no [destroyed]
    property, so reading one gives [undefined]. *)
Record DgramSocket : Type := { dgram_open : bool }.

Definition dgram_destroyed (s : DgramSocket) : jsval := JUndefined.

(** [socket.close()] of dgram raises on a socket that is not running. *)
Definition dgram_close (s : DgramSocket) : option DgramSocket :=
  if dgram_open s then Some {| dgram_open := false |} else None.

Record Switcher : Type := {
  device_id : string;
  switcher_ip : string;
  phone_id : string;
  device_pass : string;
  SWITCHER_PORT : Z;
  p_session : jsval;
  socket : option TcpSocket;
  status_socket : DgramSocket
}.

(** What the device answers to one written frame. *)
Inductive Reply : Type :=
| Data (data : Buffer)
| SocketError (message : string).

(** The environment of one instance.  Commands are run one after the
    other, and the reply to a written frame, when there is one, arrives
    before the next command starts: [inbox] lists the replies to the
    frames still to be written. *)
Record World : Type := {
  clock : Z;                 (* Math.round(new Date().getTime() / 1000) *)
  reachable : bool;          (* does net.connect reach 'ready'? *)
  inbox : list Reply;
  wire : list Buffer;        (* frames written so far, oldest first *)
  connects : nat;            (* calls of net.connect so far *)
  emitted : list Event       (* events emitted so far, oldest first *)
}.

Definition State : Type := Switcher * World.

Inductive Outcome (A : Type) : Type :=
| Return (a : A) (s : State)
| Throw (error : Exn) (s : State)
| Pending (s : State).      (* an await that never settles *)

Arguments Return {A} a s.
Arguments Throw {A} error s.
Arguments Pending {A} s.

Definition M (A : Type) : Type := State -> Outcome A.

Definition ret {A} (a : A) : M A := fun s => Return a s.

Definition bind {A B} (c : M A) (k : A -> M B) : M B :=
  fun s =>
    match c s with
    | Return a s' => k a s'
    | Throw e s' => Throw e s'
    | Pending s' => Pending s'
    end.

Definition throw {A} (e : Exn) : M A := fun s => Throw e s.

(** [try { c } catch (error) { handler }] *)
Definition try_catch {A} (c : M A) (handler : Exn -> M A) : M A :=
  fun s =>
    match c s with
    | Throw e s' => handler e s'
    | other => other
    end.

(** The body of [new Promise(async (resolve, reject) => ...)]: when it
    throws before settling the promise, the promise stays pending. *)
Definition unsettled_on_throw {A} (c : M A) : M A :=
  fun s =>
    match c s with
    | Throw _ s' => Pending s'
    | other => other
    end.

Definition lift {A} (o : option A) : M A :=
  match o with
  | Some a => ret a
  | None => throw RangeError
  end.

Declare Scope js_scope.
Delimit Scope js_scope with js.
Notation "x <- c ;; k" := (bind c (fun x => k))
  (at level 61, c at next level, right associativity) : js_scope.
Notation "c ;;; k" := (bind c (fun _ => k))
  (at level 61, right associativity) : js_scope.
Local Open Scope js_scope.

Definition get_this : M Switcher := fun s => Return (fst s) s.

Definition set_p_session (v : jsval) : M unit :=
  fun '(this, w) =>
    Return tt ({| device_id := device_id this; switcher_ip := switcher_ip this;
                  phone_id := phone_id this; device_pass := device_pass this;
                  SWITCHER_PORT := SWITCHER_PORT this; p_session := v;
                  socket := socket this; status_socket := status_socket this |}, w).

Definition set_socket (o : option TcpSocket) : M unit :=
  fun '(this, w) =>
    Return tt ({| device_id := device_id this; switcher_ip := switcher_ip this;
                  phone_id := phone_id this; device_pass := device_pass this;
                  SWITCHER_PORT := SWITCHER_PORT this; p_session := p_session this;
                  socket := o; status_socket := status_socket this |}, w).

Definition set_status_socket (d : DgramSocket) : M unit :=
  fun '(this, w) =>
    Return tt ({| device_id := device_id this; switcher_ip := switcher_ip this;
                  phone_id := phone_id this; device_pass := device_pass this;
                  SWITCHER_PORT := SWITCHER_PORT this; p_session := p_session this;
                  socket := socket this; status_socket := d |}, w).

(** [this.emit(event, ...)] *)
Definition emit (e : Event) : M unit :=
  fun '(this, w) =>
    Return tt (this, {| clock := clock w; reachable := reachable w; inbox := inbox w;
                        wire := wire w; connects := connects w;
                        emitted := (emitted w ++ [e])%list |}).

(** [socket.write(buf)] *)
Definition socket_write (buf : Buffer) : M unit :=
  fun '(this, w) =>
    Return tt (this, {| clock := clock w; reachable := reachable w; inbox := inbox w;
                        wire := (wire w ++ [buf])%list; connects := connects w;
                        emitted := emitted w |}).

Definition set_inbox (w : World) (l : list Reply) : World :=
  {| clock := clock w; reachable := reachable w; inbox := l; wire := wire w;
     connects := connects w; emitted := emitted w |}.

(** A TCP socket that reports 'error' is destroyed by Node. *)
Definition mark_destroyed (this : Switcher) : Switcher :=
  {| device_id := device_id this; switcher_ip := switcher_ip this;
     phone_id := phone_id this; device_pass := device_pass this;
     SWITCHER_PORT := SWITCHER_PORT this; p_session := p_session this;
     socket := match socket this with
               | Some _ => Some {| destroyed := true |}
               | None => None
               end;
     status_socket := status_socket this |}.

(** [await new Promise((resolve, reject) => { socket.once('data', resolve);
    socket.once('error', reject) })] *)
Definition await_reply : M Buffer :=
  fun '(this, w) =>
    match inbox w with
    | Data d :: rest => Return d (this, set_inbox w rest)
    | SocketError e :: rest => Throw (SocketFailed e) (mark_destroyed this, set_inbox w rest)
    | [] => Pending (this, w)
    end.

(** [socket.once('data', handler)] after a write, the function returning
    at once: the handler runs when the reply is there. *)
Definition once_data (handler : Buffer -> M unit) : M unit :=
  fun '(this, w) =>
    match inbox w with
    | Data d :: rest => handler d (this, set_inbox w rest)
    | SocketError e :: rest => Return tt (mark_destroyed this, set_inbox w rest)
    | [] => Return tt (this, w)
    end.

(** [this.socket && !this.socket.destroyed] *)
Definition socket_usable (o : option TcpSocket) : bool :=
  match o with
  | Some s => negb (destroyed s)
  | None => false
  end.

(* ================================================================== *)
(** ** class Switcher                                                   *)
(* ================================================================== *)

Section SwitcherClass.

(** [require('./crc').crc16ccitt] *)
Variable crc16ccitt : Buffer -> Z -> Z.

(** [_crc_sign_full_packet_com_key(p_data, p_key)] *)
Definition _crc_sign_full_packet_com_key (p_data p_key : string) : option string :=
  match pack_be32 (crc16ccitt (Buffer_from_hex p_data) 4129) with
  | None => None
  | Some packed =>
      let crc := toString_hex packed in
      let p_data := (p_data ++ substr crc 6 2 ++ substr crc 4 2)%string in
      let crc := (substr crc 6 2 ++ substr crc 4 2
                  ++ toString_hex (Buffer_from_string p_key))%string in
      match pack_be32 (crc16ccitt (Buffer_from_hex crc) 4129) with
      | None => None
      | Some packed' =>
          let crc := toString_hex packed' in
          Some (p_data ++ substr crc 6 2 ++ substr crc 4 2)%string
      end
  end.

(** [_get_time_stamp()] *)
Definition _get_time_stamp : M string :=
  fun '(this, w) =>
    let time_in_seconds := clock w in
    match pack_le32 time_in_seconds with
    | Some b => Return (toString_hex b) (this, w)
    | None => Throw RangeError (this, w)
    end.

(** [_timer_value(minutes)] *)
Definition _timer_value (minutes : Z) : option string :=
  if minutes =? 0 then Some "00000000"
  else
    let seconds := minutes * 60 in
    option_map toString_hex (pack_le32 seconds).

(** [_set_default_shutdown(seconds)]: only the last branch returns. *)
Definition _set_default_shutdown (seconds : Z) : option jsval :=
  if seconds <? 3600 then Some JUndefined
  else if seconds >? 86340 then Some JUndefined
  else option_map (fun b => JString (toString_hex b)) (pack_le32 seconds).

(** [_connect(port, ip)] *)
Definition _connect (port : Z) (ip : string) : M TcpSocket :=
  fun '(this, w) =>
    let w' := {| clock := clock w; reachable := reachable w; inbox := inbox w;
                 wire := wire w; connects := S (connects w); emitted := emitted w |} in
    if reachable w then Return {| destroyed := false |} (this, w')
    else Throw ConnectFailed (this, w').

(** The [try] block of [_getsocket()] and its [catch]. *)
Definition connect_and_keep (this : Switcher) : M TcpSocket :=
  try_catch
    (s <- _connect (SWITCHER_PORT this) (switcher_ip this) ;;
     set_socket (Some s) ;;; ret s)
    (fun error =>
       set_socket None ;;;
       emit (ERROR_EVENT (ConnectionError (switcher_ip this) (SWITCHER_PORT this))) ;;;
       throw error).

(** [_getsocket()] *)
Definition _getsocket : M TcpSocket :=
  this <- get_this ;;
  match socket this with
  | Some s => if socket_usable (socket this) then ret s else connect_and_keep this
  | None => connect_and_keep this
  end.

(** The login frame before signing. *)
Definition login_frame (this : Switcher) (time_stamp : string) : string :=
  ("fef052000232a100" ++ P_SESSION ++ "340001000000000000000000" ++ time_stamp
   ++ "00000000000000000000f0fe1c00" ++ phone_id this ++ "0000" ++ device_pass this
   ++ "00000000000000000000000000000000000000000000000000000000")%string.

(** The promise of [_login()]: build and sign the frame, get the socket
    ([reject] when that fails), write, settle on the reply. *)
Definition login_promise : M string :=
  this <- get_this ;;
  data <- unsettled_on_throw
            (time_stamp <- _get_time_stamp ;;
             lift (_crc_sign_full_packet_com_key (login_frame this time_stamp) P_KEY)) ;;
  _getsocket ;;;
  socket_write (Buffer_from_hex data) ;;;
  reply <- await_reply ;;
  ret (substr (toString_hex reply) 16 8).

(** [_login()] *)
Definition _login : M jsval :=
  this <- get_this ;;
  if truthy (p_session this) then ret (p_session this)
  else
    try_catch
      (result_session <- login_promise ;; set_p_session (JString result_session))
      (fun error => emit (ERROR_EVENT (LoginFailed error))) ;;;
    this' <- get_this ;;
    ret (p_session this').

(** The power command frame before signing. *)
Definition power_frame (this : Switcher) (p_session : jsval) (time_stamp command_type : string)
  : string :=
  ("fef05d0002320102" ++ js_to_string p_session ++ "340001000000000000000000" ++ time_stamp
   ++ "00000000000000000000f0fe" ++ device_id this ++ "00" ++ phone_id this ++ "0000"
   ++ device_pass this
   ++ "000000000000000000000000000000000000000000000000000000000106000"
   ++ command_type)%string.

(** [_run_power_command(command_type)] *)
Definition _run_power_command (command_type : string) : M unit :=
  p_session <- _login ;;
  this <- get_this ;;
  time_stamp <- _get_time_stamp ;;
  data <- lift (_crc_sign_full_packet_com_key
                  (power_frame this p_session time_stamp command_type) P_KEY) ;;
  _getsocket ;;;
  got <- try_catch (s <- _getsocket ;; ret (Some s)) (fun err => ret None) ;;
  match got with
  | None => ret tt
  | Some _ =>
      socket_write (Buffer_from_hex data) ;;;
      once_data (fun _ => emit (STATE_CHANGED_EVENT (substr command_type 0 1)))
  end.

(** [turn_off()] *)
Definition turn_off : M unit :=
  let off_command := (decimal OFF ++ "00" ++ "00000000")%string in
  _run_power_command off_command.

(** [turn_on(duration = 0)] *)
Definition turn_on (duration : Z) : M unit :=
  timer <- lift (_timer_value duration) ;;
  let on_command := (decimal ON ++ "00" ++ timer)%string in
  _run_power_command on_command.

(** The default-shutdown frame before signing. *)
Definition shutdown_frame (this : Switcher) (p_session : jsval) (time_stamp : string)
                          (auto_close : jsval) : string :=
  ("fef05b0002320102" ++ js_to_string p_session ++ "340001000000000000000000" ++ time_stamp
   ++ "00000000000000000000f0fe" ++ device_id this ++ "00" ++ phone_id this ++ "0000"
   ++ device_pass this
   ++ "00000000000000000000000000000000000000000000000000000000040400"
   ++ js_to_string auto_close)%string.

(** [set_default_shutdown(duration = 3600)] *)
Definition set_default_shutdown (duration : Z) : M unit :=
  auto_close <- lift (_set_default_shutdown duration) ;;
  p_session <- _login ;;
  this <- get_this ;;
  time_stamp <- _get_time_stamp ;;
  data <- lift (_crc_sign_full_packet_com_key
                  (shutdown_frame this p_session time_stamp auto_close) P_KEY) ;;
  _getsocket ;;;
  socket_write (Buffer_from_hex data) ;;;
  once_data (fun _ => emit (DURATION_CHANGED_EVENT duration)).

(** The status query frame before signing. *)
Definition status_frame (this : Switcher) (p_session : jsval) (time_stamp : string)
  : string :=
  ("fef0300002320103" ++ js_to_string p_session ++ "340001000000000000000000" ++ time_stamp
   ++ "00000000000000000000f0fe" ++ device_id this ++ "00")%string.

(** What the ['data'] handler of [status] hands to the callback. *)
Definition decode_status_reply (data : Buffer) : StatusReport :=
  let device_name := remove_nul (usubstr (toString_utf8 data) 40 32) in
  let state_hex := substr (toString_hex data) 150 4 in
  let state := if String.eqb state_hex "0000" then OFF else ON in
  let b := substr (toString_hex data) 178 8 in
  let remaining_seconds :=
    parseInt16 (substr b 6 2 ++ substr b 4 2 ++ substr b 2 2 ++ substr b 0 2)%string in
  let b := substr (toString_hex data) 194 8 in
  let default_shutdown_seconds :=
    parseInt16 (substr b 6 2 ++ substr b 4 2 ++ substr b 2 2 ++ substr b 0 2)%string in
  let b := substr (toString_hex data) 154 4 in
  let power_consumption := parseInt16 (substr b 2 2 ++ substr b 0 2)%string in
  {| name := device_name;
     state := state;
     remaining_seconds := remaining_seconds;
     default_shutdown_seconds := default_shutdown_seconds;
     power_consumption := power_consumption |}.

(** [status(callback)] *)
Definition status : M unit :=
  p_session <- _login ;;
  this <- get_this ;;
  time_stamp <- _get_time_stamp ;;
  data <- lift (_crc_sign_full_packet_com_key
                  (status_frame this p_session time_stamp) P_KEY) ;;
  _getsocket ;;;
  socket_write (Buffer_from_hex data) ;;;
  once_data (fun data => emit (STATUS_CALLBACK (decode_status_reply data))).

(** [close()]; [this.status_socket] is an object, so only the second
    half of its guard decides. *)
Definition close : M unit :=
  this <- get_this ;;
  (if socket_usable (socket this)
   then set_socket (Some {| destroyed := true |})
   else ret tt) ;;;
  this' <- get_this ;;
  if negb (truthy (dgram_destroyed (status_socket this')))
  then
    match dgram_close (status_socket this') with
    | Some closed => set_status_socket closed
    | None => throw ERR_SOCKET_DGRAM_NOT_RUNNING
    end
  else ret tt.

(** The message handler [_hijack_status_report()] installs. *)
Definition status_on_message (raw_msg : Buffer) : M unit :=
  if negb (is_valid raw_msg) then ret tt
  else
    let udp_message := new_SwitcherUDPMessage raw_msg in
    emit (STATUS_EVENT
            {| name := extract_device_name udp_message;
               state := extract_switch_state udp_message;
               remaining_seconds := extract_shutdown_remaining_seconds udp_message;
               default_shutdown_seconds := extract_default_shutdown_seconds udp_message;
               power_consumption := extract_power_consumption udp_message |}).

(** [_hijack_status_report()]: the socket it creates and binds. *)
Definition _hijack_status_report : DgramSocket := {| dgram_open := true |}.

(** [constructor(device_id, switcher_ip, log)] *)
Definition new_Switcher (device_id switcher_ip : string) : Switcher :=
  {| device_id := device_id;
     switcher_ip := switcher_ip;
     phone_id := "0000";
     device_pass := "00000000";
     SWITCHER_PORT := 9957;
     p_session := JNull;
     socket := None;
     status_socket := _hijack_status_report |}.

End SwitcherClass.

(* ================================================================== *)
(** ** Switcher.discover                                                *)
(* ================================================================== *)

Definition TIMEOUT_MAX : Z := 2147483647.

(** The delay a timer of Node really waits: [after *= 1], and a delay that
    is not within [1, TIMEOUT_MAX] (also [NaN]) becomes 1 ms. *)
Definition timer_delay (after : option Z) : Z :=
  match after with
  | Some n => if (1 <=? n) && (n <=? TIMEOUT_MAX) then n else 1
  | None => 1
  end.

(** [discovery_timeout * 1000], [discovery_timeout] being [undefined]
    ([None]) or a number: [undefined * 1000] is [NaN]. *)
Definition times_1000 (discovery_timeout : option Z) : option Z :=
  option_map (fun t => t * 1000) discovery_timeout.

(** The variables the closures of [discover] share. *)
Record Discovery : Type := {
  identifier : jsval;
  disc_socket : option DgramSocket;   (* [socket]; [None] is [null] *)
  timeout : option (option Z);        (* [timeout]: the delay asked of setTimeout *)
  timeout_armed : bool;               (* set and neither fired nor cleared *)
  proxy_events : list Event
}.

(** [static discover(log, identifier, discovery_timeout)]: the statement
    [if (discovery_timeout);] has an empty body, so the assignment that
    follows it is not guarded. *)
Definition discover (identifier : jsval) (discovery_timeout : option Z) : Discovery :=
  let timeout := @None (option Z) in
  let socket := Some {| dgram_open := true |} in
  let _ := if match discovery_timeout with Some t => negb (t =? 0) | None => false end
           then tt else tt in
  let timeout := Some (times_1000 discovery_timeout) in
  {| identifier := identifier;
     disc_socket := socket;
     timeout := timeout;
     timeout_armed := true;
     proxy_events := [] |}.

(** [socket.close(); socket = null] as the three callbacks do it; [None]
    when [socket] is [null] or the socket is closed already (the call
    throws). *)
Definition close_and_forget (d : Discovery) (armed : bool) (evs : list Event)
  : option Discovery :=
  match disc_socket d with
  | Some s =>
      match dgram_close s with
      | Some _ =>
          Some {| identifier := identifier d; disc_socket := None;
                  timeout := timeout d; timeout_armed := armed;
                  proxy_events := evs |}
      | None => None
      end
  | None => None
  end.

(** The callback of [setTimeout]. *)
Definition on_timeout (d : Discovery) : option Discovery :=
  if timeout_armed d then close_and_forget d false (proxy_events d) else Some d.

(** The message callback of the discovery socket; a closed socket
    receives nothing. *)
Definition on_message (d : Discovery) (raw_msg : Buffer) (ipaddr : string)
  : option Discovery :=
  match disc_socket d with
  | Some {| dgram_open := true |} =>
      if negb (is_valid raw_msg) then Some d
      else
        let udp_message := new_SwitcherUDPMessage raw_msg in
        let device_id := extract_device_id udp_message in
        let device_name := extract_device_name udp_message in
        match identifier d with
        | JString id =>
            if truthy (identifier d)
               && negb (String.eqb id device_id)
               && negb (ustring_eqb (ustring_of_string id) device_name)
               && negb (String.eqb id ipaddr)
            then Some d
            else close_and_forget d false
                   (proxy_events d ++ [READY_EVENT device_id ipaddr])%list
        | _ =>
            close_and_forget d false
              (proxy_events d ++ [READY_EVENT device_id ipaddr])%list
        end
  | _ => Some d
  end.

(** The ['error'] callback of the discovery socket. *)
Definition on_error (d : Discovery) (message : string) : option Discovery :=
  close_and_forget d false (proxy_events d ++ [ERROR_EVENT (ListenerError message)])%list.

(** [proxy.close()] *)
Definition proxy_close (d : Discovery) : option Discovery :=
  match disc_socket d with
  | Some s =>
      match dgram_close s with
      | Some closed =>
          Some {| identifier := identifier d; disc_socket := Some closed;
                  timeout := timeout d; timeout_armed := timeout_armed d;
                  proxy_events := proxy_events d |}
      | None => None
      end
  | None => Some d
  end.

(** When the armed timer of a discovery goes off, in milliseconds after
    the call. *)
Definition fires_after (d : Discovery) : option Z :=
  match timeout d with
  | Some after => if timeout_armed d then Some (timer_delay after) else None
  | None => None
  end.

(* ================================================================== *)
(** ** Vocabulary of the statements                                     *)
(* ================================================================== *)

(** Big-endian value of a byte sequence. *)
Definition be_value (buf : Buffer) : Z :=
  fold_left (fun acc b => 256 * acc + byte_val b) buf 0.

(** Little-endian value of a byte sequence. *)
Definition le_value (buf : Buffer) : Z :=
  fold_right (fun b acc => byte_val b + 256 * acc) 0 buf.

Definition acc_value (acc : option Z) : Z :=
  match acc with Some a => a | None => 0 end.

(** The low two bytes of [v], least significant first. *)
Definition low2_swapped (v : Z) : Buffer :=
  [byte_of_Z v; byte_of_Z (Z.shiftr v 8)].

(** The little-endian encoding of [v] on four bytes. *)
Definition le32 (v : Z) : Buffer :=
  [byte_of_Z v; byte_of_Z (Z.shiftr v 8); byte_of_Z (Z.shiftr v 16);
   byte_of_Z (Z.shiftr v 24)].

(** The signing key as bytes: 32 times the character 0. *)
Definition key_bytes : Buffer := repeat x30 32.

(** [buf.slice(offset, offset + len)] *)
Definition slice (buf : Buffer) (offset len : nat) : Buffer :=
  firstn len (skipn offset buf).

(** Four bytes as a dotted quad, first byte first. *)
Definition dotted_quad (bytes : Buffer) : string :=
  match bytes with
  | [a; b; c; d] =>
      (decimal (byte_val a) ++ "." ++ decimal (byte_val b) ++ "."
       ++ decimal (byte_val c) ++ "." ++ decimal (byte_val d))%string
  | _ => ""
  end.

(** A broadcast frame as section 4.2 describes it. *)
Definition well_formed_broadcast (buf : Buffer) : Prop :=
  List.length buf = 165%nat /\ firstn 2 buf = [xfe; xf0].

(** Bytes that are ASCII characters. *)
Definition ascii_bytes (l : Buffer) : Prop :=
  Forall (fun b => byte_val b < 128) l.

(** A value that fits in 16 bits. *)
Definition u16 (x : Z) : Prop := Z.land x 65535 = x.

(** A broadcast with one known value in every field. *)
Definition sample_broadcast : Buffer :=
  ([xfe; xf0] ++ repeat x00 16
   ++ [xa1; xb2; xc3] ++ repeat x00 19
   ++ [x42; x6f; x69; x6c; x65; x72] ++ repeat x00 30
   ++ [xc0; xa8; x01; x32] ++ repeat x00 53
   ++ [x01; x00; xc4; x09] ++ repeat x00 10
   ++ [x10; x0e; x00; x00] ++ repeat x00 4
   ++ [x20; x1c; x00; x00] ++ repeat x00 6)%list.

(** A broadcast with the name Boiler written at byte offset 20 and zero
    bytes everywhere else after the magic bytes. *)
Definition name_at_20_broadcast : Buffer :=
  ([xfe; xf0] ++ repeat x00 18
   ++ [x42; x6f; x69; x6c; x65; x72] ++ repeat x00 139)%list.

(** A broadcast whose header is ASCII throughout, named Boiler at byte
    offset 40. *)
Definition ascii_broadcast : Buffer :=
  ([xfe; xf0] ++ repeat x00 16
   ++ [x31; x32; x33] ++ repeat x00 19
   ++ [x42; x6f; x69; x6c; x65; x72] ++ repeat x00 119)%list.

(** The four bytes the signer appends to the frame [p_data]. *)
Definition trailer (crc16 : Buffer -> Z -> Z) (p_data : string) : Buffer :=
  let t1 := low2_swapped (crc16 (Buffer_from_hex p_data) 4129) in
  (t1 ++ low2_swapped (crc16 (t1 ++ key_bytes) 4129))%list.

(** The bytes that go on the wire for the unsigned frame [p_data]. *)
Definition signed_frame (crc16 : Buffer -> Z -> Z) (p_data : string) : Buffer :=
  Buffer_from_hex (p_data ++ toString_hex (trailer crc16 p_data)).

(** The first eight bytes of a frame: magic, length and opcode. *)
Definition frame_header (frame : Buffer) : Buffer := firstn 8 frame.

Definition LOGIN_HEADER : Buffer := [xfe; xf0; x52; x00; x02; x32; xa1; x00].
Definition POWER_HEADER : Buffer := [xfe; xf0; x5d; x00; x02; x32; x01; x02].
Definition SHUTDOWN_HEADER : Buffer := [xfe; xf0; x5b; x00; x02; x32; x01; x02].

(** The session token a frame carries. *)
Definition token_field (frame : Buffer) : Buffer := slice frame 8 4.

(** Two instances that differ at most in their TCP socket. *)
Definition same_identity (a b : Switcher) : Prop :=
  device_id a = device_id b /\ switcher_ip a = switcher_ip b
  /\ phone_id a = phone_id b /\ device_pass a = device_pass b
  /\ SWITCHER_PORT a = SWITCHER_PORT b /\ p_session a = p_session b
  /\ status_socket a = status_socket b.

(** The commands of the public interface. *)
Inductive Command : Type :=
| TurnOn (duration : Z)
| TurnOff
| SetDefaultShutdown (duration : Z)
| Status.

Definition run_command (crc16 : Buffer -> Z -> Z) (c : Command) : M unit :=
  match c with
  | TurnOn duration => turn_on crc16 duration
  | TurnOff => turn_off crc16
  | SetDefaultShutdown duration => set_default_shutdown crc16 duration
  | Status => status crc16
  end.

(** Commands issued one after the other; a throw ends the run. *)
Fixpoint run_all (crc16 : Buffer -> Z -> Z) (cmds : list Command) : M unit :=
  match cmds with
  | [] => ret tt
  | c :: rest => bind (run_command crc16 c) (fun _ => run_all crc16 rest)
  end.

Definition STATUS_HEADER : Buffer := [xfe; xf0; x30; x00; x02; x32; x01; x03].

(** A frame of a logged-in session: not a login frame, and carrying
    [token]. *)
Definition carries_token (token frame : Buffer) : Prop :=
  frame_header frame <> LOGIN_HEADER /\ token_field frame = token.

(** The instance holds [token] and every frame written after [wire0]
    carries it. *)
Definition session_invariant (token : Buffer) (wire0 : list Buffer) (s : State) : Prop :=
  p_session (fst s) = JString (toString_hex token)
  /\ exists frames,
       wire (snd s) = (wire0 ++ frames)%list /\ Forall (carries_token token) frames.

(** A computation keeps the invariant whatever its outcome, and a value
    it returns satisfies [Q]. *)
Definition keeps {A : Type} (token : Buffer) (wire0 : list Buffer)
           (c : M A) (Q : A -> Prop) : Prop :=
  forall s, session_invariant token wire0 s ->
            match c s with
            | Return a s' => session_invariant token wire0 s' /\ Q a
            | Throw _ s' => session_invariant token wire0 s'
            | Pending s' => session_invariant token wire0 s'
            end.

(** The state an outcome leaves behind. *)
Definition final_state {A : Type} (o : Outcome A) : State :=
  match o with
  | Return _ s => s
  | Throw _ s => s
  | Pending s => s
  end.

(** A session as the constructor and a login leave it: the device id is
    the dump of three bytes, the token the dump of four. *)
Definition well_formed_session (this : Switcher) (token id : Buffer) : Prop :=
  p_session this = JString (toString_hex token) /\ List.length token = 4%nat
  /\ device_id this = toString_hex id /\ List.length id = 3%nat
  /\ phone_id this = "0000" /\ device_pass this = "00000000".

(** The bytes of a power frame before signing, for a well-formed session:
    header, token, constants, time stamp, constants, device id and the
    rest of the template up to the state marker, then the duration. *)
Definition power_frame_bytes (token time_stamp id state_marker dur : Buffer) : Buffer :=
  (POWER_HEADER ++ token
   ++ Buffer_from_hex "340001000000000000000000" ++ time_stamp
   ++ Buffer_from_hex "00000000000000000000f0fe" ++ id
   ++ Buffer_from_hex
        "00000000000000000000000000000000000000000000000000000000000000000000000000010600"
   ++ state_marker ++ dur)%list.

(** Where a signed power frame holds the state marker and the duration. *)
Definition state_marker_field (frame : Buffer) : Buffer := slice frame 83 2.
Definition duration_field (frame : Buffer) : Buffer := slice frame 85 4.

(** A device at 10.0.0.5 and a world in which it answers the login. *)
Definition sample_device_id : string := "a1b2c3".
Definition sample_ip : string := "10.0.0.5".

Definition sample_login_reply : Buffer :=
  [xfe; xf0; x1c; x00; x02; x32; xa1; x00; xde; xad; xbe; xef; x34; x00; x01; x00].

Definition sample_session : Switcher :=
  {| device_id := sample_device_id; switcher_ip := sample_ip;
     phone_id := "0000"; device_pass := "00000000"; SWITCHER_PORT := 9957;
     p_session := JString "deadbeef";
     socket := Some {| destroyed := false |};
     status_socket := {| dgram_open := true |} |}.

Definition sample_world : World :=
  {| clock := 1700000000; reachable := true;
     inbox := [Data sample_login_reply];
     wire := []; connects := 0; emitted := [] |}.

(** *** Vocabulary of the further properties *)

(** The reply is a ['data'] event. *)
Definition is_data (r : Reply) : Prop :=
  match r with
  | Data _ => True
  | SocketError _ => False
  end.

(** [c] keeps [I] whatever its outcome, and a value it returns satisfies
    [Q]. *)
Definition holds {A : Type} (I : State -> Prop) (c : M A) (Q : A -> Prop) : Prop :=
  forall s, I s ->
            match c s with
            | Return a s' => I s' /\ Q a
            | Throw _ s' => I s'
            | Pending s' => I s'
            end.

(** The device cannot be reached and nothing was written after [wire0]. *)
Definition offline (wire0 : list Buffer) (s : State) : Prop :=
  socket_usable (socket (fst s)) = false /\ reachable (snd s) = false
  /\ wire (snd s) = wire0.

(** The connection is open, [n] connections were made so far, and only
    ['data'] events are to come. *)
Definition connected (n : nat) (s : State) : Prop :=
  socket_usable (socket (fst s)) = true /\ connects (snd s) = n
  /\ Forall is_data (inbox (snd s)).

(** The length a frame declares in its bytes 2 and 3. *)
Definition declared_length (frame : Buffer) : Z := le_value (slice frame 2 2).

(** The time stamp and the device id of a command frame. *)
Definition time_stamp_field (frame : Buffer) : Buffer := slice frame 24 4.
Definition device_id_field (frame : Buffer) : Buffer := slice frame 40 3.

(** The bytes of the other frames before signing, for a well-formed
    session. *)
Definition login_frame_bytes (time_stamp : Buffer) : Buffer :=
  (LOGIN_HEADER ++ [x00; x00; x00; x00]
   ++ Buffer_from_hex "340001000000000000000000" ++ time_stamp
   ++ Buffer_from_hex "00000000000000000000f0fe1c00"
   ++ Buffer_from_hex
        "000000000000000000000000000000000000000000000000000000000000000000000000")%list.

Definition status_frame_bytes (token time_stamp id : Buffer) : Buffer :=
  (STATUS_HEADER ++ token
   ++ Buffer_from_hex "340001000000000000000000" ++ time_stamp
   ++ Buffer_from_hex "00000000000000000000f0fe" ++ id ++ [x00])%list.

Definition shutdown_frame_bytes (token time_stamp id : Buffer) : Buffer :=
  (SHUTDOWN_HEADER ++ token
   ++ Buffer_from_hex "340001000000000000000000" ++ time_stamp
   ++ Buffer_from_hex "00000000000000000000f0fe" ++ id
   ++ Buffer_from_hex
        "00000000000000000000000000000000000000000000000000000000000000000000000000040400")%list.

(** What [discover] compares [identifier] with. *)
Definition identifier_matches (identifier : jsval) (device_id : string)
           (device_name : ustring) (ipaddr : string) : Prop :=
  match identifier with
  | JString (String c rest) =>
      String c rest = device_id
      \/ ustring_of_string (String c rest) = device_name
      \/ String c rest = ipaddr
  | _ => True
  end.

(** A world in which the device cannot be reached, and one in which it
    answers three times. *)
Definition offline_world : World :=
  {| clock := 1700000000; reachable := false; inbox := [];
     wire := []; connects := 0; emitted := [] |}.

Definition answering_world : World :=
  {| clock := 1700000000; reachable := true;
     inbox := [Data sample_login_reply; Data [x00]; Data []];
     wire := []; connects := 1; emitted := [] |}.

(* ================================================================== *)
(** * Properties                                                        *)
(* ================================================================== *)

(** ** Hex dumps *)

Lemma byte_val_range (b : byte) : 0 <= byte_val b < 256.
Proof.
  unfold byte_val. pose proof (Byte.to_N_bounded b) as H.
  lia.
Qed.

Lemma byte_of_Z_val (b : byte) : byte_of_Z (byte_val b) = b.
Proof. destruct b; reflexivity. Qed.

Lemma Buffer_from_hex_cons (b : byte) (s : string) :
  Buffer_from_hex (byte_hex b ++ s) = b :: Buffer_from_hex s.
Proof. destruct b; reflexivity. Qed.

Lemma toString_hex_app (a b : Buffer) :
  toString_hex (a ++ b)%list = (toString_hex a ++ toString_hex b)%string.
Proof.
  induction a as [|x a IH]; simpl; [reflexivity|].
  rewrite IH. reflexivity.
Qed.

Lemma string_app_assoc (a b c : string) :
  ((a ++ b) ++ c = a ++ (b ++ c))%string.
Proof. induction a as [|x a IH]; simpl; [reflexivity | now rewrite IH]. Qed.

Lemma string_app_nil_r (a : string) : (a ++ "")%string = a.
Proof. induction a as [|x a IH]; simpl; [reflexivity | now rewrite IH]. Qed.

Lemma Buffer_from_hex_app (buf : Buffer) (s : string) :
  Buffer_from_hex (toString_hex buf ++ s) = (buf ++ Buffer_from_hex s)%list.
Proof.
  induction buf as [|b buf IH]; [reflexivity|].
  change (toString_hex (b :: buf)) with (byte_hex b ++ toString_hex buf)%string.
  rewrite string_app_assoc, Buffer_from_hex_cons, IH. reflexivity.
Qed.

(** Decoding a hex dump gives the bytes back. *)
Lemma Buffer_from_hex_toString (buf : Buffer) :
  Buffer_from_hex (toString_hex buf) = buf.
Proof.
  rewrite <- (string_app_nil_r (toString_hex buf)), Buffer_from_hex_app.
  simpl. apply app_nil_r.
Qed.

Lemma substring_byte_hex_skip (b : byte) (s : string) (i m : nat) :
  substring (2 + i) m (byte_hex b ++ s) = substring i m s.
Proof. reflexivity. Qed.

Lemma substring_byte_hex_take (b : byte) (s : string) (n : nat) :
  substring 0 (2 + n) (byte_hex b ++ s) = (byte_hex b ++ substring 0 n s)%string.
Proof. reflexivity. Qed.

Lemma substring_zero_zero (s : string) : substring 0 0 s = "".
Proof. destruct s; reflexivity. Qed.

(** A slice of a hex dump at even offsets is the dump of a slice. *)
Lemma substr_toString_hex (buf : Buffer) (i n : nat) :
  substr (toString_hex buf) (2 * i) (2 * n)
  = toString_hex (firstn n (skipn i buf)).
Proof.
  unfold substr. revert buf n.
  induction i as [|i IHi]; intros buf n.
  - change (2 * 0)%nat with 0%nat. simpl skipn. revert n.
    induction buf as [|b buf IHb]; intros n.
    + destruct n; [reflexivity|]. simpl.
      replace (n + S (n + 0))%nat with (S (2 * n)) by lia. reflexivity.
    + destruct n as [|n]; [apply substring_zero_zero|].
      replace (2 * S n)%nat with (2 + 2 * n)%nat by lia.
      change (toString_hex (b :: buf)) with (byte_hex b ++ toString_hex buf)%string.
      rewrite substring_byte_hex_take, IHb. reflexivity.
  - replace (2 * S i)%nat with (2 + 2 * i)%nat by lia.
    destruct buf as [|b buf].
    + simpl. destruct n; [reflexivity|].
      destruct (2 * S n)%nat; reflexivity.
    + change (toString_hex (b :: buf)) with (byte_hex b ++ toString_hex buf)%string.
      rewrite substring_byte_hex_skip. simpl skipn. apply IHi.
Qed.

Lemma parseInt16_from_byte (acc : option Z) (b : byte) (s : string) :
  parseInt16_from acc (byte_hex b ++ s)
  = parseInt16_from (Some (256 * acc_value acc + byte_val b)) s.
Proof.
  assert (E : exists h l, parseInt16_from acc (byte_hex b ++ s)
                          = parseInt16_from (Some (16 * (16 * acc_value acc + h) + l)) s
                          /\ byte_val b = 16 * h + l).
  { destruct b; do 2 eexists; (split; [reflexivity | reflexivity]). }
  destruct E as (h & l & -> & ->). f_equal. f_equal. lia.
Qed.

Lemma parseInt16_from_hex (buf : Buffer) (acc : option Z) :
  buf <> [] ->
  parseInt16_from acc (toString_hex buf)
  = Some (fold_left (fun a b => 256 * a + byte_val b) buf (acc_value acc)).
Proof.
  revert acc. induction buf as [|b buf IH]; intros acc Hne; [congruence|].
  change (toString_hex (b :: buf)) with (byte_hex b ++ toString_hex buf)%string.
  rewrite parseInt16_from_byte. destruct buf as [|b' buf].
  - reflexivity.
  - rewrite IH by discriminate. reflexivity.
Qed.

(** [parseInt] of the dump of some bytes is their big-endian value. *)
Lemma parseInt16_toString_hex (buf : Buffer) :
  buf <> [] -> parseInt16 (toString_hex buf) = Some (be_value buf).
Proof. intros H. unfold parseInt16. now rewrite parseInt16_from_hex. Qed.

(** ** Broadcast validation *)

Lemma magic_prefix (buf : Buffer) :
  String.eqb (substr (toString_hex buf) 0 4) "fef0" = true
  <-> firstn 2 buf = [xfe; xf0].
Proof.
  destruct buf as [|a [|b rest]].
  - split; discriminate.
  - split; [|discriminate]. destruct a; discriminate.
  - assert (E : substr (toString_hex (a :: b :: rest)) 0 4
                = (byte_hex a ++ byte_hex b)%string).
    { unfold substr. simpl. now rewrite substring_zero_zero. }
    rewrite E. simpl firstn.
    destruct a; try (split; discriminate).
    destruct b; try (split; discriminate).
    split; reflexivity.
Qed.

(** What [is_valid] computes: the magic bytes or the length, one is enough. *)
Lemma is_valid_iff (buf : Buffer) :
  is_valid buf = true
  <-> firstn 2 buf = [xfe; xf0] \/ List.length buf = 165%nat.
Proof.
  unfold is_valid. rewrite <- magic_prefix.
  destruct (String.eqb _ _); simpl.
  - split; auto.
  - destruct (Z.eqb_spec (Z.of_nat (List.length buf)) 165) as [E|E]; simpl.
    + split; [right; lia | reflexivity].
    + split; [discriminate|]. intros [H|H]; [discriminate | lia].
Qed.

(** C1: [is_valid] is true on a frame of 164 bytes that starts with FE F0,
    and on a frame of 165 bytes that does not: it tests the magic bytes OR
    the length, where the claim states magic bytes AND length. *)
Theorem is_valid_accepts_wrong_shape :
  let short_frame := (xfe :: xf0 :: repeat x00 162) in
  let bad_magic := repeat x00 165 in
  List.length short_frame = 164%nat /\ is_valid short_frame = true
  /\ List.length bad_magic = 165%nat /\ firstn 2 bad_magic <> [xfe; xf0]
  /\ is_valid bad_magic = true.
Proof.
  cbv zeta. repeat split; try reflexivity. discriminate.
Qed.

(** ** Default shutdown *)

(** C2: [_set_default_shutdown] returns [undefined] for a value outside
    [3600, 86340] (the clamped value is assigned and then dropped); only a
    value within the range is encoded. *)
Theorem _set_default_shutdown_drops_clamped :
  _set_default_shutdown 100 = Some JUndefined
  /\ _set_default_shutdown 999999 = Some JUndefined
  /\ _set_default_shutdown 7200 = Some (JString (toString_hex (le32 7200)))
  /\ shutdown_frame sample_session (JString "deadbeef") "00f15365" JUndefined
     = (shutdown_frame sample_session (JString "deadbeef") "00f15365" (JString "")
        ++ "undefined")%string.
Proof. repeat split; reflexivity. Qed.

(** On the wire: for 7200 the frame has its 91 bytes, the duration at
    offset 83; for 100 the dump of the frame ends in the text undefined,
    the decoding stops there, and 83 bytes leave, without duration and
    without signature. *)
Lemma set_default_shutdown_frames :
  (exists s frame,
     set_default_shutdown Crc.crc16ccitt 7200 (sample_session, sample_world)
     = Return tt s
     /\ wire (snd s) = [frame] /\ List.length frame = 91%nat
     /\ slice frame 83 4 = le32 7200)
  /\ (exists s frame,
        set_default_shutdown Crc.crc16ccitt 100 (sample_session, sample_world)
        = Return tt s
        /\ wire (snd s) = [frame] /\ List.length frame = 83%nat
        /\ emitted (snd s) = [DURATION_CHANGED_EVENT 100]).
Proof.
  split; do 2 eexists; (split; [vm_compute; reflexivity|]); repeat split.
Qed.

(** Outside the range the result never is an encoding. *)
Lemma _set_default_shutdown_undefined (seconds : Z) :
  seconds < 3600 \/ 86340 < seconds ->
  _set_default_shutdown seconds = Some JUndefined.
Proof.
  intros H. unfold _set_default_shutdown.
  destruct (Z.ltb_spec seconds 3600); [reflexivity|].
  destruct (Z.gtb_spec seconds 86340) as [G|G]; [reflexivity | lia].
Qed.

(** Within the range the value is encoded unchanged. *)
Lemma _set_default_shutdown_in_range (seconds : Z) :
  3600 <= seconds <= 86340 ->
  _set_default_shutdown seconds = Some (JString (toString_hex (le32 seconds))).
Proof.
  intros H. unfold _set_default_shutdown, pack_le32.
  destruct (Z.ltb_spec seconds 3600); [lia|].
  destruct (Z.gtb_spec seconds 86340) as [G|G]; [lia|].
  destruct (Z.leb_spec 0 seconds); [|lia].
  destruct (Z.ltb_spec seconds 4294967296); [|lia].
  reflexivity.
Qed.

(** ** The CRC of the signer *)

Lemma land_lxor_distr (a b c : Z) :
  Z.land (Z.lxor a b) c = Z.lxor (Z.land a c) (Z.land b c).
Proof.
  apply Z.bits_inj'. intros n _.
  rewrite Z.lxor_spec, !Z.land_spec, Z.lxor_spec.
  destruct (Z.testbit a n), (Z.testbit b n), (Z.testbit c n); reflexivity.
Qed.

Lemma u16_land (x : Z) : u16 (Z.land x 65535).
Proof. unfold u16. now rewrite <- Z.land_assoc. Qed.

Lemma u16_lxor (a b : Z) : u16 a -> u16 b -> u16 (Z.lxor a b).
Proof. unfold u16. intros Ha Hb. now rewrite land_lxor_distr, Ha, Hb. Qed.

Lemma u16_range (x : Z) : u16 x -> 0 <= x < 65536.
Proof.
  unfold u16. intros <-. change 65535 with (Z.ones 16).
  rewrite Z.land_ones by lia. apply Z.mod_pos_bound. lia.
Qed.

Lemma shift_step_u16 (poly acc : Z) : u16 poly -> u16 (Crc.shift_step poly acc).
Proof.
  intros Hp. unfold Crc.shift_step.
  destruct (Z.testbit acc 15); [apply u16_lxor; [apply u16_land | exact Hp] | apply u16_land].
Qed.

Lemma update_u16 (poly acc : Z) (b : byte) : u16 poly -> u16 (Crc.update poly acc b).
Proof. intros Hp. unfold Crc.update. simpl Nat.iter. now apply shift_step_u16. Qed.

Lemma fold_update_u16 (poly : Z) (buf : Buffer) (acc : Z) :
  u16 poly -> u16 acc -> u16 (fold_left (Crc.update poly) buf acc).
Proof.
  intros Hp. revert acc. induction buf as [|b buf IH]; intros acc Ha; [exact Ha|].
  simpl. apply IH. now apply update_u16.
Qed.

(** The CRC fits in 16 bits. *)
Lemma crc16ccitt_range (buf : Buffer) :
  0 <= Crc.crc16ccitt buf 4129 < 65536.
Proof. apply u16_range, fold_update_u16; reflexivity. Qed.

(** One shift of the byte-wise loop against one clock of the register:
    the bits of the byte not consumed yet ride along in [pending]. *)
Lemma shift_step_pending (poly reg pending : Z) :
  Crc.shift_step poly (Z.lxor reg pending)
  = Z.lxor (register_clock poly reg (Z.testbit pending 15))
           (Z.land (Z.shiftl pending 1) 65535).
Proof.
  unfold Crc.shift_step, register_clock.
  rewrite Z.lxor_spec, Z.shiftl_lxor, land_lxor_distr.
  destruct (xorb (Z.testbit reg 15) (Z.testbit pending 15)); [|reflexivity].
  rewrite !Z.lxor_assoc. f_equal. apply Z.lxor_comm.
Qed.

(** XORing a byte into the high half and shifting eight times is clocking
    its eight bits in, most significant first. *)
Lemma update_clocks_bits (poly reg : Z) (b : byte) :
  Crc.update poly reg b = fold_left (register_clock poly) (bits_of_byte b) reg.
Proof.
  unfold Crc.update. simpl Nat.iter.
  rewrite !shift_step_pending.
  destruct b; exact (Z.lxor_0_r _).
Qed.

Lemma fold_left_flat_map {A B C : Type} (f : A -> B -> A) (g : C -> list B)
      (l : list C) (a : A) :
  fold_left f (flat_map g l) a = fold_left (fun x c => fold_left f (g c) x) l a.
Proof.
  revert a. induction l as [|c l IH]; intros a; [reflexivity|].
  simpl. now rewrite fold_left_app, IH.
Qed.

Lemma fold_left_ext_eq {A B : Type} (f g : A -> B -> A) (l : list B) (a : A) :
  (forall x y, f x y = g x y) -> fold_left f l a = fold_left g l a.
Proof.
  intros E. revert a. induction l as [|y l IH]; intros a; [reflexivity|].
  simpl. now rewrite E, IH.
Qed.

Lemma crc16ccitt_reference_poly (previous : Z) (buf : Buffer) :
  Crc.crc16ccitt buf previous = crc16_reference Crc.POLY previous buf.
Proof.
  unfold Crc.crc16ccitt, crc16_reference, message_bits.
  rewrite fold_left_flat_map. apply fold_left_ext_eq.
  intros x y. apply update_clocks_bits.
Qed.

(** The signer only depends on the values of the CRC it is given. *)
Lemma sign_ext (crc crc' : Buffer -> Z -> Z) (p_data p_key : string) :
  (forall buf poly, crc buf poly = crc' buf poly) ->
  _crc_sign_full_packet_com_key crc p_data p_key
  = _crc_sign_full_packet_com_key crc' p_data p_key.
Proof.
  intros E. unfold _crc_sign_full_packet_com_key. rewrite E.
  destruct (pack_be32 _); [|reflexivity]. now rewrite E.
Qed.

(** C4, as stated, fails: the signer's CRC does not start from 0.  For
    the empty buffer it gives the start value 0x1021 it is called with,
    where the CRC16-CCITT that starts from 0 gives 0; for the text
    123456789 it gives 24198, where that one gives its check value
    12739. *)
Lemma crc16ccitt_start_value_not_zero :
  Crc.crc16ccitt [] 4129 = 4129
  /\ crc16_reference CRC16_CCITT_POLY 0 [] = 0
  /\ Crc.crc16ccitt [] 4129 <> crc16_reference CRC16_CCITT_POLY 0 []
  /\ Crc.crc16ccitt (Buffer_from_string "123456789") 4129 = 24198
  /\ crc16_reference CRC16_CCITT_POLY 0 (Buffer_from_string "123456789") = 12739.
Proof.
  split; [reflexivity|]. split; [reflexivity|]. split; [discriminate|].
  split; reflexivity.
Qed.

(** C4, amended: every CRC the signer computes is CRC16-CCITT with the
    polynomial 0x1021 and the initial accumulator value 0x1021, most
    significant bit first, without input or output reflection: for every
    byte sequence the CRC the signer calls equals the reference register
    with feedback 0x1021 started from 0x1021, and signing with the one is
    signing with the other. *)
Theorem crc16ccitt_is_reference :
  (forall buf : Buffer,
     Crc.crc16ccitt buf 4129 = crc16_reference CRC16_CCITT_POLY 4129 buf)
  /\ (forall p_data p_key : string,
        _crc_sign_full_packet_com_key Crc.crc16ccitt p_data p_key
        = _crc_sign_full_packet_com_key
            (fun buf previous => crc16_reference CRC16_CCITT_POLY previous buf)
            p_data p_key).
Proof.
  split.
  - intros buf. apply crc16ccitt_reference_poly.
  - intros p_data p_key. apply sign_ext. intros buf previous.
    apply crc16ccitt_reference_poly.
Qed.

(** The outputs on record of the function: the text 123456789 and the
    signature of the frame fef05200. *)
Example crc16ccitt_check_value :
  Crc.crc16ccitt (Buffer_from_string "123456789") 4129 = 24198.
Proof. reflexivity. Qed.

Example sign_recorded_frame :
  _crc_sign_full_packet_com_key Crc.crc16ccitt "fef05200" P_KEY
  = Some "fef05200c91c7da5".
Proof. reflexivity. Qed.

(** ** Signing *)

Lemma pack_be32_in_range (v : Z) :
  0 <= v < 4294967296 ->
  pack_be32 v = Some [byte_of_Z (Z.shiftr v 24); byte_of_Z (Z.shiftr v 16);
                      byte_of_Z (Z.shiftr v 8); byte_of_Z v].
Proof.
  intros H. unfold pack_be32.
  destruct (Z.leb_spec 0 v); [|lia].
  destruct (Z.ltb_spec v 4294967296); [|lia]. reflexivity.
Qed.

Lemma pack_le32_in_range (v : Z) :
  0 <= v < 4294967296 -> pack_le32 v = Some (le32 v).
Proof.
  intros H. unfold pack_le32.
  destruct (Z.leb_spec 0 v); [|lia].
  destruct (Z.ltb_spec v 4294967296); [|lia]. reflexivity.
Qed.


(** The two slices the signer takes of a packed CRC, put together. *)
Lemma swapped_slices (b3 b2 b1 b0 : byte) :
  (substr (toString_hex [b3; b2; b1; b0]) 6 2
   ++ substr (toString_hex [b3; b2; b1; b0]) 4 2)%string
  = toString_hex [b0; b1].
Proof. reflexivity. Qed.

Lemma swapped_slices_tail (b3 b2 b1 b0 : byte) (tail : string) :
  (substr (toString_hex [b3; b2; b1; b0]) 6 2
   ++ substr (toString_hex [b3; b2; b1; b0]) 4 2 ++ tail)%string
  = (toString_hex [b0; b1] ++ tail)%string.
Proof. reflexivity. Qed.

Lemma key_bytes_eq : Buffer_from_string P_KEY = key_bytes.
Proof. reflexivity. Qed.

Section Signing.

Variable crc16ccitt : Buffer -> Z -> Z.
Hypothesis crc16ccitt_fits :
  forall buf : Buffer, 0 <= crc16ccitt buf 4129 < 4294967296.

(** Whatever the string, the signer appends the dump of four bytes. *)
Lemma sign_any (p_data : string) :
  let t1 := low2_swapped (crc16ccitt (Buffer_from_hex p_data) 4129) in
  let t2 := low2_swapped (crc16ccitt (t1 ++ key_bytes)%list 4129) in
  _crc_sign_full_packet_com_key crc16ccitt p_data P_KEY
  = Some (p_data ++ toString_hex (t1 ++ t2)%list)%string.
Proof.
  cbv zeta. unfold _crc_sign_full_packet_com_key.
  set (c1 := crc16ccitt (Buffer_from_hex p_data) 4129).
  rewrite (pack_be32_in_range c1) by apply crc16ccitt_fits.
  cbv zeta.
  rewrite swapped_slices_tail, !swapped_slices.
  rewrite key_bytes_eq, <- !toString_hex_app, Buffer_from_hex_toString.
  change [byte_of_Z c1; byte_of_Z (Z.shiftr c1 8)] with (low2_swapped c1).
  rewrite (pack_be32_in_range (crc16ccitt _ 4129)) by apply crc16ccitt_fits.
  rewrite swapped_slices, string_app_assoc, <- toString_hex_app. reflexivity.
Qed.

Lemma sign_hex (f : Buffer) :
  let t1 := low2_swapped (crc16ccitt f 4129) in
  let t2 := low2_swapped (crc16ccitt (t1 ++ key_bytes)%list 4129) in
  _crc_sign_full_packet_com_key crc16ccitt (toString_hex f) P_KEY
  = Some (toString_hex (f ++ t1 ++ t2)%list).
Proof.
  cbv zeta. rewrite sign_any. cbv zeta.
  now rewrite Buffer_from_hex_toString, <- toString_hex_app.
Qed.

End Signing.

(** C3: signing a frame [f] appends exactly four bytes and keeps [f] as the
    prefix: the low two bytes of [crc16(f)], least significant first, then
    the low two bytes of the CRC of those two bytes followed by the key,
    least significant first; the key is 32 bytes, each the character 0. *)
Theorem sign_appends_two_swapped_crcs
    (crc16ccitt : Buffer -> Z -> Z)
    (crc16ccitt_fits : forall buf, 0 <= crc16ccitt buf 4129 < 4294967296)
    (f : Buffer) :
  let t1 := low2_swapped (crc16ccitt f 4129) in
  let t2 := low2_swapped (crc16ccitt (t1 ++ key_bytes)%list 4129) in
  exists signed : string,
    _crc_sign_full_packet_com_key crc16ccitt (toString_hex f) P_KEY = Some signed
    /\ Buffer_from_hex signed = (f ++ t1 ++ t2)%list
    /\ List.length (Buffer_from_hex signed) = (List.length f + 4)%nat
    /\ firstn (List.length f) (Buffer_from_hex signed) = f
    /\ key_bytes = Buffer_from_string "00000000000000000000000000000000"
    /\ List.length key_bytes = 32%nat.
Proof.
  cbv zeta. eexists. split; [apply sign_hex; exact crc16ccitt_fits|].
  rewrite Buffer_from_hex_toString. repeat split.
  - rewrite !length_app. simpl. lia.
  - rewrite firstn_app, Nat.sub_diag, firstn_all. simpl. apply app_nil_r.
Qed.

Lemma crc16ccitt_fits32 (buf : Buffer) :
  0 <= Crc.crc16ccitt buf 4129 < 4294967296.
Proof. pose proof (crc16ccitt_range buf). lia. Qed.

(** C3 at a concrete frame, with the CRC of crc.js. *)
Lemma sign_appends_two_swapped_crcs_witness :
  (forall buf, 0 <= Crc.crc16ccitt buf 4129 < 4294967296)
  /\ exists signed : string,
       _crc_sign_full_packet_com_key Crc.crc16ccitt
         (toString_hex [xfe; xf0; x52; x00]) P_KEY = Some signed
       /\ Buffer_from_hex signed
          = ([xfe; xf0; x52; x00]
             ++ low2_swapped (Crc.crc16ccitt [xfe; xf0; x52; x00] 4129)
             ++ low2_swapped
                  (Crc.crc16ccitt
                     (low2_swapped (Crc.crc16ccitt [xfe; xf0; x52; x00] 4129)
                      ++ key_bytes) 4129))%list
       /\ List.length (Buffer_from_hex signed) = (4 + 4)%nat
       /\ firstn 4 (Buffer_from_hex signed) = [xfe; xf0; x52; x00]
       /\ key_bytes = Buffer_from_string "00000000000000000000000000000000"
       /\ List.length key_bytes = 32%nat.
Proof.
  split; [exact crc16ccitt_fits32|].
  exact (sign_appends_two_swapped_crcs Crc.crc16ccitt crc16ccitt_fits32
           [xfe; xf0; x52; x00]).
Defined.

(** ** Decoding a broadcast *)

Lemma slice_length (buf : Buffer) (offset len : nat) :
  (offset + len <= List.length buf)%nat -> List.length (slice buf offset len) = len.
Proof.
  intros H. unfold slice. rewrite length_firstn, length_skipn. lia.
Qed.

Lemma substr_slice (buf : Buffer) (offset len : nat) :
  substr (toString_hex buf) (2 * offset) (2 * len)
  = toString_hex (slice buf offset len).
Proof. apply substr_toString_hex. Qed.

Lemma slice2 (buf : Buffer) (offset : nat) :
  (offset + 2 <= List.length buf)%nat ->
  exists a b, slice buf offset 2 = [a; b].
Proof.
  intros H. pose proof (slice_length buf offset 2 H) as L.
  destruct (slice buf offset 2) as [|a [|b [|c l]]]; try discriminate. eauto.
Qed.

Lemma slice4 (buf : Buffer) (offset : nat) :
  (offset + 4 <= List.length buf)%nat ->
  exists a b c d, slice buf offset 4 = [a; b; c; d].
Proof.
  intros H. pose proof (slice_length buf offset 4 H) as L.
  destruct (slice buf offset 4) as [|a [|b [|c [|d [|e l]]]]]; try discriminate.
  eauto.
Qed.

(** Reading the four pairs of digits of a field last pair first. *)
Lemma parse_le32 (a b c d : byte) :
  let section := toString_hex [a; b; c; d] in
  parseInt16 (substr section 6 2 ++ substr section 4 2
              ++ substr section 2 2 ++ substr section 0 2)%string
  = Some (le_value [a; b; c; d]).
Proof.
  cbv zeta.
  change (substr _ 6 2 ++ substr _ 4 2 ++ substr _ 2 2 ++ substr _ 0 2)%string
    with (toString_hex [d; c; b; a]).
  rewrite parseInt16_toString_hex by discriminate.
  f_equal. unfold be_value, le_value. cbn [fold_left fold_right]. lia.
Qed.

Lemma parse_le16 (a b : byte) :
  let section := toString_hex [a; b] in
  parseInt16 (substr section 2 2 ++ substr section 0 2)%string
  = Some (le_value [a; b]).
Proof.
  cbv zeta.
  change (substr _ 2 2 ++ substr _ 0 2)%string with (toString_hex [b; a]).
  rewrite parseInt16_toString_hex by discriminate.
  f_equal. unfold be_value, le_value. cbn [fold_left fold_right]. lia.
Qed.

Lemma parse_be32 (a b c d : byte) :
  let section := toString_hex [a; b; c; d] in
  parseInt16 (substr section 0 2 ++ substr section 2 2
              ++ substr section 4 2 ++ substr section 6 2)%string
  = Some (be_value [a; b; c; d]).
Proof.
  cbv zeta.
  change (substr _ 0 2 ++ substr _ 2 2 ++ substr _ 4 2 ++ substr _ 6 2)%string
    with (toString_hex [a; b; c; d]).
  now rewrite parseInt16_toString_hex by discriminate.
Qed.

Lemma zero_state (a b : byte) :
  String.eqb (toString_hex [a; b]) "0000" = true <-> [a; b] = [x00; x00].
Proof.
  destruct a; try (split; discriminate).
  destruct b; try (split; discriminate).
  split; reflexivity.
Qed.

(** The shifts and masks of [inet_ntoa] take the four bytes apart again,
    also when the value is negative as a 32-bit integer. *)
Lemma inet_ntoa_bytes (a b c d : byte) :
  inet_ntoa (Some (be_value [a; b; c; d])) = dotted_quad [a; b; c; d].
Proof.
  pose proof (byte_val_range a). pose proof (byte_val_range b).
  pose proof (byte_val_range c). pose proof (byte_val_range d).
  unfold inet_ntoa, dotted_quad.
  assert (V : be_value [a; b; c; d]
              = 16777216 * byte_val a + 65536 * byte_val b
                + 256 * byte_val c + byte_val d).
  { unfold be_value. cbn [fold_left]. lia. }
  rewrite V. clear V.
  set (v := 16777216 * byte_val a + 65536 * byte_val b + 256 * byte_val c + byte_val d).
  assert (Ea : to_uint32 (Z.land (Z.shiftr (to_int32 v) 24) 255) = byte_val a).
  { unfold to_uint32, to_int32. change 255 with (Z.ones 8).
    rewrite Z.land_ones, Z.shiftr_div_pow2 by lia.
    change (2 ^ 24) with 16777216. change (2 ^ 8) with 256.
    destruct (Z.ltb_spec (v mod 4294967296) 2147483648);
      subst v; Z.div_mod_to_equations; lia. }
  assert (Eb : to_uint32 (Z.land (Z.shiftr (to_int32 v) 16) 255) = byte_val b).
  { unfold to_uint32, to_int32. change 255 with (Z.ones 8).
    rewrite Z.land_ones, Z.shiftr_div_pow2 by lia.
    change (2 ^ 16) with 65536. change (2 ^ 8) with 256.
    destruct (Z.ltb_spec (v mod 4294967296) 2147483648);
      subst v; Z.div_mod_to_equations; lia. }
  assert (Ec : to_uint32 (Z.land (Z.shiftr (to_int32 v) 8) 255) = byte_val c).
  { unfold to_uint32, to_int32. change 255 with (Z.ones 8).
    rewrite Z.land_ones, Z.shiftr_div_pow2 by lia.
    change (2 ^ 8) with 256.
    destruct (Z.ltb_spec (v mod 4294967296) 2147483648);
      subst v; Z.div_mod_to_equations; lia. }
  assert (Ed : to_uint32 (Z.land (to_int32 v) 255) = byte_val d).
  { unfold to_uint32, to_int32. change 255 with (Z.ones 8).
    rewrite Z.land_ones by lia. change (2 ^ 8) with 256.
    destruct (Z.ltb_spec (v mod 4294967296) 2147483648);
      subst v; Z.div_mod_to_equations; lia. }
  cbv zeta. rewrite Ea, Eb, Ec, Ed. reflexivity.
Qed.

(** Rewrite the slice of the dump of [buf] taken at byte [offset]. *)
Ltac hex_slice buf offset len :=
  let E := fresh "E" in
  pose proof (substr_slice buf offset len) as E;
  cbn [Nat.mul Nat.add] in E; rewrite E; clear E.

Lemma extract_device_id_slice (buf : Buffer) :
  extract_device_id (new_SwitcherUDPMessage buf) = toString_hex (slice buf 18 3).
Proof. exact (substr_slice buf 18 3). Qed.

Lemma extract_switch_state_slice (buf : Buffer) :
  (133 + 2 <= List.length buf)%nat ->
  (extract_switch_state (new_SwitcherUDPMessage buf) = OFF
   <-> slice buf 133 2 = [x00; x00])
  /\ (extract_switch_state (new_SwitcherUDPMessage buf) <> OFF
      -> extract_switch_state (new_SwitcherUDPMessage buf) = ON).
Proof.
  intros H. unfold extract_switch_state. cbn [data_hex new_SwitcherUDPMessage].
  hex_slice buf 133%nat 2%nat.
  destruct (slice2 buf 133 H) as (a & b & ->).
  pose proof (zero_state a b) as Z.
  destruct (String.eqb (toString_hex [a; b]) "0000").
  - split; [split; [intros _; now apply Z | reflexivity] | intros N; now elim N].
  - split; [split; [discriminate | intros E; apply Z in E; discriminate] | reflexivity].
Qed.

Lemma extract_power_consumption_slice (buf : Buffer) :
  (135 + 2 <= List.length buf)%nat ->
  extract_power_consumption (new_SwitcherUDPMessage buf)
  = Some (le_value (slice buf 135 2)).
Proof.
  intros H. unfold extract_power_consumption. cbn [data_hex new_SwitcherUDPMessage].
  hex_slice buf 135%nat 2%nat.
  destruct (slice2 buf 135 H) as (a & b & ->). apply parse_le16.
Qed.

Lemma extract_shutdown_remaining_seconds_slice (buf : Buffer) :
  (147 + 4 <= List.length buf)%nat ->
  extract_shutdown_remaining_seconds (new_SwitcherUDPMessage buf)
  = Some (le_value (slice buf 147 4)).
Proof.
  intros H. unfold extract_shutdown_remaining_seconds.
  cbn [data_hex new_SwitcherUDPMessage].
  hex_slice buf 147%nat 4%nat.
  destruct (slice4 buf 147 H) as (a & b & c & d & ->). apply parse_le32.
Qed.

Lemma extract_default_shutdown_seconds_slice (buf : Buffer) :
  (155 + 4 <= List.length buf)%nat ->
  extract_default_shutdown_seconds (new_SwitcherUDPMessage buf)
  = Some (le_value (slice buf 155 4)).
Proof.
  intros H. unfold extract_default_shutdown_seconds.
  cbn [data_hex new_SwitcherUDPMessage].
  hex_slice buf 155%nat 4%nat.
  destruct (slice4 buf 155 H) as (a & b & c & d & ->). apply parse_le32.
Qed.

Lemma extract_ip_addr_slice (buf : Buffer) :
  (76 + 4 <= List.length buf)%nat ->
  extract_ip_addr (new_SwitcherUDPMessage buf) = dotted_quad (slice buf 76 4).
Proof.
  intros H. unfold extract_ip_addr. cbn [data_hex new_SwitcherUDPMessage].
  hex_slice buf 76%nat 4%nat.
  destruct (slice4 buf 76 H) as (a & b & c & d & ->).
  cbv zeta. rewrite parse_be32. apply inet_ntoa_bytes.
Qed.

(** C6: on a broadcast frame of 165 bytes that starts with FE F0, every
    decoded field is the value at its documented offset: the device id is
    the 3 bytes at 18 (as hex), the state is OFF exactly when the 2 bytes at
    133 are zero and ON otherwise, the power is the little-endian 16-bit
    value at 135, the remaining time the little-endian 32-bit value at 147,
    the default shutdown the little-endian 32-bit value at 155, and the
    address the 4 bytes at 76, first byte first, as a dotted quad. *)
Theorem broadcast_fields_at_offsets (buf : Buffer) :
  well_formed_broadcast buf ->
  let m := new_SwitcherUDPMessage buf in
  extract_device_id m = toString_hex (slice buf 18 3)
  /\ List.length (slice buf 18 3) = 3%nat
  /\ (extract_switch_state m = OFF <-> slice buf 133 2 = [x00; x00])
  /\ (extract_switch_state m <> OFF -> extract_switch_state m = ON)
  /\ extract_power_consumption m = Some (le_value (slice buf 135 2))
  /\ extract_shutdown_remaining_seconds m = Some (le_value (slice buf 147 4))
  /\ extract_default_shutdown_seconds m = Some (le_value (slice buf 155 4))
  /\ extract_ip_addr m = dotted_quad (slice buf 76 4).
Proof.
  intros [L _]. cbv zeta.
  split; [apply extract_device_id_slice|].
  split; [apply slice_length; lia|].
  split; [apply extract_switch_state_slice; lia|].
  split; [apply extract_switch_state_slice; lia|].
  split; [apply extract_power_consumption_slice; lia|].
  split; [apply extract_shutdown_remaining_seconds_slice; lia|].
  split; [apply extract_default_shutdown_seconds_slice; lia|].
  apply extract_ip_addr_slice; lia.
Qed.

Lemma broadcast_fields_at_offsets_witness :
  well_formed_broadcast sample_broadcast
  /\ extract_device_id (new_SwitcherUDPMessage sample_broadcast) = "a1b2c3"
  /\ extract_switch_state (new_SwitcherUDPMessage sample_broadcast) = ON
  /\ extract_power_consumption (new_SwitcherUDPMessage sample_broadcast) = Some 2500
  /\ extract_shutdown_remaining_seconds (new_SwitcherUDPMessage sample_broadcast)
     = Some 3600
  /\ extract_default_shutdown_seconds (new_SwitcherUDPMessage sample_broadcast)
     = Some 7200
  /\ extract_ip_addr (new_SwitcherUDPMessage sample_broadcast) = "192.168.1.50".
Proof.
  assert (W : well_formed_broadcast sample_broadcast) by (split; reflexivity).
  destruct (broadcast_fields_at_offsets sample_broadcast W)
    as (Hid & _ & _ & Hon & Hp & Hr & Hd & Hip).
  split; [exact W|].
  split; [exact Hid|].
  split; [apply Hon; discriminate|].
  split; [exact Hp|].
  split; [exact Hr|].
  split; [exact Hd|].
  exact Hip.
Defined.

(** ** The device name *)

Lemma toString_utf8_ascii (b : byte) (rest : Buffer) :
  byte_val b < 128 ->
  toString_utf8 (b :: rest) = byte_val b :: toString_utf8 rest.
Proof.
  intros H. cbn [toString_utf8].
  destruct (Z.ltb_spec (byte_val b) 128); [reflexivity | lia].
Qed.

Lemma toString_utf8_ascii_app (pre rest : Buffer) :
  ascii_bytes pre ->
  toString_utf8 (pre ++ rest)%list = (map byte_val pre ++ toString_utf8 rest)%list.
Proof.
  induction 1 as [|b pre Hb _ IH]; [reflexivity|].
  rewrite <- app_comm_cons, toString_utf8_ascii by exact Hb.
  rewrite IH. reflexivity.
Qed.

(** The two magic bytes are no UTF-8: each decodes to one U+FFFD when an
    ASCII byte follows. *)
Lemma toString_utf8_magic (c : byte) (rest : Buffer) :
  byte_val c < 128 ->
  toString_utf8 (xfe :: xf0 :: c :: rest)
  = REPLACEMENT :: REPLACEMENT :: toString_utf8 (c :: rest).
Proof.
  intros H.
  change (toString_utf8 (xfe :: xf0 :: c :: rest))
    with (REPLACEMENT ::
          (if is_cont 144 191 c
           then match rest with
                | c2 :: rest2 =>
                    if is_cont 128 191 c2 then
                      match rest2 with
                      | c3 :: rest3 =>
                          if is_cont 128 191 c3
                          then (code_units
                                  (Z.land 240 7 * 262144
                                   + Z.land (byte_val c) 63 * 4096
                                   + Z.land (byte_val c2) 63 * 64
                                   + Z.land (byte_val c3) 63)
                                ++ toString_utf8 rest3)%list
                          else REPLACEMENT :: toString_utf8 rest2
                      | [] => [REPLACEMENT]
                      end
                    else REPLACEMENT :: toString_utf8 rest
                | [] => [REPLACEMENT]
                end
           else REPLACEMENT :: toString_utf8 (c :: rest))).
  unfold is_cont. destruct (Z.leb_spec 144 (byte_val c)); [lia | reflexivity].
Qed.

Lemma frame_split (buf : Buffer) :
  buf = (firstn 2 buf ++ slice buf 2 70 ++ skipn 70 (skipn 2 buf))%list.
Proof. unfold slice. now rewrite !firstn_skipn. Qed.

Lemma slice_40_32 (buf : Buffer) :
  (72 <= List.length buf)%nat ->
  slice buf 40 32 = skipn 38 (slice buf 2 70)
  /\ List.length (skipn 38 (slice buf 2 70)) = 32%nat.
Proof.
  intros L. unfold slice. split.
  - rewrite skipn_firstn_comm. cbn [Nat.sub]. now rewrite skipn_skipn.
  - rewrite length_skipn, length_firstn, length_skipn. lia.
Qed.

Lemma firstn_skipn_app_exact {A : Type} (l r : list A) (n m : nat) :
  (n + m)%nat = List.length l -> firstn m (skipn n (l ++ r)%list) = skipn n l.
Proof.
  intros H. rewrite skipn_app.
  replace (n - List.length l)%nat with 0%nat by lia.
  rewrite skipn_O, firstn_app, length_skipn.
  replace (m - (List.length l - n))%nat with 0%nat by lia.
  rewrite firstn_O, app_nil_r. apply firstn_all2.
  rewrite length_skipn. lia.
Qed.

Lemma device_name_of_ascii_frame (buf : Buffer) :
  well_formed_broadcast buf ->
  ascii_bytes (slice buf 2 70) ->
  extract_device_name (new_SwitcherUDPMessage buf)
  = remove_nul (map byte_val (slice buf 40 32)).
Proof.
  intros [L M] A.
  destruct (slice_40_32 buf ltac:(lia)) as [E40 L32].
  unfold extract_device_name. cbn [data_str new_SwitcherUDPMessage].
  f_equal. rewrite E40.
  assert (L70 : List.length (slice buf 2 70) = 70%nat) by (apply slice_length; lia).
  rewrite (frame_split buf) at 1. rewrite M.
  remember (slice buf 2 70) as mid eqn:Emid.
  destruct mid as [|c mid]; [discriminate|].
  cbn [app]. rewrite toString_utf8_magic by (now inversion A).
  rewrite (app_comm_cons mid _ c), toString_utf8_ascii_app by exact A.
  unfold usubstr.
  change (skipn 40 (REPLACEMENT :: REPLACEMENT :: ?l)) with (skipn 38 l).
  rewrite (firstn_skipn_app_exact (map byte_val (c :: mid)))
    by (rewrite length_map, L70; reflexivity).
  apply skipn_map.
Qed.

(** C7, as stated, fails: a name written at byte offset 20 is not what
    the decoder returns.  The frame holds Boiler in the bytes from offset
    20 and zero bytes from offset 26 on; the decoded name is empty. *)
Lemma device_name_not_at_offset_20 :
  well_formed_broadcast name_at_20_broadcast
  /\ remove_nul (map byte_val (slice name_at_20_broadcast 20 32))
     = ustring_of_string "Boiler"
  /\ extract_device_name (new_SwitcherUDPMessage name_at_20_broadcast) = []
  /\ extract_device_name (new_SwitcherUDPMessage name_at_20_broadcast)
     <> remove_nul (map byte_val (slice name_at_20_broadcast 20 32)).
Proof.
  split; [split; reflexivity|].
  split; [reflexivity|].
  split; [reflexivity|].
  vm_compute. discriminate.
Qed.

(** C7, amended: the name is the 32 characters at character offset 40 of
    the frame decoded as UTF-8 text, without the NUL characters; when the
    bytes 2 to 71 of the frame are ASCII, that is the ASCII string of the 32
    bytes at byte offset 40 without the NUL bytes. *)
Theorem device_name_at_offset_40 (buf : Buffer) :
  well_formed_broadcast buf ->
  extract_device_name (new_SwitcherUDPMessage buf)
  = remove_nul (usubstr (toString_utf8 buf) 40 32)
  /\ (ascii_bytes (slice buf 2 70) ->
      extract_device_name (new_SwitcherUDPMessage buf)
      = remove_nul (map byte_val (slice buf 40 32))).
Proof.
  intros W. split; [reflexivity|].
  intros A. now apply device_name_of_ascii_frame.
Qed.

Lemma ascii_broadcast_ascii : ascii_bytes (slice ascii_broadcast 2 70).
Proof.
  unfold ascii_bytes. apply Forall_forall. intros b Hb.
  vm_compute in Hb.
  repeat (destruct Hb as [<- | Hb]; [reflexivity|]). contradiction.
Qed.

Lemma device_name_at_offset_40_witness :
  well_formed_broadcast ascii_broadcast
  /\ ascii_bytes (slice ascii_broadcast 2 70)
  /\ extract_device_name (new_SwitcherUDPMessage ascii_broadcast)
     = ustring_of_string "Boiler".
Proof.
  assert (W : well_formed_broadcast ascii_broadcast) by (split; reflexivity).
  split; [exact W|]. split; [exact ascii_broadcast_ascii|].
  exact (proj2 (device_name_at_offset_40 ascii_broadcast W) ascii_broadcast_ascii).
Defined.

(** ** The session *)

Section Session.

Variable crc16ccitt : Buffer -> Z -> Z.
Hypothesis crc16ccitt_fits :
  forall buf : Buffer, 0 <= crc16ccitt buf 4129 < 4294967296.

(** A cached token short-circuits [_login]: nothing is built, written or
    awaited, and the instance and the world stay as they are. *)
Lemma _login_cached (this : Switcher) (w : World) (tok : string) :
  p_session this = JString tok -> tok <> "" ->
  _login crc16ccitt (this, w) = Return (JString tok) (this, w).
Proof.
  intros E N. unfold _login, bind, get_this. cbn [fst]. rewrite E.
  destruct tok; [congruence | reflexivity].
Qed.

Lemma _get_time_stamp_ok (this : Switcher) (w : World) :
  0 <= clock w < 4294967296 ->
  _get_time_stamp (this, w) = Return (toString_hex (le32 (clock w))) (this, w).
Proof.
  intros H. unfold _get_time_stamp. now rewrite pack_le32_in_range.
Qed.

Lemma sign_lift (p_data : string) (s : State) :
  lift (_crc_sign_full_packet_com_key crc16ccitt p_data P_KEY) s
  = Return (p_data ++ toString_hex (trailer crc16ccitt p_data))%string s.
Proof.
  rewrite (sign_any crc16ccitt crc16ccitt_fits). reflexivity.
Qed.

Lemma _getsocket_ready (this : Switcher) (w : World) :
  reachable w = true ->
  exists this' w' s,
    _getsocket (this, w) = Return s (this', w')
    /\ socket_usable (socket this') = true
    /\ same_identity this this'
    /\ clock w' = clock w /\ reachable w' = reachable w
    /\ inbox w' = inbox w /\ wire w' = wire w /\ emitted w' = emitted w.
Proof.
  intros R. destruct this as [did ip ph pass port ps sock ssock].
  destruct w as [clk reach inb wr con em]. cbn in R. subst reach.
  destruct sock as [[[|]]|]; do 3 eexists;
    (split; [reflexivity|]); repeat split.
Qed.

Lemma _getsocket_usable (this : Switcher) (w : World) :
  socket_usable (socket this) = true ->
  exists s, _getsocket (this, w) = Return s (this, w).
Proof.
  intros U. unfold _getsocket, bind, get_this. cbn [fst].
  destruct (socket this) as [s|]; [|discriminate].
  rewrite U. now exists s.
Qed.

(** One power command on a session that holds a token: it returns, logs in
    no more, and writes exactly one frame, the signed power frame built
    from the cached token. *)
Lemma power_command_with_token (this : Switcher) (w : World) (cmd tok : string) :
  p_session this = JString tok -> tok <> "" ->
  0 <= clock w < 4294967296 -> reachable w = true ->
  exists this' w',
    _run_power_command crc16ccitt cmd (this, w) = Return tt (this', w')
    /\ same_identity this this'
    /\ wire w'
       = (wire w
          ++ [signed_frame crc16ccitt
                (power_frame this (JString tok) (toString_hex (le32 (clock w))) cmd)])%list
    /\ clock w' = clock w /\ reachable w' = reachable w
    /\ inbox w' = tl (inbox w).
Proof.
  intros E N C R.
  unfold _run_power_command.
  unfold bind at 1. rewrite (_login_cached this w tok E N).
  unfold bind at 1. unfold get_this at 1. cbn [fst].
  unfold bind at 1. rewrite (_get_time_stamp_ok this w C).
  unfold bind at 1. rewrite sign_lift.
  destruct (_getsocket_ready this w R)
    as (this1 & w1 & s1 & G1 & U1 & I1 & C1 & R1 & B1 & W1 & M1).
  unfold bind at 1. rewrite G1.
  destruct (_getsocket_usable this1 w1 U1) as (s2 & G2).
  unfold bind at 1. unfold try_catch. unfold bind at 1. rewrite G2.
  unfold ret at 1.
  unfold bind, socket_write, once_data, emit.
  destruct this1 as [did ip ph pass port ps sock ssock].
  destruct w1 as [clk reach inb wr con em].
  cbn [inbox wire clock reachable emitted] in *.
  subst. 
  destruct (inbox w) as [|[d|e] rest]; cbn [inbox set_inbox];
    do 2 eexists; (split; [reflexivity|]);
    cbn [wire clock reachable inbox tl set_inbox mark_destroyed];
    (split; [|repeat split]).
  all: try exact I1.
  all: destruct I1 as (? & ? & ? & ? & ? & ? & ?); repeat split; assumption.
Qed.

(** *** The invariant of a logged-in session *)

Section Invariant.

Variable token : Buffer.
Variable wire0 : list Buffer.
Hypothesis token_length : List.length token = 4%nat.

Notation "'{{' c '}}' Q" := (keeps token wire0 c Q) (at level 10, c at level 200).

Lemma keeps_ret {A} (a : A) (Q : A -> Prop) : Q a -> {{ ret a }} Q.
Proof. intros H s I. cbn. auto. Qed.

Lemma keeps_throw {A} (e : Exn) (Q : A -> Prop) : {{ throw e }} Q.
Proof. intros s I. exact I. Qed.

Lemma keeps_bind {A B} (c : M A) (k : A -> M B) (Q : A -> Prop) (R : B -> Prop) :
  {{ c }} Q -> (forall a, Q a -> {{ k a }} R) -> {{ bind c k }} R.
Proof.
  intros Hc Hk s I. unfold bind. specialize (Hc s I).
  destruct (c s) as [a s'|e s'|s']; [|exact Hc|exact Hc].
  destruct Hc as [I' Qa]. exact (Hk a Qa s' I').
Qed.

Lemma keeps_weaken {A} (c : M A) (Q R : A -> Prop) :
  {{ c }} Q -> (forall a, Q a -> R a) -> {{ c }} R.
Proof.
  intros Hc QR s I. specialize (Hc s I).
  destruct (c s); [destruct Hc; split; auto | exact Hc | exact Hc].
Qed.

Lemma keeps_try_catch {A} (c : M A) (h : Exn -> M A) (Q : A -> Prop) :
  {{ c }} Q -> (forall e, {{ h e }} Q) -> {{ try_catch c h }} Q.
Proof.
  intros Hc Hh s I. unfold try_catch. specialize (Hc s I).
  destruct (c s) as [a s'|e s'|s']; [exact Hc | exact (Hh e s' Hc) | exact Hc].
Qed.

Lemma keeps_lift {A} (o : option A) (Q : A -> Prop) :
  (forall a, o = Some a -> Q a) -> {{ lift o }} Q.
Proof.
  intros H. destruct o as [a|]; [apply keeps_ret; auto | apply keeps_throw].
Qed.

Lemma keeps_get_this : {{ get_this }} (fun _ => True).
Proof. intros s I. cbn. auto. Qed.

Lemma keeps_set_socket (o : option TcpSocket) : {{ set_socket o }} (fun _ => True).
Proof. intros [this w] I. cbn. split; [exact I | exact Logic.I]. Qed.

Lemma keeps_emit (e : Event) : {{ emit e }} (fun _ => True).
Proof. intros [this w] I. cbn. split; [exact I | exact Logic.I]. Qed.

Lemma keeps__connect (port : Z) (ip : string) : {{ _connect port ip }} (fun _ => True).
Proof.
  intros [this w] I. unfold _connect.
  destruct (reachable w); [split; [exact I | exact Logic.I] | exact I].
Qed.

Lemma keeps__get_time_stamp : {{ _get_time_stamp }} (fun _ => True).
Proof.
  intros [this w] I. unfold _get_time_stamp.
  destruct (pack_le32 (clock w)); [split; [exact I | exact Logic.I] | exact I].
Qed.

Lemma inv_mark_destroyed (this : Switcher) (w : World) (l : list Reply) :
  session_invariant token wire0 (this, w) ->
  session_invariant token wire0 (mark_destroyed this, set_inbox w l).
Proof. intros I. exact I. Qed.

Lemma inv_set_inbox (this : Switcher) (w : World) (l : list Reply) :
  session_invariant token wire0 (this, w) ->
  session_invariant token wire0 (this, set_inbox w l).
Proof. intros I. exact I. Qed.

Lemma keeps_await_reply : {{ await_reply }} (fun _ => True).
Proof.
  intros [this w] I. unfold await_reply.
  destruct (inbox w) as [|[d|e] rest]; [exact I | split; [exact I | exact Logic.I] | exact I].
Qed.

Lemma keeps_once_data (handler : Buffer -> M unit) :
  (forall d, {{ handler d }} (fun _ => True)) ->
  {{ once_data handler }} (fun _ => True).
Proof.
  intros H [this w] I. unfold once_data.
  destruct (inbox w) as [|[d|e] rest].
  - split; [exact I | exact Logic.I].
  - apply H. now apply inv_set_inbox.
  - split; [exact I | exact Logic.I].
Qed.

(** Writing a frame keeps the invariant when the frame carries the token. *)
Lemma keeps_socket_write (buf : Buffer) :
  carries_token token buf -> {{ socket_write buf }} (fun _ => True).
Proof.
  intros G [this w] [P (frames & W & F)]. cbn in *.
  split; [|exact Logic.I]. split; [exact P|].
  exists (frames ++ [buf])%list. cbn. rewrite W, app_assoc. split; [reflexivity|].
  apply Forall_app. split; [exact F | now constructor].
Qed.

Lemma keeps_connect_and_keep (this : Switcher) :
  {{ connect_and_keep this }} (fun _ => True).
Proof.
  unfold connect_and_keep. apply keeps_try_catch.
  - eapply keeps_bind; [apply keeps__connect|]. intros s _.
    eapply keeps_bind; [apply keeps_set_socket|]. intros _ _.
    now apply keeps_ret.
  - intros e. eapply keeps_bind; [apply keeps_set_socket|]. intros _ _.
    eapply keeps_bind; [apply keeps_emit|]. intros _ _. apply keeps_throw.
Qed.

Lemma keeps__getsocket : {{ _getsocket }} (fun _ => True).
Proof.
  unfold _getsocket. eapply keeps_bind; [apply keeps_get_this|]. intros this _.
  destruct (socket this) as [s|]; [|apply keeps_connect_and_keep].
  destruct (socket_usable (Some s)); [now apply keeps_ret | apply keeps_connect_and_keep].
Qed.

Lemma token_not_empty : toString_hex token <> "".
Proof. destruct token; [discriminate token_length | discriminate]. Qed.

(** A frame whose dump starts with a header other than the login header
    and continues with the token carries the token. *)
Lemma frame_carries_token (header : Buffer) (rest tail : string) :
  List.length header = 8%nat -> header <> LOGIN_HEADER ->
  carries_token token
    (Buffer_from_hex ((toString_hex header ++ toString_hex token ++ rest) ++ tail)).
Proof.
  intros L N. rewrite !string_app_assoc, !Buffer_from_hex_app.
  unfold carries_token, frame_header, token_field, slice. split.
  - rewrite firstn_app, L, Nat.sub_diag, firstn_O, app_nil_r.
    rewrite firstn_all2 by lia. exact N.
  - rewrite skipn_app, L, Nat.sub_diag, skipn_O.
    rewrite skipn_all2 by lia. cbn [app].
    rewrite firstn_app, token_length, Nat.sub_diag, firstn_O, app_nil_r.
    apply firstn_all2. lia.
Qed.

Lemma keeps__login :
  {{ _login crc16ccitt }} (fun v => v = JString (toString_hex token)).
Proof.
  intros [this w] I. destruct I as [P F].
  rewrite (_login_cached this w (toString_hex token) P token_not_empty).
  split; [split; assumption | reflexivity].
Qed.

Lemma keeps_sign (p_data : string) :
  {{ lift (_crc_sign_full_packet_com_key crc16ccitt p_data P_KEY) }}
    (fun d => d = (p_data ++ toString_hex (trailer crc16ccitt p_data))%string).
Proof.
  apply keeps_lift. intros a E.
  rewrite (sign_any crc16ccitt crc16ccitt_fits) in E. now inversion E.
Qed.

Lemma keeps__run_power_command (command_type : string) :
  {{ _run_power_command crc16ccitt command_type }} (fun _ => True).
Proof.
  unfold _run_power_command.
  eapply keeps_bind; [apply keeps__login|]. intros p ->.
  eapply keeps_bind; [apply keeps_get_this|]. intros this _.
  eapply keeps_bind; [apply keeps__get_time_stamp|]. intros ts _.
  eapply keeps_bind; [apply keeps_sign|]. intros d ->.
  eapply keeps_bind; [apply keeps__getsocket|]. intros _ _.
  eapply keeps_bind with (Q := fun _ => True).
  { apply keeps_try_catch.
    - eapply keeps_bind; [apply keeps__getsocket|]. intros s _. now apply keeps_ret.
    - intros e. now apply keeps_ret. }
  intros [s|] _; [|now apply keeps_ret].
  eapply keeps_bind.
  - apply keeps_socket_write.
    exact (frame_carries_token POWER_HEADER _ _ eq_refl ltac:(discriminate)).
  - intros _ _. apply keeps_once_data. intros data. apply keeps_emit.
Qed.

Lemma keeps_turn_on (duration : Z) : {{ turn_on crc16ccitt duration }} (fun _ => True).
Proof.
  unfold turn_on. eapply keeps_bind with (Q := fun _ => True).
  - apply keeps_lift. auto.
  - intros timer _. apply keeps__run_power_command.
Qed.

Lemma keeps_set_default_shutdown (duration : Z) :
  {{ set_default_shutdown crc16ccitt duration }} (fun _ => True).
Proof.
  unfold set_default_shutdown.
  eapply keeps_bind with (Q := fun _ => True); [apply keeps_lift; auto|].
  intros auto_close _.
  eapply keeps_bind; [apply keeps__login|]. intros p ->.
  eapply keeps_bind; [apply keeps_get_this|]. intros this _.
  eapply keeps_bind; [apply keeps__get_time_stamp|]. intros ts _.
  eapply keeps_bind; [apply keeps_sign|]. intros d ->.
  eapply keeps_bind; [apply keeps__getsocket|]. intros _ _.
  eapply keeps_bind.
  - apply keeps_socket_write.
    exact (frame_carries_token SHUTDOWN_HEADER _ _ eq_refl ltac:(discriminate)).
  - intros _ _. apply keeps_once_data. intros data. apply keeps_emit.
Qed.

Lemma keeps_status : {{ status crc16ccitt }} (fun _ => True).
Proof.
  unfold status.
  eapply keeps_bind; [apply keeps__login|]. intros p ->.
  eapply keeps_bind; [apply keeps_get_this|]. intros this _.
  eapply keeps_bind; [apply keeps__get_time_stamp|]. intros ts _.
  eapply keeps_bind; [apply keeps_sign|]. intros d ->.
  eapply keeps_bind; [apply keeps__getsocket|]. intros _ _.
  eapply keeps_bind.
  - apply keeps_socket_write.
    exact (frame_carries_token STATUS_HEADER _ _ eq_refl ltac:(discriminate)).
  - intros _ _. apply keeps_once_data. intros data. apply keeps_emit.
Qed.

Lemma keeps_run_command (c : Command) : {{ run_command crc16ccitt c }} (fun _ => True).
Proof.
  destruct c; cbn [run_command].
  - apply keeps_turn_on.
  - apply keeps__run_power_command.
  - apply keeps_set_default_shutdown.
  - apply keeps_status.
Qed.

(** Any run of commands keeps the invariant. *)
Lemma keeps_run_all (cmds : list Command) : {{ run_all crc16ccitt cmds }} (fun _ => True).
Proof.
  induction cmds as [|c cmds IH]; cbn [run_all].
  - now apply keeps_ret.
  - eapply keeps_bind; [apply keeps_run_command|]. intros _ _. exact IH.
Qed.

Lemma invariant_of_final_state {A} (c : M A) (Q : A -> Prop) (s : State) :
  {{ c }} Q -> session_invariant token wire0 s ->
  session_invariant token wire0 (final_state (c s)).
Proof.
  intros K I. specialize (K s I). destruct (c s); cbn; tauto.
Qed.

End Invariant.

(** *** Logging in *)

Lemma login_frame_header (this : Switcher) (time_stamp : string) :
  frame_header (signed_frame crc16ccitt (login_frame this time_stamp)) = LOGIN_HEADER.
Proof.
  unfold signed_frame, login_frame.
  change "fef052000232a100" with (toString_hex LOGIN_HEADER).
  rewrite string_app_assoc, Buffer_from_hex_app. reflexivity.
Qed.

(** The login exchange of an instance without a token: one frame is
    written, and the token is cut out of the reply. *)
Lemma login_from_scratch (this : Switcher) (w : World) (reply : Buffer)
      (rest : list Reply) :
  truthy (p_session this) = false -> reachable w = true ->
  0 <= clock w < 4294967296 -> inbox w = Data reply :: rest ->
  exists this' w',
    _login crc16ccitt (this, w)
    = Return (JString (substr (toString_hex reply) 16 8)) (this', w')
    /\ p_session this' = JString (substr (toString_hex reply) 16 8)
    /\ wire w'
       = (wire w ++ [signed_frame crc16ccitt
                       (login_frame this (toString_hex (le32 (clock w))))])%list
    /\ clock w' = clock w /\ reachable w' = reachable w /\ inbox w' = rest.
Proof.
  intros T R C B.
  unfold _login. unfold bind at 1. unfold get_this at 1. cbn [fst]. rewrite T.
  unfold bind at 1. unfold try_catch. unfold bind at 1.
  unfold login_promise. unfold bind at 1. unfold get_this at 1. cbn [fst].
  unfold bind at 1. unfold unsettled_on_throw. unfold bind at 1.
  rewrite (_get_time_stamp_ok this w C). rewrite sign_lift.
  destruct (_getsocket_ready this w R)
    as (this1 & w1 & s1 & G1 & U1 & I1 & C1 & R1 & B1 & W1 & M1).
  unfold bind at 1. rewrite G1.
  unfold bind, socket_write, await_reply, ret, set_p_session, get_this.
  destruct this1 as [did ip ph pass port ps sock ssock].
  destruct w1 as [clk reach inb wr con em].
  cbn [inbox wire clock reachable emitted] in *. subst.
  rewrite B. cbn [inbox set_inbox fst].
  do 2 eexists. split; [reflexivity|]. repeat split.
Qed.

Lemma reply_token (reply : Buffer) :
  substr (toString_hex reply) 16 8 = toString_hex (slice reply 8 4).
Proof. exact (substr_slice reply 8 4). Qed.

Lemma power_frame_header (this : Switcher) (p : jsval) (time_stamp cmd : string) :
  frame_header (signed_frame crc16ccitt (power_frame this p time_stamp cmd))
  = POWER_HEADER.
Proof.
  unfold signed_frame, power_frame.
  change "fef05d0002320102" with (toString_hex POWER_HEADER).
  rewrite string_app_assoc, Buffer_from_hex_app. reflexivity.
Qed.

(** Two power commands in a row on a session that holds a token: both
    return, and between them they write two power frames carrying it. *)
Lemma two_power_commands (this : Switcher) (w : World) (token : Buffer)
      (cmd1 cmd2 : string) :
  List.length token = 4%nat ->
  p_session this = JString (toString_hex token) ->
  0 <= clock w < 4294967296 -> reachable w = true ->
  exists s2 f1 f2,
    bind (_run_power_command crc16ccitt cmd1)
         (fun _ => _run_power_command crc16ccitt cmd2) (this, w) = Return tt s2
    /\ wire (snd s2) = (wire w ++ [f1; f2])%list
    /\ frame_header f1 = POWER_HEADER /\ frame_header f2 = POWER_HEADER
    /\ token_field f1 = token /\ token_field f2 = token
    /\ p_session (fst s2) = JString (toString_hex token).
Proof.
  intros L P C R.
  pose proof (token_not_empty token L) as N.
  destruct (power_command_with_token this w cmd1 _ P N C R)
    as (this1 & w1 & E1 & I1 & W1 & C1 & R1 & _).
  assert (P1 : p_session this1 = JString (toString_hex token)).
  { destruct I1 as (_ & _ & _ & _ & _ & <- & _). exact P. }
  rewrite <- C1 in C. rewrite <- R1 in R.
  destruct (power_command_with_token this1 w1 cmd2 _ P1 N C R)
    as (this2 & w2 & E2 & I2 & W2 & C2 & R2 & _).
  unfold bind. rewrite E1. eexists _, _, _. split; [exact E2|].
  cbn [snd fst]. rewrite W2, W1, <- app_assoc. split; [reflexivity|].
  split; [apply power_frame_header|]. split; [apply power_frame_header|].
  split; [|split].
  - apply (frame_carries_token token L POWER_HEADER _ _ eq_refl ltac:(discriminate)).
  - apply (frame_carries_token token L POWER_HEADER _ _ eq_refl ltac:(discriminate)).
  - destruct I2 as (_ & _ & _ & _ & _ & <- & _). exact P1.
Qed.

End Session.

(** C5: once a login has succeeded and its token is cached, a further
    [_login] returns the cached token and does nothing else, two power
    commands in a row both return and write one power frame each with the
    token of the login reply in their token field, and whatever commands
    follow and however they end, every frame written after the login frame
    carries that token and none is a login frame. *)
Theorem token_reused_without_second_login
    (crc16ccitt : Buffer -> Z -> Z)
    (crc16ccitt_fits : forall buf, 0 <= crc16ccitt buf 4129 < 4294967296)
    (this : Switcher) (w : World) (reply : Buffer) (rest : list Reply) :
  truthy (p_session this) = false -> reachable w = true ->
  0 <= clock w < 4294967296 -> inbox w = Data reply :: rest ->
  (12 <= List.length reply)%nat ->
  let token := slice reply 8 4 in
  exists (logged_in : State) (login : Buffer),
    _login crc16ccitt (this, w) = Return (JString (toString_hex token)) logged_in
    /\ wire (snd logged_in) = (wire w ++ [login])%list
    /\ frame_header login = LOGIN_HEADER
    /\ _login crc16ccitt logged_in = Return (JString (toString_hex token)) logged_in
    /\ (forall cmd1 cmd2 : string,
          exists s2 f1 f2,
            bind (_run_power_command crc16ccitt cmd1)
                 (fun _ => _run_power_command crc16ccitt cmd2) logged_in
            = Return tt s2
            /\ wire (snd s2) = (wire w ++ [login; f1; f2])%list
            /\ frame_header f1 = POWER_HEADER /\ frame_header f2 = POWER_HEADER
            /\ token_field f1 = token /\ token_field f2 = token
            /\ p_session (fst s2) = JString (toString_hex token))
    /\ (forall cmds : list Command,
          session_invariant token (wire w ++ [login])
            (final_state (run_all crc16ccitt cmds logged_in))).
Proof.
  intros T R C B L token.
  assert (L4 : List.length token = 4%nat) by (apply slice_length; lia).
  destruct (login_from_scratch crc16ccitt crc16ccitt_fits this w reply rest T R C B)
    as (this1 & w1 & E & P & W & C1 & R1 & _).
  rewrite reply_token in E, P. fold token in E, P.
  exists (this1, w1), (signed_frame crc16ccitt
                         (login_frame this (toString_hex (le32 (clock w))))).
  split; [exact E|]. split; [exact W|].
  split; [apply login_frame_header|].
  split; [apply _login_cached; [exact P | now apply token_not_empty]|].
  split.
  - intros cmd1 cmd2. rewrite <- C1 in C. rewrite <- R1 in R.
    destruct (two_power_commands crc16ccitt crc16ccitt_fits this1 w1 token cmd1 cmd2
                L4 P C R) as (s2 & f1 & f2 & E2 & W2 & H1 & H2 & T1 & T2 & P2).
    exists s2, f1, f2. split; [exact E2|].
    rewrite W2. cbn [snd] in W. rewrite W, <- app_assoc.
    repeat split; assumption.
  - intros cmds.
    apply invariant_of_final_state with (Q := fun _ => True).
    + now apply keeps_run_all.
    + split; [exact P|]. exists []. cbn [snd] in *. rewrite W, app_nil_r.
      split; [reflexivity | constructor].
Qed.

Lemma token_reused_without_second_login_witness :
  exists (logged_in : State) (login : Buffer),
    _login Crc.crc16ccitt (new_Switcher sample_device_id sample_ip, sample_world)
    = Return (JString "deadbeef") logged_in
    /\ wire (snd logged_in) = [login]
    /\ frame_header login = LOGIN_HEADER
    /\ _login Crc.crc16ccitt logged_in = Return (JString "deadbeef") logged_in
    /\ (forall cmd1 cmd2 : string,
          exists s2 f1 f2,
            bind (_run_power_command Crc.crc16ccitt cmd1)
                 (fun _ => _run_power_command Crc.crc16ccitt cmd2) logged_in
            = Return tt s2
            /\ wire (snd s2) = [login; f1; f2]
            /\ frame_header f1 = POWER_HEADER /\ frame_header f2 = POWER_HEADER
            /\ token_field f1 = [xde; xad; xbe; xef]
            /\ token_field f2 = [xde; xad; xbe; xef]
            /\ p_session (fst s2) = JString "deadbeef")
    /\ (forall cmds : list Command,
          session_invariant [xde; xad; xbe; xef] [login]
            (final_state (run_all Crc.crc16ccitt cmds logged_in))).
Proof.
  apply (token_reused_without_second_login Crc.crc16ccitt crc16ccitt_fits32
           (new_Switcher sample_device_id sample_ip) sample_world
           sample_login_reply []).
  - reflexivity.
  - reflexivity.
  - cbn. lia.
  - reflexivity.
  - cbn. lia.
Defined.

(** ** Turning on for a duration *)

Lemma byte_val_of_Z (z : Z) : byte_val (byte_of_Z z) = z mod 256.
Proof.
  unfold byte_val, byte_of_Z.
  assert (B : 0 <= z mod 256 < 256) by (apply Z.mod_pos_bound; lia).
  destruct (Byte.of_N (Z.to_N (z mod 256))) as [b|] eqn:E.
  - apply Byte.to_of_N in E. rewrite E. lia.
  - apply Byte.of_N_None_iff in E. lia.
Qed.

(** Four little-endian bytes hold every value below 2^32. *)
Lemma le_value_le32 (v : Z) : 0 <= v < 4294967296 -> le_value (le32 v) = v.
Proof.
  intros H. unfold le_value, le32. cbn [fold_right].
  rewrite !byte_val_of_Z, !Z.shiftr_div_pow2 by lia.
  change (2 ^ 8) with 256. change (2 ^ 16) with 65536. change (2 ^ 24) with 16777216.
  Z.div_mod_to_equations. lia.
Qed.

(** And nothing more. *)
Lemma le_value_4_bound (bytes : Buffer) :
  List.length bytes = 4%nat -> 0 <= le_value bytes < 4294967296.
Proof.
  intros L. destruct bytes as [|a [|b [|c [|d [|e l]]]]]; try discriminate.
  pose proof (byte_val_range a). pose proof (byte_val_range b).
  pose proof (byte_val_range c). pose proof (byte_val_range d).
  unfold le_value. cbn [fold_right]. lia.
Qed.

Lemma _timer_value_in_range (minutes : Z) :
  0 <= minutes -> minutes * 60 < 4294967296 ->
  _timer_value minutes = Some (toString_hex (le32 (minutes * 60))).
Proof.
  intros H0 H1. unfold _timer_value.
  destruct (Z.eqb_spec minutes 0) as [->|N]; [reflexivity|].
  rewrite pack_le32_in_range by lia. reflexivity.
Qed.

Lemma power_frame_as_bytes (this : Switcher) (token id time_stamp dur : Buffer) :
  well_formed_session this token id ->
  power_frame this (JString (toString_hex token)) (toString_hex time_stamp)
              (decimal ON ++ "00" ++ toString_hex dur)
  = toString_hex (power_frame_bytes token time_stamp id [x01; x00] dur).
Proof.
  intros (_ & _ & Hid & _ & Hph & Hpass).
  unfold power_frame, power_frame_bytes.
  rewrite Hid, Hph, Hpass, !toString_hex_app. reflexivity.
Qed.

Lemma power_frame_bytes_layout (token time_stamp id dur tail : Buffer) :
  List.length token = 4%nat -> List.length time_stamp = 4%nat ->
  List.length id = 3%nat -> List.length dur = 4%nat -> List.length tail = 4%nat ->
  let frame := (power_frame_bytes token time_stamp id [x01; x00] dur ++ tail)%list in
  List.length frame = 93%nat
  /\ state_marker_field frame = [x01; x00]
  /\ duration_field frame = dur.
Proof.
  intros Lt Ls Li Ld Ll.
  destruct token as [|t0 [|t1 [|t2 [|t3 [|? ?]]]]]; try discriminate.
  destruct time_stamp as [|s0 [|s1 [|s2 [|s3 [|? ?]]]]]; try discriminate.
  destruct id as [|i0 [|i1 [|i2 [|? ?]]]]; try discriminate.
  destruct dur as [|d0 [|d1 [|d2 [|d3 [|? ?]]]]]; try discriminate.
  destruct tail as [|c0 [|c1 [|c2 [|c3 [|? ?]]]]]; try discriminate.
  repeat split.
Qed.

Lemma trailer_length (crc16 : Buffer -> Z -> Z) (p_data : string) :
  List.length (trailer crc16 p_data) = 4%nat.
Proof. reflexivity. Qed.

(** C8, as stated, fails for a duration whose seconds do not fit in 32
    bits: no four bytes hold 71582789 * 60, and [turn_on] throws before
    any frame is built. *)
Lemma turn_on_duration_overflow :
  0 <= 71582789
  /\ _timer_value 71582789 = None
  /\ (forall bytes : Buffer,
        List.length bytes = 4%nat -> le_value bytes <> 71582789 * 60)
  /\ (forall (crc16 : Buffer -> Z -> Z) (s : State),
        turn_on crc16 71582789 s = Throw RangeError s).
Proof.
  split; [lia|]. split; [reflexivity|]. split.
  - intros bytes L E. pose proof (le_value_4_bound bytes L). lia.
  - intros crc16 s. reflexivity.
Qed.

(** C8, amended: for every non-negative whole number of minutes whose
    seconds fit in 32 bits, [turn_on] encodes the state marker 01 and the
    duration [minutes * 60] on four little-endian bytes, four zero bytes
    for 0; on a logged-in session it writes one frame of 93 bytes with
    that duration in its duration field. *)
Theorem turn_on_encodes_duration
    (crc16ccitt : Buffer -> Z -> Z)
    (crc16ccitt_fits : forall buf, 0 <= crc16ccitt buf 4129 < 4294967296)
    (minutes : Z) :
  0 <= minutes -> minutes * 60 < 4294967296 ->
  _timer_value minutes = Some (toString_hex (le32 (minutes * 60)))
  /\ le_value (le32 (minutes * 60)) = minutes * 60
  /\ le32 (0 * 60) = [x00; x00; x00; x00]
  /\ (forall (this : Switcher) (w : World) (token id : Buffer),
        well_formed_session this token id ->
        0 <= clock w < 4294967296 -> reachable w = true ->
        exists (s' : State) (frame : Buffer),
          turn_on crc16ccitt minutes (this, w) = Return tt s'
          /\ wire (snd s') = (wire w ++ [frame])%list
          /\ List.length frame = 93%nat
          /\ state_marker_field frame = [x01; x00]
          /\ duration_field frame = le32 (minutes * 60)).
Proof.
  intros H0 H1.
  split; [now apply _timer_value_in_range|].
  split; [apply le_value_le32; lia|].
  split; [reflexivity|].
  intros this w token id S C R.
  pose proof S as (P & Lt & _ & Li & _ & _).
  unfold turn_on, bind.
  rewrite (_timer_value_in_range minutes H0 H1). cbn [lift ret].
  destruct (power_command_with_token crc16ccitt crc16ccitt_fits this w
              (decimal ON ++ "00" ++ toString_hex (le32 (minutes * 60)))%string
              (toString_hex token) P (token_not_empty token Lt) C R)
    as (this' & w' & E & _ & W & _).
  exists (this', w'). eexists. split; [exact E|]. split; [exact W|].
  unfold signed_frame.
  rewrite (power_frame_as_bytes this token id (le32 (clock w)) _ S).
  rewrite Buffer_from_hex_app, Buffer_from_hex_toString.
  apply power_frame_bytes_layout; try assumption; reflexivity.
Qed.

Lemma turn_on_encodes_duration_witness :
  (_timer_value 10 = Some "58020000" /\ le_value (le32 (10 * 60)) = 600
   /\ exists (s' : State) (frame : Buffer),
        turn_on Crc.crc16ccitt 10 (sample_session, sample_world) = Return tt s'
        /\ wire (snd s') = [frame]
        /\ List.length frame = 93%nat
        /\ state_marker_field frame = [x01; x00]
        /\ duration_field frame = [x58; x02; x00; x00])
  /\ (_timer_value 0 = Some "00000000"
      /\ exists (s' : State) (frame : Buffer),
           turn_on Crc.crc16ccitt 0 (sample_session, sample_world) = Return tt s'
           /\ wire (snd s') = [frame]
           /\ List.length frame = 93%nat
           /\ state_marker_field frame = [x01; x00]
           /\ duration_field frame = [x00; x00; x00; x00]).
Proof.
  assert (S : well_formed_session sample_session [xde; xad; xbe; xef] [xa1; xb2; xc3])
    by (repeat split).
  assert (C : 0 <= clock sample_world < 4294967296) by (cbn; lia).
  split.
  - destruct (turn_on_encodes_duration Crc.crc16ccitt crc16ccitt_fits32 10
                ltac:(lia) ltac:(lia)) as (T & V & _ & F).
    split; [exact T|]. split; [exact V|].
    exact (F sample_session sample_world _ _ S C eq_refl).
  - destruct (turn_on_encodes_duration Crc.crc16ccitt crc16ccitt_fits32 0
                ltac:(lia) ltac:(lia)) as (T & _ & _ & F).
    split; [exact T|].
    exact (F sample_session sample_world _ _ S C eq_refl).
Defined.

(** ** Closing *)

(** The TCP half of [close()] is idempotent: a destroyed socket is left
    alone. *)
Lemma close_destroys_tcp (this : Switcher) (w : World) :
  socket_usable (socket (fst (final_state (close (this, w))))) = false.
Proof.
  destruct this as [did ip ph pass port ps [[[|]]|] [[|]]]; reflexivity.
Qed.

(** On any instance whose status listener is open, a first [close()]
    returns and a second one throws: the guard reads [destroyed], which a
    dgram socket does not have, so [status_socket.close()] is called again
    on the closed socket. *)
Lemma close_twice (this : Switcher) (w : World) :
  dgram_open (status_socket this) = true ->
  exists s1, close (this, w) = Return tt s1
             /\ close s1 = Throw ERR_SOCKET_DGRAM_NOT_RUNNING s1.
Proof.
  intros O. destruct this as [did ip ph pass port ps sock [o]].
  cbn in O. subst o.
  destruct sock as [[[|]]|]; eexists; split; reflexivity.
Qed.

(** C9: on a freshly constructed instance the second [close()] in a row
    throws, so [close()] is not idempotent. *)
Theorem close_twice_throws :
  exists s1,
    close (new_Switcher sample_device_id sample_ip, sample_world) = Return tt s1
    /\ dgram_open (status_socket (fst s1)) = false
    /\ close s1 = Throw ERR_SOCKET_DGRAM_NOT_RUNNING s1.
Proof. eexists. repeat split. Qed.

(** ** Discovery *)

(** No timer of Node waits less than 1 ms. *)
Lemma timer_delay_min (after : option Z) : 1 <= timer_delay after.
Proof.
  unfold timer_delay. destruct after as [n|]; [|lia].
  destruct (Z.leb_spec 1 n); cbn; [|lia].
  destruct (Z.leb_spec n TIMEOUT_MAX); lia.
Qed.

(** C10: [discover] arms the closing timer whatever [discovery_timeout]
    is; when it is [undefined] the delay asked for is [NaN], the timer goes
    off after 1 ms, the least delay a timer can have, and its callback
    closes the socket and drops it, after which no broadcast is handled. *)
Theorem discover_always_arms_timeout
    (identifier : jsval) (discovery_timeout : option Z) :
  timeout (discover identifier discovery_timeout)
  = Some (times_1000 discovery_timeout)
  /\ timeout_armed (discover identifier discovery_timeout) = true
  /\ timeout (discover identifier None) = Some None
  /\ fires_after (discover identifier None) = Some 1
  /\ (forall after : option Z, 1 <= timer_delay after)
  /\ exists closed : Discovery,
       on_timeout (discover identifier None) = Some closed
       /\ disc_socket closed = None
       /\ proxy_events closed = []
       /\ forall (raw_msg : Buffer) (ipaddr : string),
            on_message closed raw_msg ipaddr = Some closed.
Proof.
  repeat split; try reflexivity.
  - apply timer_delay_min.
  - eexists. repeat split.
Qed.

(* ================================================================== *)
(** * Further properties of the code                                    *)
(* ================================================================== *)

(** ** The status listener and the reply decoder *)

Lemma toString_hex_length (buf : Buffer) :
  String.length (toString_hex buf) = (2 * List.length buf)%nat.
Proof.
  induction buf as [|b buf IH]; [reflexivity|].
  cbn [toString_hex List.length]. unfold byte_hex. cbn [append String.length].
  rewrite IH. lia.
Qed.

Lemma substring_beyond (s : string) (n m : nat) :
  (String.length s <= n)%nat -> substring n m s = "".
Proof.
  revert n. induction s as [|c s IH]; intros n H.
  - destruct n, m; reflexivity.
  - destruct n as [|n]; [cbn in H; lia|]. cbn. apply IH. cbn in H. lia.
Qed.

Lemma substr_beyond (buf : Buffer) (start len : nat) :
  (2 * List.length buf <= start)%nat ->
  substr (toString_hex buf) start len = "".
Proof.
  intros H. apply substring_beyond. rewrite toString_hex_length. lia.
Qed.

(** X1: [is_valid] accepts a datagram exactly when it starts with FE F0 or
    is 165 bytes long; either one is enough. *)
Theorem is_valid_magic_or_length (buf : Buffer) :
  is_valid buf = true
  <-> (firstn 2 buf = [xfe; xf0] \/ List.length buf = 165%nat).
Proof. apply is_valid_iff. Qed.

(** X2: the status listener turns a broadcast of 165 bytes that starts
    with FE F0 into exactly one [status] event, whose state, remaining
    time, default shutdown and power are the values at byte offsets 133,
    147, 155 and 135; it writes nothing and leaves the instance alone. *)
Theorem status_listener_reports_fields (buf : Buffer) (this : Switcher) (w : World) :
  well_formed_broadcast buf ->
  exists (report : StatusReport) (w' : World),
    status_on_message buf (this, w) = Return tt (this, w')
    /\ emitted w' = (emitted w ++ [STATUS_EVENT report])%list
    /\ wire w' = wire w /\ inbox w' = inbox w
    /\ name report = remove_nul (usubstr (toString_utf8 buf) 40 32)
    /\ (state report = OFF <-> slice buf 133 2 = [x00; x00])
    /\ (state report = OFF \/ state report = ON)
    /\ remaining_seconds report = Some (le_value (slice buf 147 4))
    /\ default_shutdown_seconds report = Some (le_value (slice buf 155 4))
    /\ power_consumption report = Some (le_value (slice buf 135 2)).
Proof.
  intros [L Mg].
  assert (V : is_valid buf = true) by (apply is_valid_iff; now left).
  unfold status_on_message. rewrite V. cbn [negb].
  do 2 eexists. split; [reflexivity|].
  cbn [emitted wire inbox name state remaining_seconds default_shutdown_seconds
       power_consumption].
  split; [reflexivity|]. split; [reflexivity|]. split; [reflexivity|].
  split; [reflexivity|].
  split; [apply extract_switch_state_slice; lia|].
  split.
  { unfold extract_switch_state. destruct (String.eqb _ _); auto. }
  split; [apply extract_shutdown_remaining_seconds_slice; lia|].
  split; [apply extract_default_shutdown_seconds_slice; lia|].
  apply extract_power_consumption_slice; lia.
Qed.

Lemma status_listener_reports_fields_witness :
  well_formed_broadcast sample_broadcast
  /\ exists (report : StatusReport) (w' : World),
       status_on_message sample_broadcast (sample_session, sample_world)
       = Return tt (sample_session, w')
       /\ emitted w' = [STATUS_EVENT report]
       /\ state report = ON
       /\ remaining_seconds report = Some 3600
       /\ default_shutdown_seconds report = Some 7200
       /\ power_consumption report = Some 2500.
Proof.
  assert (W : well_formed_broadcast sample_broadcast) by (split; reflexivity).
  split; [exact W|].
  destruct (status_listener_reports_fields sample_broadcast sample_session
              sample_world W)
    as (r & w' & E & Em & _ & _ & _ & Off & St & Rm & Ds & Pw).
  exists r, w'. split; [exact E|]. split; [exact Em|].
  split.
  { destruct St as [S|S]; [|exact S]. apply Off in S. discriminate S. }
  split; [exact Rm|]. split; [exact Ds|]. exact Pw.
Defined.

(** X3: a datagram that neither starts with FE F0 nor is 165 bytes long is
    dropped by the status listener: no event, nothing changes. *)
Theorem status_listener_ignores_foreign (buf : Buffer) (s : State) :
  firstn 2 buf <> [xfe; xf0] -> List.length buf <> 165%nat ->
  status_on_message buf s = Return tt s.
Proof.
  intros Mg L. unfold status_on_message.
  destruct (is_valid buf) eqn:V; [|reflexivity].
  apply is_valid_iff in V. tauto.
Qed.

Lemma status_listener_ignores_foreign_witness :
  status_on_message [x01; x02; x03] (sample_session, sample_world)
  = Return tt (sample_session, sample_world).
Proof.
  apply status_listener_ignores_foreign; [discriminate | discriminate].
Defined.

(** X4: a datagram that starts with FE F0 and has at most 133 bytes is
    accepted by the status listener all the same, and the event it emits
    reports the state ON and [NaN] for the remaining time, the default
    shutdown and the power. *)
Theorem status_listener_short_datagram (buf : Buffer) (this : Switcher) (w : World) :
  firstn 2 buf = [xfe; xf0] -> (List.length buf <= 133)%nat ->
  exists (report : StatusReport) (w' : World),
    status_on_message buf (this, w) = Return tt (this, w')
    /\ emitted w' = (emitted w ++ [STATUS_EVENT report])%list
    /\ state report = ON
    /\ remaining_seconds report = None
    /\ default_shutdown_seconds report = None
    /\ power_consumption report = None.
Proof.
  intros Mg L.
  assert (V : is_valid buf = true) by (apply is_valid_iff; now left).
  unfold status_on_message. rewrite V. cbn [negb].
  do 2 eexists. split; [reflexivity|].
  cbn [emitted state remaining_seconds default_shutdown_seconds power_consumption].
  split; [reflexivity|].
  unfold extract_switch_state, extract_shutdown_remaining_seconds,
    extract_default_shutdown_seconds, extract_power_consumption.
  cbn [data_hex new_SwitcherUDPMessage].
  rewrite (substr_beyond buf 266 4), (substr_beyond buf 294 8),
    (substr_beyond buf 310 8), (substr_beyond buf 270 4) by lia.
  repeat split.
Qed.

Lemma status_listener_short_datagram_witness :
  exists (report : StatusReport) (w' : World),
    status_on_message [xfe; xf0] (sample_session, sample_world)
    = Return tt (sample_session, w')
    /\ emitted w' = [STATUS_EVENT report]
    /\ state report = ON
    /\ remaining_seconds report = None
    /\ default_shutdown_seconds report = None
    /\ power_consumption report = None.
Proof.
  apply (status_listener_short_datagram [xfe; xf0] sample_session sample_world).
  - reflexivity.
  - cbn. lia.
Defined.

(** X5: the decoder of the reply to a status query reads, from a reply of
    at least 101 bytes, the state at byte offset 75 (OFF exactly when both
    bytes are zero), the power as the little-endian 16-bit value at 77, the
    remaining time and the default shutdown as the little-endian 32-bit
    values at 89 and 97. *)
Theorem decode_status_reply_fields (data : Buffer) :
  (101 <= List.length data)%nat ->
  (state (decode_status_reply data) = OFF <-> slice data 75 2 = [x00; x00])
  /\ (state (decode_status_reply data) = OFF \/ state (decode_status_reply data) = ON)
  /\ power_consumption (decode_status_reply data) = Some (le_value (slice data 77 2))
  /\ remaining_seconds (decode_status_reply data) = Some (le_value (slice data 89 4))
  /\ default_shutdown_seconds (decode_status_reply data)
     = Some (le_value (slice data 97 4)).
Proof.
  intros L. unfold decode_status_reply.
  cbn [state power_consumption remaining_seconds default_shutdown_seconds].
  hex_slice data 75%nat 2%nat. hex_slice data 77%nat 2%nat.
  hex_slice data 89%nat 4%nat. hex_slice data 97%nat 4%nat.
  destruct (slice2 data 75 ltac:(lia)) as (a & b & ->).
  destruct (slice2 data 77 ltac:(lia)) as (c & d & ->).
  destruct (slice4 data 89 ltac:(lia)) as (r0 & r1 & r2 & r3 & ->).
  destruct (slice4 data 97 ltac:(lia)) as (d0 & d1 & d2 & d3 & ->).
  pose proof (zero_state a b) as Z.
  split; [|split; [|split; [apply parse_le16 | split; apply parse_le32]]].
  - destruct (String.eqb (toString_hex [a; b]) "0000").
    + split; [intros _; now apply Z | reflexivity].
    + split; [discriminate | intros E; apply Z in E; discriminate].
  - destruct (String.eqb (toString_hex [a; b]) "0000"); auto.
Qed.

Lemma decode_status_reply_fields_witness :
  (101 <= List.length (repeat x00 75 ++ [x01; x00; xc4; x09] ++ repeat x00 10
                       ++ [x10; x0e; x00; x00] ++ repeat x00 4
                       ++ [x20; x1c; x00; x00])%list)%nat
  /\ power_consumption
       (decode_status_reply
          (repeat x00 75 ++ [x01; x00; xc4; x09] ++ repeat x00 10
           ++ [x10; x0e; x00; x00] ++ repeat x00 4 ++ [x20; x1c; x00; x00])%list)
     = Some 2500
  /\ remaining_seconds
       (decode_status_reply
          (repeat x00 75 ++ [x01; x00; xc4; x09] ++ repeat x00 10
           ++ [x10; x0e; x00; x00] ++ repeat x00 4 ++ [x20; x1c; x00; x00])%list)
     = Some 3600
  /\ default_shutdown_seconds
       (decode_status_reply
          (repeat x00 75 ++ [x01; x00; xc4; x09] ++ repeat x00 10
           ++ [x10; x0e; x00; x00] ++ repeat x00 4 ++ [x20; x1c; x00; x00])%list)
     = Some 7200.
Proof.
  assert (L : (101 <= List.length
                        (repeat x00 75 ++ [x01; x00; xc4; x09] ++ repeat x00 10
                         ++ [x10; x0e; x00; x00] ++ repeat x00 4
                         ++ [x20; x1c; x00; x00])%list)%nat) by (cbn; lia).
  split; [exact L|].
  destruct (decode_status_reply_fields _ L) as (_ & _ & P & R & D).
  split; [exact P|]. split; [exact R | exact D].
Defined.

(** X6: from a reply of at most 75 bytes the decoder reports the state ON
    and [NaN] for the power, the remaining time and the default
    shutdown. *)
Theorem decode_status_reply_short (data : Buffer) :
  (List.length data <= 75)%nat ->
  state (decode_status_reply data) = ON
  /\ power_consumption (decode_status_reply data) = None
  /\ remaining_seconds (decode_status_reply data) = None
  /\ default_shutdown_seconds (decode_status_reply data) = None.
Proof.
  intros L. unfold decode_status_reply.
  cbn [state power_consumption remaining_seconds default_shutdown_seconds].
  rewrite (substr_beyond data 150 4), (substr_beyond data 154 4),
    (substr_beyond data 178 8), (substr_beyond data 194 8) by lia.
  repeat split.
Qed.

Lemma decode_status_reply_short_witness :
  state (decode_status_reply []) = ON
  /\ power_consumption (decode_status_reply []) = None
  /\ remaining_seconds (decode_status_reply []) = None
  /\ default_shutdown_seconds (decode_status_reply []) = None.
Proof. apply decode_status_reply_short. cbn. lia. Defined.

(** ** The frames of the commands *)

(** What every command frame has in common. *)
Lemma command_frame_layout (header token time_stamp id rest : Buffer) :
  List.length header = 8%nat -> List.length token = 4%nat ->
  List.length time_stamp = 4%nat -> List.length id = 3%nat ->
  let frame := (header ++ token ++ Buffer_from_hex "340001000000000000000000"
                ++ time_stamp ++ Buffer_from_hex "00000000000000000000f0fe"
                ++ id ++ rest)%list in
  frame_header frame = header
  /\ token_field frame = token
  /\ time_stamp_field frame = time_stamp
  /\ device_id_field frame = id
  /\ declared_length frame = le_value (slice header 2 2)
  /\ List.length frame = (43 + List.length rest)%nat.
Proof.
  intros Lh Lt Ls Li.
  destruct header as [|h0 [|h1 [|h2 [|h3 [|h4 [|h5 [|h6 [|h7 [|? ?]]]]]]]]];
    try discriminate.
  destruct token as [|t0 [|t1 [|t2 [|t3 [|? ?]]]]]; try discriminate.
  destruct time_stamp as [|s0 [|s1 [|s2 [|s3 [|? ?]]]]]; try discriminate.
  destruct id as [|i0 [|i1 [|i2 [|? ?]]]]; try discriminate.
  repeat split.
Qed.

Section Commands.

Variable crc16ccitt : Buffer -> Z -> Z.
Hypothesis crc16ccitt_fits :
  forall buf : Buffer, 0 <= crc16ccitt buf 4129 < 4294967296.

(** On an open connection and with a token, a power command comes down to
    one write and the wait for its reply. *)
Lemma power_command_on_open_socket (this : Switcher) (w : World) (cmd tok : string) :
  p_session this = JString tok -> tok <> "" ->
  0 <= clock w < 4294967296 -> socket_usable (socket this) = true ->
  _run_power_command crc16ccitt cmd (this, w)
  = bind (socket_write
            (signed_frame crc16ccitt
               (power_frame this (JString tok) (toString_hex (le32 (clock w))) cmd)))
         (fun _ => once_data
                     (fun _ => emit (STATE_CHANGED_EVENT (substr cmd 0 1))))
         (this, w).
Proof.
  intros E N C U.
  unfold _run_power_command.
  unfold bind at 1. rewrite (_login_cached crc16ccitt this w tok E N).
  unfold bind at 1. unfold get_this at 1. cbn [fst].
  unfold bind at 1. rewrite (_get_time_stamp_ok this w C).
  unfold bind at 1. rewrite (sign_lift crc16ccitt crc16ccitt_fits).
  destruct (_getsocket_usable this w U) as (s & G).
  unfold bind at 1. rewrite G.
  unfold bind at 1. unfold try_catch. unfold bind at 1. rewrite G.
  reflexivity.
Qed.

Lemma status_on_open_socket (this : Switcher) (w : World) (tok : string) :
  p_session this = JString tok -> tok <> "" ->
  0 <= clock w < 4294967296 -> socket_usable (socket this) = true ->
  status crc16ccitt (this, w)
  = bind (socket_write
            (signed_frame crc16ccitt
               (status_frame this (JString tok) (toString_hex (le32 (clock w))))))
         (fun _ => once_data
                     (fun data => emit (STATUS_CALLBACK (decode_status_reply data))))
         (this, w).
Proof.
  intros E N C U.
  unfold status.
  unfold bind at 1. rewrite (_login_cached crc16ccitt this w tok E N).
  unfold bind at 1. unfold get_this at 1. cbn [fst].
  unfold bind at 1. rewrite (_get_time_stamp_ok this w C).
  unfold bind at 1. rewrite (sign_lift crc16ccitt crc16ccitt_fits).
  destruct (_getsocket_usable this w U) as (s & G).
  unfold bind at 1. rewrite G.
  reflexivity.
Qed.

Lemma shutdown_on_open_socket (this : Switcher) (w : World) (tok : string)
      (duration : Z) (auto_close : jsval) :
  _set_default_shutdown duration = Some auto_close ->
  p_session this = JString tok -> tok <> "" ->
  0 <= clock w < 4294967296 -> socket_usable (socket this) = true ->
  set_default_shutdown crc16ccitt duration (this, w)
  = bind (socket_write
            (signed_frame crc16ccitt
               (shutdown_frame this (JString tok) (toString_hex (le32 (clock w)))
                  auto_close)))
         (fun _ => once_data (fun _ => emit (DURATION_CHANGED_EVENT duration)))
         (this, w).
Proof.
  intros A E N C U.
  unfold set_default_shutdown.
  unfold bind at 1. rewrite A. cbn [lift]. unfold ret at 1.
  unfold bind at 1. rewrite (_login_cached crc16ccitt this w tok E N).
  unfold bind at 1. unfold get_this at 1. cbn [fst].
  unfold bind at 1. rewrite (_get_time_stamp_ok this w C).
  unfold bind at 1. rewrite (sign_lift crc16ccitt crc16ccitt_fits).
  destruct (_getsocket_usable this w U) as (s & G).
  unfold bind at 1. rewrite G.
  reflexivity.
Qed.

(** One write and a reply that is there: the frame is on the wire, the
    reply is consumed and the event of the handler is emitted. *)
Lemma write_then_reply (frame reply : Buffer) (rest : list Reply)
      (event : Buffer -> Event) (this : Switcher) (w : World) :
  inbox w = Data reply :: rest ->
  exists w',
    bind (socket_write frame) (fun _ => once_data (fun data => emit (event data)))
         (this, w) = Return tt (this, w')
    /\ wire w' = (wire w ++ [frame])%list
    /\ emitted w' = (emitted w ++ [event reply])%list
    /\ inbox w' = rest /\ connects w' = connects w.
Proof.
  intros B. unfold bind, socket_write, once_data, emit.
  cbn [inbox]. rewrite B. cbn [set_inbox inbox wire emitted connects clock reachable].
  eexists. repeat split.
Qed.

Lemma status_frame_as_bytes (this : Switcher) (token id time_stamp : Buffer) :
  well_formed_session this token id ->
  status_frame this (JString (toString_hex token)) (toString_hex time_stamp)
  = toString_hex (status_frame_bytes token time_stamp id).
Proof.
  intros (_ & _ & Hid & _ & _ & _).
  unfold status_frame, status_frame_bytes.
  rewrite Hid, !toString_hex_app. reflexivity.
Qed.

Lemma shutdown_frame_as_bytes (this : Switcher) (token id time_stamp : Buffer)
      (tail : string) :
  well_formed_session this token id ->
  shutdown_frame this (JString (toString_hex token)) (toString_hex time_stamp)
                 (JString tail)
  = (toString_hex (shutdown_frame_bytes token time_stamp id) ++ tail)%string.
Proof.
  intros (_ & _ & Hid & _ & Hph & Hpass).
  unfold shutdown_frame, shutdown_frame_bytes.
  rewrite Hid, Hph, Hpass, !toString_hex_app, !string_app_assoc. reflexivity.
Qed.

Lemma power_off_frame_as_bytes (this : Switcher) (token id time_stamp : Buffer) :
  well_formed_session this token id ->
  power_frame this (JString (toString_hex token)) (toString_hex time_stamp)
              (decimal OFF ++ "00" ++ "00000000")
  = toString_hex
      (power_frame_bytes token time_stamp id [x00; x00] [x00; x00; x00; x00]).
Proof.
  intros (_ & _ & Hid & _ & Hph & Hpass).
  unfold power_frame, power_frame_bytes.
  rewrite Hid, Hph, Hpass, !toString_hex_app. reflexivity.
Qed.

Lemma login_frame_as_bytes (this : Switcher) (time_stamp : Buffer) :
  phone_id this = "0000" -> device_pass this = "00000000" ->
  login_frame this (toString_hex time_stamp)
  = toString_hex (login_frame_bytes time_stamp).
Proof.
  intros Hph Hpass. unfold login_frame, login_frame_bytes.
  rewrite Hph, Hpass, !toString_hex_app. reflexivity.
Qed.

Lemma signed_frame_of_bytes (bytes : Buffer) :
  signed_frame crc16ccitt (toString_hex bytes)
  = (bytes ++ trailer crc16ccitt (toString_hex bytes))%list.
Proof.
  unfold signed_frame. now rewrite Buffer_from_hex_app, Buffer_from_hex_toString.
Qed.

End Commands.

(** X7: on a logged-in session with an open connection, [status] writes
    one frame of 48 bytes, the length its header declares, with the status
    opcode, the cached token, the time stamp and the device id in their
    fields, and hands the decoded reply to the callback. *)
Theorem status_query_frame
    (crc16ccitt : Buffer -> Z -> Z)
    (crc16ccitt_fits : forall buf, 0 <= crc16ccitt buf 4129 < 4294967296)
    (this : Switcher) (w : World) (token id reply : Buffer) (rest : list Reply) :
  well_formed_session this token id ->
  0 <= clock w < 4294967296 -> socket_usable (socket this) = true ->
  inbox w = Data reply :: rest ->
  exists (w' : World) (frame : Buffer),
    status crc16ccitt (this, w) = Return tt (this, w')
    /\ wire w' = (wire w ++ [frame])%list
    /\ List.length frame = 48%nat /\ declared_length frame = 48
    /\ frame_header frame = STATUS_HEADER /\ token_field frame = token
    /\ time_stamp_field frame = le32 (clock w) /\ device_id_field frame = id
    /\ emitted w' = (emitted w ++ [STATUS_CALLBACK (decode_status_reply reply)])%list
    /\ inbox w' = rest /\ connects w' = connects w.
Proof.
  intros S C U B. pose proof S as (P & Lt & _ & Li & _ & _).
  rewrite (status_on_open_socket crc16ccitt crc16ccitt_fits this w _ P
             (token_not_empty token Lt) C U).
  destruct (write_then_reply
              (signed_frame crc16ccitt
                 (status_frame this (JString (toString_hex token))
                    (toString_hex (le32 (clock w)))))
              reply rest (fun data => STATUS_CALLBACK (decode_status_reply data))
              this w B) as (w' & E & W & Em & In & Cn).
  exists w'. eexists. split; [exact E|]. split; [exact W|].
  rewrite (status_frame_as_bytes this token id _ S), signed_frame_of_bytes.
  unfold status_frame_bytes. rewrite <- !app_assoc.
  destruct (command_frame_layout STATUS_HEADER token (le32 (clock w)) id
              ([x00] ++ trailer crc16ccitt
                          (toString_hex
                             (STATUS_HEADER ++ token
                              ++ Buffer_from_hex "340001000000000000000000"
                              ++ le32 (clock w)
                              ++ Buffer_from_hex "00000000000000000000f0fe"
                              ++ id ++ [x00])))%list
              eq_refl Lt eq_refl Li) as (H1 & H2 & H3 & H4 & H5 & H6).
  repeat split; assumption.
Qed.

Lemma status_query_frame_witness :
  exists (w' : World) (frame : Buffer),
    status Crc.crc16ccitt (sample_session, sample_world)
    = Return tt (sample_session, w')
    /\ wire w' = [frame]
    /\ List.length frame = 48%nat /\ declared_length frame = 48
    /\ frame_header frame = STATUS_HEADER
    /\ token_field frame = [xde; xad; xbe; xef]
    /\ time_stamp_field frame = [x00; xf1; x53; x65]
    /\ device_id_field frame = [xa1; xb2; xc3]
    /\ emitted w' = [STATUS_CALLBACK (decode_status_reply sample_login_reply)]
    /\ inbox w' = [] /\ connects w' = 0%nat.
Proof.
  apply (status_query_frame Crc.crc16ccitt crc16ccitt_fits32 sample_session
           sample_world [xde; xad; xbe; xef] [xa1; xb2; xc3] sample_login_reply []).
  - repeat split.
  - cbn. lia.
  - reflexivity.
  - reflexivity.
Defined.

(** X8: on a logged-in session with an open connection, [turn_off] writes
    one frame of 93 bytes, the length its header declares, with the power
    opcode, the cached token, the time stamp and the device id in their
    fields, the state marker 00 and a zero duration, and emits the state
    0 when the reply arrives. *)
Theorem turn_off_frame
    (crc16ccitt : Buffer -> Z -> Z)
    (crc16ccitt_fits : forall buf, 0 <= crc16ccitt buf 4129 < 4294967296)
    (this : Switcher) (w : World) (token id reply : Buffer) (rest : list Reply) :
  well_formed_session this token id ->
  0 <= clock w < 4294967296 -> socket_usable (socket this) = true ->
  inbox w = Data reply :: rest ->
  exists (w' : World) (frame : Buffer),
    turn_off crc16ccitt (this, w) = Return tt (this, w')
    /\ wire w' = (wire w ++ [frame])%list
    /\ List.length frame = 93%nat /\ declared_length frame = 93
    /\ frame_header frame = POWER_HEADER /\ token_field frame = token
    /\ time_stamp_field frame = le32 (clock w) /\ device_id_field frame = id
    /\ state_marker_field frame = [x00; x00]
    /\ duration_field frame = [x00; x00; x00; x00]
    /\ emitted w' = (emitted w ++ [STATE_CHANGED_EVENT "0"])%list
    /\ inbox w' = rest /\ connects w' = connects w.
Proof.
  intros S C U B. pose proof S as (P & Lt & _ & Li & _ & _).
  unfold turn_off.
  rewrite (power_command_on_open_socket crc16ccitt crc16ccitt_fits this w _ _ P
             (token_not_empty token Lt) C U).
  destruct (write_then_reply
              (signed_frame crc16ccitt
                 (power_frame this (JString (toString_hex token))
                    (toString_hex (le32 (clock w)))
                    (decimal OFF ++ "00" ++ "00000000")))
              reply rest (fun _ => STATE_CHANGED_EVENT "0")
              this w B) as (w' & E & W & Em & In & Cn).
  exists w'. eexists. split; [exact E|]. split; [exact W|].
  rewrite (power_off_frame_as_bytes this token id _ S),
    (signed_frame_of_bytes crc16ccitt).
  set (tail := trailer crc16ccitt _).
  assert (Ltail : List.length tail = 4%nat) by reflexivity.
  assert (M : state_marker_field
                (power_frame_bytes token (le32 (clock w)) id [x00; x00]
                   [x00; x00; x00; x00] ++ tail)%list = [x00; x00]).
  { clear - Lt Li. 
    destruct token as [|t0 [|t1 [|t2 [|t3 [|? ?]]]]]; try discriminate.
    destruct id as [|i0 [|i1 [|i2 [|? ?]]]]; try discriminate.
    reflexivity. }
  assert (D0 : duration_field
                 (power_frame_bytes token (le32 (clock w)) id [x00; x00]
                    [x00; x00; x00; x00] ++ tail)%list = [x00; x00; x00; x00]).
  { clear - Lt Li.
    destruct token as [|t0 [|t1 [|t2 [|t3 [|? ?]]]]]; try discriminate.
    destruct id as [|i0 [|i1 [|i2 [|? ?]]]]; try discriminate.
    reflexivity. }
  unfold power_frame_bytes in *. rewrite <- !app_assoc in *.
  destruct (command_frame_layout POWER_HEADER token (le32 (clock w)) id
              (Buffer_from_hex
                 "00000000000000000000000000000000000000000000000000000000000000000000000000010600"
               ++ [x00; x00] ++ [x00; x00; x00; x00] ++ tail)%list
              eq_refl Lt eq_refl Li) as (H1 & H2 & H3 & H4 & H5 & H6).
  repeat split; assumption.
Qed.

Lemma turn_off_frame_witness :
  exists (w' : World) (frame : Buffer),
    turn_off Crc.crc16ccitt (sample_session, sample_world)
    = Return tt (sample_session, w')
    /\ wire w' = [frame]
    /\ List.length frame = 93%nat /\ declared_length frame = 93
    /\ frame_header frame = POWER_HEADER
    /\ token_field frame = [xde; xad; xbe; xef]
    /\ time_stamp_field frame = [x00; xf1; x53; x65]
    /\ device_id_field frame = [xa1; xb2; xc3]
    /\ state_marker_field frame = [x00; x00]
    /\ duration_field frame = [x00; x00; x00; x00]
    /\ emitted w' = [STATE_CHANGED_EVENT "0"]
    /\ inbox w' = [] /\ connects w' = 0%nat.
Proof.
  apply (turn_off_frame Crc.crc16ccitt crc16ccitt_fits32 sample_session
           sample_world [xde; xad; xbe; xef] [xa1; xb2; xc3] sample_login_reply []).
  - repeat split.
  - cbn. lia.
  - reflexivity.
  - reflexivity.
Defined.

(** X9: on a logged-in session with an open connection, [turn_on] for a
    duration whose seconds fit in 32 bits writes one frame with the length
    its header declares, the power opcode, the cached token, the time stamp
    and the device id in their fields, and emits the state 1 when the
    reply arrives. *)
Theorem turn_on_frame_and_event
    (crc16ccitt : Buffer -> Z -> Z)
    (crc16ccitt_fits : forall buf, 0 <= crc16ccitt buf 4129 < 4294967296)
    (this : Switcher) (w : World) (token id reply : Buffer) (rest : list Reply)
    (minutes : Z) :
  0 <= minutes -> minutes * 60 < 4294967296 ->
  well_formed_session this token id ->
  0 <= clock w < 4294967296 -> socket_usable (socket this) = true ->
  inbox w = Data reply :: rest ->
  exists (w' : World) (frame : Buffer),
    turn_on crc16ccitt minutes (this, w) = Return tt (this, w')
    /\ wire w' = (wire w ++ [frame])%list
    /\ declared_length frame = Z.of_nat (List.length frame)
    /\ frame_header frame = POWER_HEADER /\ token_field frame = token
    /\ time_stamp_field frame = le32 (clock w) /\ device_id_field frame = id
    /\ emitted w' = (emitted w ++ [STATE_CHANGED_EVENT "1"])%list
    /\ inbox w' = rest /\ connects w' = connects w.
Proof.
  intros H0 H1 S C U B. pose proof S as (P & Lt & _ & Li & _ & _).
  unfold turn_on. unfold bind at 1.
  rewrite (_timer_value_in_range minutes H0 H1). cbn [lift]. unfold ret at 1.
  rewrite (power_command_on_open_socket crc16ccitt crc16ccitt_fits this w _ _ P
             (token_not_empty token Lt) C U).
  destruct (write_then_reply
              (signed_frame crc16ccitt
                 (power_frame this (JString (toString_hex token))
                    (toString_hex (le32 (clock w)))
                    (decimal ON ++ "00" ++ toString_hex (le32 (minutes * 60)))))
              reply rest (fun _ => STATE_CHANGED_EVENT "1")
              this w B) as (w' & E & W & Em & In & Cn).
  exists w'. eexists. split; [exact E|]. split; [exact W|].
  rewrite (power_frame_as_bytes this token id _ _ S),
    (signed_frame_of_bytes crc16ccitt).
  set (tail := trailer crc16ccitt _).
  unfold power_frame_bytes. rewrite <- !app_assoc.
  destruct (command_frame_layout POWER_HEADER token (le32 (clock w)) id
              (Buffer_from_hex
                 "00000000000000000000000000000000000000000000000000000000000000000000000000010600"
               ++ [x01; x00] ++ le32 (minutes * 60) ++ tail)%list
              eq_refl Lt eq_refl Li) as (H1' & H2 & H3 & H4 & H5 & H6).
  split; [rewrite H5, H6; reflexivity|].
  repeat split; assumption.
Qed.

Lemma turn_on_frame_and_event_witness :
  exists (w' : World) (frame : Buffer),
    turn_on Crc.crc16ccitt 10 (sample_session, sample_world)
    = Return tt (sample_session, w')
    /\ wire w' = [frame]
    /\ declared_length frame = Z.of_nat (List.length frame)
    /\ frame_header frame = POWER_HEADER
    /\ token_field frame = [xde; xad; xbe; xef]
    /\ time_stamp_field frame = [x00; xf1; x53; x65]
    /\ device_id_field frame = [xa1; xb2; xc3]
    /\ emitted w' = [STATE_CHANGED_EVENT "1"]
    /\ inbox w' = [] /\ connects w' = 0%nat.
Proof.
  apply (turn_on_frame_and_event Crc.crc16ccitt crc16ccitt_fits32 sample_session
           sample_world [xde; xad; xbe; xef] [xa1; xb2; xc3] sample_login_reply []
           10).
  - lia.
  - lia.
  - repeat split.
  - cbn. lia.
  - reflexivity.
  - reflexivity.
Defined.

Lemma shutdown_frame_layout (token time_stamp id dur tail : Buffer) :
  List.length token = 4%nat -> List.length time_stamp = 4%nat ->
  List.length id = 3%nat -> List.length dur = 4%nat ->
  slice ((shutdown_frame_bytes token time_stamp id ++ dur) ++ tail)%list 83 4 = dur
  /\ List.length (shutdown_frame_bytes token time_stamp id) = 83%nat.
Proof.
  intros Lt Ls Li Ld.
  destruct token as [|t0 [|t1 [|t2 [|t3 [|? ?]]]]]; try discriminate.
  destruct time_stamp as [|s0 [|s1 [|s2 [|s3 [|? ?]]]]]; try discriminate.
  destruct id as [|i0 [|i1 [|i2 [|? ?]]]]; try discriminate.
  destruct dur as [|d0 [|d1 [|d2 [|d3 [|? ?]]]]]; try discriminate.
  split; reflexivity.
Qed.

(** X10: on a logged-in session with an open connection,
    [set_default_shutdown] with a value in [3600, 86340] writes one frame
    of 91 bytes, the length its header declares, with the token, the time
    stamp and the device id in their fields and the value on four
    little-endian bytes at offset 83, and emits the value as the new
    duration when the reply arrives. *)
Theorem set_default_shutdown_frame
    (crc16ccitt : Buffer -> Z -> Z)
    (crc16ccitt_fits : forall buf, 0 <= crc16ccitt buf 4129 < 4294967296)
    (this : Switcher) (w : World) (token id reply : Buffer) (rest : list Reply)
    (seconds : Z) :
  3600 <= seconds <= 86340 ->
  well_formed_session this token id ->
  0 <= clock w < 4294967296 -> socket_usable (socket this) = true ->
  inbox w = Data reply :: rest ->
  exists (w' : World) (frame : Buffer),
    set_default_shutdown crc16ccitt seconds (this, w) = Return tt (this, w')
    /\ wire w' = (wire w ++ [frame])%list
    /\ List.length frame = 91%nat /\ declared_length frame = 91
    /\ frame_header frame = SHUTDOWN_HEADER /\ token_field frame = token
    /\ time_stamp_field frame = le32 (clock w) /\ device_id_field frame = id
    /\ slice frame 83 4 = le32 seconds /\ le_value (slice frame 83 4) = seconds
    /\ emitted w' = (emitted w ++ [DURATION_CHANGED_EVENT seconds])%list
    /\ inbox w' = rest.
Proof.
  intros R S C U B. pose proof S as (P & Lt & _ & Li & _ & _).
  rewrite (shutdown_on_open_socket crc16ccitt crc16ccitt_fits this w _ seconds _
             (_set_default_shutdown_in_range seconds R) P
             (token_not_empty token Lt) C U).
  destruct (write_then_reply
              (signed_frame crc16ccitt
                 (shutdown_frame this (JString (toString_hex token))
                    (toString_hex (le32 (clock w)))
                    (JString (toString_hex (le32 seconds)))))
              reply rest (fun _ => DURATION_CHANGED_EVENT seconds)
              this w B) as (w' & E & W & Em & In & Cn).
  exists w'. eexists. split; [exact E|]. split; [exact W|].
  rewrite (shutdown_frame_as_bytes this token id _ _ S), <- toString_hex_app,
    (signed_frame_of_bytes crc16ccitt).
  set (tail := trailer crc16ccitt _).
  destruct (shutdown_frame_layout token (le32 (clock w)) id (le32 seconds) tail
              Lt eq_refl Li eq_refl) as (D & _).
  rewrite D. rewrite le_value_le32 by lia.
  unfold shutdown_frame_bytes. rewrite <- !app_assoc.
  destruct (command_frame_layout SHUTDOWN_HEADER token (le32 (clock w)) id
              (Buffer_from_hex
                 "00000000000000000000000000000000000000000000000000000000000000000000000000040400"
               ++ le32 seconds ++ tail)%list
              eq_refl Lt eq_refl Li) as (H1 & H2 & H3 & H4 & H5 & H6).
  repeat split; assumption.
Qed.

Lemma set_default_shutdown_frame_witness :
  exists (w' : World) (frame : Buffer),
    set_default_shutdown Crc.crc16ccitt 7200 (sample_session, sample_world)
    = Return tt (sample_session, w')
    /\ wire w' = [frame]
    /\ List.length frame = 91%nat /\ declared_length frame = 91
    /\ frame_header frame = SHUTDOWN_HEADER
    /\ token_field frame = [xde; xad; xbe; xef]
    /\ time_stamp_field frame = [x00; xf1; x53; x65]
    /\ device_id_field frame = [xa1; xb2; xc3]
    /\ slice frame 83 4 = [x20; x1c; x00; x00]
    /\ le_value (slice frame 83 4) = 7200
    /\ emitted w' = [DURATION_CHANGED_EVENT 7200]
    /\ inbox w' = [].
Proof.
  apply (set_default_shutdown_frame Crc.crc16ccitt crc16ccitt_fits32 sample_session
           sample_world [xde; xad; xbe; xef] [xa1; xb2; xc3] sample_login_reply []
           7200).
  - lia.
  - repeat split.
  - cbn. lia.
  - reflexivity.
  - reflexivity.
Defined.

(** X11: on a logged-in session with an open connection,
    [set_default_shutdown] with a value outside [3600, 86340] still writes
    a frame and still emits the requested value as the new duration, but
    the frame stops after 83 bytes while its header declares 91: it has
    neither a duration nor a signature. *)
Theorem set_default_shutdown_out_of_range_frame
    (crc16ccitt : Buffer -> Z -> Z)
    (crc16ccitt_fits : forall buf, 0 <= crc16ccitt buf 4129 < 4294967296)
    (this : Switcher) (w : World) (token id reply : Buffer) (rest : list Reply)
    (seconds : Z) :
  seconds < 3600 \/ 86340 < seconds ->
  well_formed_session this token id ->
  0 <= clock w < 4294967296 -> socket_usable (socket this) = true ->
  inbox w = Data reply :: rest ->
  exists (w' : World),
    set_default_shutdown crc16ccitt seconds (this, w) = Return tt (this, w')
    /\ wire w'
       = (wire w ++ [shutdown_frame_bytes token (le32 (clock w)) id])%list
    /\ List.length (shutdown_frame_bytes token (le32 (clock w)) id) = 83%nat
    /\ declared_length (shutdown_frame_bytes token (le32 (clock w)) id) = 91
    /\ emitted w' = (emitted w ++ [DURATION_CHANGED_EVENT seconds])%list.
Proof.
  intros R S C U B. pose proof S as (P & Lt & _ & Li & _ & _).
  rewrite (shutdown_on_open_socket crc16ccitt crc16ccitt_fits this w _ seconds _
             (_set_default_shutdown_undefined seconds R) P
             (token_not_empty token Lt) C U).
  destruct (write_then_reply
              (signed_frame crc16ccitt
                 (shutdown_frame this (JString (toString_hex token))
                    (toString_hex (le32 (clock w))) JUndefined))
              reply rest (fun _ => DURATION_CHANGED_EVENT seconds)
              this w B) as (w' & E & W & Em & In & Cn).
  exists w'. split; [exact E|].
  assert (F : signed_frame crc16ccitt
                (shutdown_frame this (JString (toString_hex token))
                   (toString_hex (le32 (clock w))) JUndefined)
              = shutdown_frame_bytes token (le32 (clock w)) id).
  { change (shutdown_frame this (JString (toString_hex token))
              (toString_hex (le32 (clock w))) JUndefined)
      with (shutdown_frame this (JString (toString_hex token))
              (toString_hex (le32 (clock w))) (JString "undefined")).
    rewrite (shutdown_frame_as_bytes this token id _ _ S).
    unfold signed_frame. rewrite string_app_assoc, Buffer_from_hex_app.
    cbn [append Buffer_from_hex]. apply app_nil_r. }
  rewrite F in W. split; [exact W|].
  destruct (shutdown_frame_layout token (le32 (clock w)) id [x00; x00; x00; x00] []
              Lt eq_refl Li eq_refl) as (_ & L83).
  split; [exact L83|]. split; [|exact Em].
  clear - Lt Li.
  destruct token as [|t0 [|t1 [|t2 [|t3 [|? ?]]]]]; try discriminate.
  destruct id as [|i0 [|i1 [|i2 [|? ?]]]]; try discriminate.
  reflexivity.
Qed.

Lemma set_default_shutdown_out_of_range_frame_witness :
  exists (w' : World),
    set_default_shutdown Crc.crc16ccitt 100 (sample_session, sample_world)
    = Return tt (sample_session, w')
    /\ wire w'
       = [shutdown_frame_bytes [xde; xad; xbe; xef] (le32 1700000000)
            [xa1; xb2; xc3]]
    /\ List.length (shutdown_frame_bytes [xde; xad; xbe; xef] (le32 1700000000)
                      [xa1; xb2; xc3]) = 83%nat
    /\ declared_length (shutdown_frame_bytes [xde; xad; xbe; xef] (le32 1700000000)
                          [xa1; xb2; xc3]) = 91
    /\ emitted w' = [DURATION_CHANGED_EVENT 100].
Proof.
  apply (set_default_shutdown_out_of_range_frame Crc.crc16ccitt crc16ccitt_fits32
           sample_session sample_world [xde; xad; xbe; xef] [xa1; xb2; xc3]
           sample_login_reply [] 100).
  - left. lia.
  - repeat split.
  - cbn. lia.
  - reflexivity.
  - reflexivity.
Defined.

Lemma login_frame_layout (time_stamp tail : Buffer) :
  List.length time_stamp = 4%nat -> List.length tail = 4%nat ->
  let frame := (login_frame_bytes time_stamp ++ tail)%list in
  List.length frame = 82%nat /\ declared_length frame = 82
  /\ frame_header frame = LOGIN_HEADER
  /\ token_field frame = [x00; x00; x00; x00]
  /\ time_stamp_field frame = time_stamp.
Proof.
  intros Ls Lt.
  destruct time_stamp as [|s0 [|s1 [|s2 [|s3 [|? ?]]]]]; try discriminate.
  destruct tail as [|c0 [|c1 [|c2 [|c3 [|? ?]]]]]; try discriminate.
  repeat split.
Qed.

(** X12: the login of an instance without a token, as the constructor
    leaves it, writes one frame of 82 bytes, the length its header
    declares, with the login opcode, four zero bytes in the token field
    and the time stamp, and caches the eight hex digits at offset 16 of
    the reply's dump as the token. *)
Theorem login_frame_on_wire
    (crc16ccitt : Buffer -> Z -> Z)
    (crc16ccitt_fits : forall buf, 0 <= crc16ccitt buf 4129 < 4294967296)
    (this : Switcher) (w : World) (reply : Buffer) (rest : list Reply) :
  truthy (p_session this) = false ->
  phone_id this = "0000" -> device_pass this = "00000000" ->
  reachable w = true -> 0 <= clock w < 4294967296 ->
  inbox w = Data reply :: rest ->
  exists (s' : State) (frame : Buffer),
    _login crc16ccitt (this, w)
    = Return (JString (substr (toString_hex reply) 16 8)) s'
    /\ p_session (fst s') = JString (substr (toString_hex reply) 16 8)
    /\ wire (snd s') = (wire w ++ [frame])%list
    /\ List.length frame = 82%nat /\ declared_length frame = 82
    /\ frame_header frame = LOGIN_HEADER
    /\ token_field frame = [x00; x00; x00; x00]
    /\ time_stamp_field frame = le32 (clock w)
    /\ inbox (snd s') = rest.
Proof.
  intros T Hph Hpass R C B.
  destruct (login_from_scratch crc16ccitt crc16ccitt_fits this w reply rest T R C B)
    as (this' & w' & E & P & W & _ & _ & In).
  exists (this', w'). eexists. split; [exact E|]. split; [exact P|].
  split; [exact W|].
  rewrite (login_frame_as_bytes this _ Hph Hpass), (signed_frame_of_bytes crc16ccitt).
  destruct (login_frame_layout (le32 (clock w))
              (trailer crc16ccitt (toString_hex (login_frame_bytes (le32 (clock w)))))
              eq_refl eq_refl) as (H1 & H2 & H3 & H4 & H5).
  repeat split; assumption.
Qed.

Lemma login_frame_on_wire_witness :
  exists (s' : State) (frame : Buffer),
    _login Crc.crc16ccitt (new_Switcher sample_device_id sample_ip, sample_world)
    = Return (JString "deadbeef") s'
    /\ p_session (fst s') = JString "deadbeef"
    /\ wire (snd s') = [frame]
    /\ List.length frame = 82%nat /\ declared_length frame = 82
    /\ frame_header frame = LOGIN_HEADER
    /\ token_field frame = [x00; x00; x00; x00]
    /\ time_stamp_field frame = [x00; xf1; x53; x65]
    /\ inbox (snd s') = [].
Proof.
  apply (login_frame_on_wire Crc.crc16ccitt crc16ccitt_fits32
           (new_Switcher sample_device_id sample_ip) sample_world
           sample_login_reply []).
  - reflexivity.
  - reflexivity.
  - reflexivity.
  - reflexivity.
  - cbn. lia.
  - reflexivity.
Defined.

(** ** Invariants of a run of commands *)

Section Holds.

Variable I : State -> Prop.

Lemma holds_ret {A} (a : A) (Q : A -> Prop) : Q a -> holds I (ret a) Q.
Proof. intros H s Hs. cbn. auto. Qed.

Lemma holds_throw {A} (e : Exn) (Q : A -> Prop) : holds I (throw e) Q.
Proof. intros s Hs. exact Hs. Qed.

Lemma holds_bind {A B} (c : M A) (k : A -> M B) (Q : A -> Prop) (R : B -> Prop) :
  holds I c Q -> (forall a, Q a -> holds I (k a) R) -> holds I (bind c k) R.
Proof.
  intros Hc Hk s Hs. unfold bind. specialize (Hc s Hs).
  destruct (c s) as [a s'|e s'|s']; [|exact Hc|exact Hc].
  destruct Hc as [I' Qa]. exact (Hk a Qa s' I').
Qed.

Lemma holds_weaken {A} (c : M A) (Q R : A -> Prop) :
  holds I c Q -> (forall a, Q a -> R a) -> holds I c R.
Proof.
  intros Hc QR s Hs. specialize (Hc s Hs).
  destruct (c s); [destruct Hc; split; auto | exact Hc | exact Hc].
Qed.

Lemma holds_try_catch {A} (c : M A) (h : Exn -> M A) (Q : A -> Prop) :
  holds I c Q -> (forall e, holds I (h e) Q) -> holds I (try_catch c h) Q.
Proof.
  intros Hc Hh s Hs. unfold try_catch. specialize (Hc s Hs).
  destruct (c s) as [a s'|e s'|s']; [exact Hc | exact (Hh e s' Hc) | exact Hc].
Qed.

Lemma holds_unsettled {A} (c : M A) (Q : A -> Prop) :
  holds I c Q -> holds I (unsettled_on_throw c) Q.
Proof.
  intros Hc s Hs. unfold unsettled_on_throw. specialize (Hc s Hs).
  destruct (c s); exact Hc.
Qed.

Lemma holds_lift {A} (o : option A) : holds I (lift o) (fun _ => True).
Proof. destruct o; [now apply holds_ret | apply holds_throw]. Qed.

Lemma holds_get_this : holds I get_this (fun _ => True).
Proof. intros s Hs. cbn. auto. Qed.

Lemma holds_final {A} (c : M A) (Q : A -> Prop) (s : State) :
  holds I c Q -> I s -> I (final_state (c s)).
Proof.
  intros K Hs. specialize (K s Hs). destruct (c s); cbn; tauto.
Qed.

(** What the invariant has to survive: the primitives that touch the
    instance or the world.  A frame is only written after [_getsocket] has
    returned a socket, so writing may rely on what [_getsocket] ensures. *)
Variable Qs : TcpSocket -> Prop.
Variable crc16ccitt : Buffer -> Z -> Z.
Hypothesis I_emit : forall e, holds I (emit e) (fun _ => True).
Hypothesis I_time : holds I _get_time_stamp (fun _ => True).
Hypothesis I_getsocket : holds I _getsocket Qs.
Hypothesis I_write : forall s b, Qs s -> holds I (socket_write b) (fun _ => True).
Hypothesis I_await : holds I await_reply (fun _ => True).
Hypothesis I_once :
  forall h, (forall d, holds I (h d) (fun _ => True)) ->
            holds I (once_data h) (fun _ => True).
Hypothesis I_session : forall v, holds I (set_p_session v) (fun _ => True).

Lemma holds_login_promise : holds I (login_promise crc16ccitt) (fun _ => True).
Proof.
  unfold login_promise.
  eapply holds_bind; [apply holds_get_this|]. intros this _.
  eapply holds_bind with (Q := fun _ => True).
  { apply holds_unsettled. eapply holds_bind; [apply I_time|].
    intros ts _. apply holds_lift. }
  intros data _.
  eapply holds_bind; [apply I_getsocket|]. intros s Hs.
  eapply holds_bind; [apply (I_write s _ Hs)|]. intros _ _.
  eapply holds_bind; [apply I_await|]. intros reply _.
  now apply holds_ret.
Qed.

Lemma holds__login : holds I (_login crc16ccitt) (fun _ => True).
Proof.
  unfold _login.
  eapply holds_bind; [apply holds_get_this|]. intros this _.
  destruct (truthy (p_session this)); [now apply holds_ret|].
  eapply holds_bind with (Q := fun _ => True).
  { apply holds_try_catch.
    - eapply holds_bind; [apply holds_login_promise|]. intros r _. apply I_session.
    - intros e. apply I_emit. }
  intros _ _. eapply holds_bind; [apply holds_get_this|]. intros this' _.
  now apply holds_ret.
Qed.

Lemma holds__run_power_command (command_type : string) :
  holds I (_run_power_command crc16ccitt command_type) (fun _ => True).
Proof.
  unfold _run_power_command.
  eapply holds_bind; [apply holds__login|]. intros p _.
  eapply holds_bind; [apply holds_get_this|]. intros this _.
  eapply holds_bind; [apply I_time|]. intros ts _.
  eapply holds_bind; [apply holds_lift|]. intros d _.
  eapply holds_bind; [apply I_getsocket|]. intros s Hs.
  eapply holds_bind with (Q := fun _ => True).
  { apply holds_try_catch.
    - eapply holds_bind; [apply I_getsocket|]. intros s' _. now apply holds_ret.
    - intros e. now apply holds_ret. }
  intros [s'|] _; [|now apply holds_ret].
  eapply holds_bind; [apply (I_write s _ Hs)|]. intros _ _.
  apply I_once. intros data. apply I_emit.
Qed.

Lemma holds_run_command (c : Command) :
  holds I (run_command crc16ccitt c) (fun _ => True).
Proof.
  destruct c; cbn [run_command].
  - unfold turn_on. eapply holds_bind; [apply holds_lift|]. intros t _.
    apply holds__run_power_command.
  - apply holds__run_power_command.
  - unfold set_default_shutdown.
    eapply holds_bind; [apply holds_lift|]. intros a _.
    eapply holds_bind; [apply holds__login|]. intros p _.
    eapply holds_bind; [apply holds_get_this|]. intros this _.
    eapply holds_bind; [apply I_time|]. intros ts _.
    eapply holds_bind; [apply holds_lift|]. intros d _.
    eapply holds_bind; [apply I_getsocket|]. intros s Hs.
    eapply holds_bind; [apply (I_write s _ Hs)|]. intros _ _.
    apply I_once. intros data. apply I_emit.
  - unfold status.
    eapply holds_bind; [apply holds__login|]. intros p _.
    eapply holds_bind; [apply holds_get_this|]. intros this _.
    eapply holds_bind; [apply I_time|]. intros ts _.
    eapply holds_bind; [apply holds_lift|]. intros d _.
    eapply holds_bind; [apply I_getsocket|]. intros s Hs.
    eapply holds_bind; [apply (I_write s _ Hs)|]. intros _ _.
    apply I_once. intros data. apply I_emit.
Qed.

Lemma holds_run_all (cmds : list Command) :
  holds I (run_all crc16ccitt cmds) (fun _ => True).
Proof.
  induction cmds as [|c cmds IH]; cbn [run_all].
  - now apply holds_ret.
  - eapply holds_bind; [apply holds_run_command|]. intros _ _. exact IH.
Qed.

End Holds.

Lemma offline_emit (wire0 : list Buffer) (e : Event) :
  holds (offline wire0) (emit e) (fun _ => True).
Proof. intros [this w] H. cbn. split; [exact H | exact Logic.I]. Qed.

Lemma offline_time (wire0 : list Buffer) :
  holds (offline wire0) _get_time_stamp (fun _ => True).
Proof.
  intros [this w] H. unfold _get_time_stamp.
  destruct (pack_le32 (clock w)); [split; [exact H | exact Logic.I] | exact H].
Qed.

(** Offline, [_getsocket] never returns a socket. *)
Lemma offline_getsocket (wire0 : list Buffer) :
  holds (offline wire0) _getsocket (fun _ => False).
Proof.
  intros [this w] (U & R & W). cbn [fst snd] in *.
  destruct this as [did ip ph pass port ps sock ssock].
  destruct w as [clk reach inb wr con em]. cbn in U, R, W. subst reach.
  destruct sock as [[[|]]|]; try discriminate; cbn; repeat split; exact W.
Qed.

Lemma offline_await (wire0 : list Buffer) :
  holds (offline wire0) await_reply (fun _ => True).
Proof.
  intros [this w] (U & R & W). unfold await_reply. cbn [fst snd] in *.
  destruct (inbox w) as [|[d|e] rest].
  - repeat split; assumption.
  - repeat split; assumption.
  - destruct this as [did ip ph pass port ps sock ssock]. cbn in *.
    repeat split; try assumption. destruct sock; reflexivity.
Qed.

Lemma offline_once (wire0 : list Buffer) (h : Buffer -> M unit) :
  (forall d, holds (offline wire0) (h d) (fun _ => True)) ->
  holds (offline wire0) (once_data h) (fun _ => True).
Proof.
  intros Hh [this w] (U & R & W). unfold once_data. cbn [fst snd] in *.
  destruct (inbox w) as [|[d|e] rest].
  - repeat split; assumption.
  - apply Hh. repeat split; assumption.
  - destruct this as [did ip ph pass port ps sock ssock]. cbn in *.
    repeat split; try assumption. destruct sock; reflexivity.
Qed.

Lemma offline_session (wire0 : list Buffer) (v : jsval) :
  holds (offline wire0) (set_p_session v) (fun _ => True).
Proof. intros [this w] H. cbn. split; [exact H | exact Logic.I]. Qed.

(** X13: while the device cannot be reached and no connection is open,
    no run of commands writes a frame, however each command ends, and the
    instance stays without a usable connection. *)
Theorem nothing_written_offline
    (crc16ccitt : Buffer -> Z -> Z) (cmds : list Command)
    (this : Switcher) (w : World) :
  socket_usable (socket this) = false -> reachable w = false ->
  wire (snd (final_state (run_all crc16ccitt cmds (this, w)))) = wire w
  /\ socket_usable (socket (fst (final_state (run_all crc16ccitt cmds (this, w)))))
     = false.
Proof.
  intros U R.
  assert (H : offline (wire w) (final_state (run_all crc16ccitt cmds (this, w)))).
  { apply holds_final with (Q := fun _ => True).
    - apply holds_run_all with (Qs := fun _ => False).
      + apply offline_emit.
      + apply offline_time.
      + apply offline_getsocket.
      + intros s b [].
      + apply offline_await.
      + apply offline_once.
      + apply offline_session.
    - repeat split; assumption. }
  destruct H as (U' & _ & W'). split; assumption.
Qed.

Lemma nothing_written_offline_witness :
  wire (snd (final_state
               (run_all Crc.crc16ccitt [TurnOn 10; Status; TurnOff]
                  (new_Switcher sample_device_id sample_ip, offline_world))))
  = []
  /\ socket_usable
       (socket (fst (final_state
                       (run_all Crc.crc16ccitt [TurnOn 10; Status; TurnOff]
                          (new_Switcher sample_device_id sample_ip, offline_world)))))
     = false.
Proof.
  apply (nothing_written_offline Crc.crc16ccitt [TurnOn 10; Status; TurnOff]
           (new_Switcher sample_device_id sample_ip) offline_world).
  - reflexivity.
  - reflexivity.
Defined.

Lemma connected_emit (n : nat) (e : Event) :
  holds (connected n) (emit e) (fun _ => True).
Proof. intros [this w] H. cbn. split; [exact H | exact Logic.I]. Qed.

Lemma connected_time (n : nat) : holds (connected n) _get_time_stamp (fun _ => True).
Proof.
  intros [this w] H. unfold _get_time_stamp.
  destruct (pack_le32 (clock w)); [split; [exact H | exact Logic.I] | exact H].
Qed.

(** On an open connection [_getsocket] hands out the socket it has. *)
Lemma connected_getsocket (n : nat) :
  holds (connected n) _getsocket (fun _ => True).
Proof.
  intros [this w] H. pose proof H as (U & _). cbn [fst] in U.
  destruct (_getsocket_usable this w U) as (s & ->).
  split; [exact H | exact Logic.I].
Qed.

Lemma connected_write (n : nat) (b : Buffer) :
  holds (connected n) (socket_write b) (fun _ => True).
Proof. intros [this w] H. cbn. split; [exact H | exact Logic.I]. Qed.

Lemma connected_await (n : nat) : holds (connected n) await_reply (fun _ => True).
Proof.
  intros [this w] (U & C & F). unfold await_reply, connected. cbn [fst snd] in *.
  destruct (inbox w) as [|[d|e] rest] eqn:B.
  - cbn [fst snd]. rewrite B. repeat split; assumption.
  - inversion F; subst. cbn [fst snd inbox set_inbox connects].
    repeat split; assumption.
  - inversion F as [|? ? Bad]. destruct Bad.
Qed.

Lemma connected_once (n : nat) (h : Buffer -> M unit) :
  (forall d, holds (connected n) (h d) (fun _ => True)) ->
  holds (connected n) (once_data h) (fun _ => True).
Proof.
  intros Hh [this w] (U & C & F). unfold once_data, connected. cbn [fst snd] in *.
  destruct (inbox w) as [|[d|e] rest] eqn:B.
  - cbn [fst snd]. rewrite B. repeat split; assumption.
  - apply Hh. inversion F; subst. unfold connected.
    cbn [fst snd inbox set_inbox connects]. repeat split; assumption.
  - inversion F as [|? ? Bad]. destruct Bad.
Qed.

Lemma connected_session (n : nat) (v : jsval) :
  holds (connected n) (set_p_session v) (fun _ => True).
Proof. intros [this w] H. cbn. split; [exact H | exact Logic.I]. Qed.

(** X14: on an open connection, and as long as the device answers with
    data or not at all, any run of commands, a first login included, uses
    that one connection: [net.connect] is never called and the socket
    stays usable. *)
Theorem connection_reused
    (crc16ccitt : Buffer -> Z -> Z) (cmds : list Command)
    (this : Switcher) (w : World) :
  socket_usable (socket this) = true -> Forall is_data (inbox w) ->
  connects (snd (final_state (run_all crc16ccitt cmds (this, w)))) = connects w
  /\ socket_usable (socket (fst (final_state (run_all crc16ccitt cmds (this, w)))))
     = true.
Proof.
  intros U F.
  assert (H : connected (connects w)
                (final_state (run_all crc16ccitt cmds (this, w)))).
  { apply holds_final with (Q := fun _ => True).
    - apply holds_run_all with (Qs := fun _ => True).
      + apply connected_emit.
      + apply connected_time.
      + apply connected_getsocket.
      + intros s b _. apply connected_write.
      + apply connected_await.
      + apply connected_once.
      + apply connected_session.
    - repeat split; assumption. }
  destruct H as (U' & C' & _). split; assumption.
Qed.

Lemma connection_reused_witness :
  connects (snd (final_state
                   (run_all Crc.crc16ccitt [TurnOn 10; Status; TurnOff]
                      (sample_session, answering_world)))) = 1%nat
  /\ socket_usable
       (socket (fst (final_state
                       (run_all Crc.crc16ccitt [TurnOn 10; Status; TurnOff]
                          (sample_session, answering_world)))))
     = true.
Proof.
  apply (connection_reused Crc.crc16ccitt [TurnOn 10; Status; TurnOff]
           sample_session answering_world).
  - reflexivity.
  - cbn. repeat constructor.
Defined.

(** ** When the login does not succeed *)

Section LoginFailures.

Variable crc16ccitt : Buffer -> Z -> Z.
Hypothesis crc16ccitt_fits :
  forall buf : Buffer, 0 <= crc16ccitt buf 4129 < 4294967296.

Lemma _login_uncached (this : Switcher) (w : World) :
  truthy (p_session this) = false ->
  _login crc16ccitt (this, w)
  = bind (try_catch
            (bind (login_promise crc16ccitt)
                  (fun result_session => set_p_session (JString result_session)))
            (fun error => emit (ERROR_EVENT (LoginFailed error))))
         (fun _ => bind get_this (fun this' => ret (p_session this')))
         (this, w).
Proof.
  intros T. unfold _login. unfold bind at 1. unfold get_this at 1. cbn [fst].
  now rewrite T.
Qed.

Lemma login_promise_unfold (this : Switcher) (w : World) :
  0 <= clock w < 4294967296 ->
  login_promise crc16ccitt (this, w)
  = bind _getsocket
      (fun _ =>
         bind (socket_write
                 (signed_frame crc16ccitt
                    (login_frame this (toString_hex (le32 (clock w))))))
              (fun _ =>
                 bind await_reply
                      (fun reply => ret (substr (toString_hex reply) 16 8))))
      (this, w).
Proof.
  intros C. unfold login_promise.
  unfold bind at 1. unfold get_this at 1. cbn [fst].
  unfold bind at 1. unfold unsettled_on_throw. unfold bind at 1.
  rewrite (_get_time_stamp_ok this w C), (sign_lift crc16ccitt crc16ccitt_fits).
  reflexivity.
Qed.

(** The login against a device that cannot be reached. *)
Lemma login_unreachable (this : Switcher) (w : World) :
  truthy (p_session this) = false ->
  socket_usable (socket this) = false -> reachable w = false ->
  0 <= clock w < 4294967296 ->
  exists s',
    _login crc16ccitt (this, w) = Return (p_session this) s'
    /\ p_session (fst s') = p_session this
    /\ socket (fst s') = None
    /\ wire (snd s') = wire w
    /\ emitted (snd s')
       = (emitted w
          ++ [ERROR_EVENT (ConnectionError (switcher_ip this) (SWITCHER_PORT this));
              ERROR_EVENT (LoginFailed ConnectFailed)])%list
    /\ connects (snd s') = S (connects w)
    /\ clock (snd s') = clock w /\ reachable (snd s') = false
    /\ switcher_ip (fst s') = switcher_ip this
    /\ SWITCHER_PORT (fst s') = SWITCHER_PORT this.
Proof.
  intros T U R C. rewrite (_login_uncached this w T).
  unfold bind at 1. unfold try_catch. unfold bind at 1.
  rewrite (login_promise_unfold this w C).
  destruct this as [did ip ph pass port ps sock ssock].
  destruct w as [clk reach inb wr con em]. cbn in U, R. subst reach.
  destruct sock as [[[|]]|]; try discriminate;
    eexists; (split; [reflexivity|]); cbn; rewrite <- app_assoc; repeat split.
Qed.

(** The login that gets no reply. *)
Lemma login_unanswered (this : Switcher) (w : World) :
  truthy (p_session this) = false -> reachable w = true ->
  0 <= clock w < 4294967296 -> inbox w = [] ->
  exists s',
    _login crc16ccitt (this, w) = Pending s'
    /\ p_session (fst s') = p_session this
    /\ wire (snd s')
       = (wire w ++ [signed_frame crc16ccitt
                       (login_frame this (toString_hex (le32 (clock w))))])%list
    /\ emitted (snd s') = emitted w.
Proof.
  intros T R C B. rewrite (_login_uncached this w T).
  unfold bind at 1. unfold try_catch. unfold bind at 1.
  rewrite (login_promise_unfold this w C).
  destruct this as [did ip ph pass port ps sock ssock].
  destruct w as [clk reach inb wr con em]. cbn in R, B. subst reach inb.
  destruct sock as [[[|]]|]; eexists; (split; [reflexivity|]); repeat split.
Qed.

(** The login whose reply is an error of the socket. *)
Lemma login_socket_error (this : Switcher) (w : World) (e : string)
      (rest : list Reply) :
  truthy (p_session this) = false -> reachable w = true ->
  0 <= clock w < 4294967296 -> inbox w = SocketError e :: rest ->
  exists this' w',
    _login crc16ccitt (this, w) = Return (p_session this) (this', w')
    /\ same_identity this this'
    /\ socket_usable (socket this') = false
    /\ wire w'
       = (wire w ++ [signed_frame crc16ccitt
                       (login_frame this (toString_hex (le32 (clock w))))])%list
    /\ emitted w'
       = (emitted w ++ [ERROR_EVENT (LoginFailed (SocketFailed e))])%list
    /\ clock w' = clock w /\ reachable w' = reachable w /\ inbox w' = rest
    /\ connects w'
       = ((if socket_usable (socket this) then 0 else 1) + connects w)%nat.
Proof.
  intros T R C B. rewrite (_login_uncached this w T).
  unfold bind at 1. unfold try_catch. unfold bind at 1.
  rewrite (login_promise_unfold this w C).
  destruct this as [did ip ph pass port ps sock ssock].
  destruct w as [clk reach inb wr con em]. cbn in R, B. subst reach inb.
  destruct sock as [[[|]]|]; do 2 eexists; (split; [reflexivity|]);
    repeat split.
Qed.

(** A power command once [_login] has returned, whatever it returned. *)
Lemma power_command_after_login (this this1 : Switcher) (w w1 : World)
      (p : jsval) (cmd : string) :
  _login crc16ccitt (this, w) = Return p (this1, w1) ->
  0 <= clock w1 < 4294967296 -> reachable w1 = true ->
  exists this' w' more,
    _run_power_command crc16ccitt cmd (this, w) = Return tt (this', w')
    /\ same_identity this1 this'
    /\ wire w'
       = (wire w1
          ++ [signed_frame crc16ccitt
                (power_frame this1 p (toString_hex (le32 (clock w1))) cmd)])%list
    /\ emitted w' = (emitted w1 ++ more)%list.
Proof.
  intros E C R.
  unfold _run_power_command.
  unfold bind at 1. rewrite E.
  unfold bind at 1. unfold get_this at 1. cbn [fst].
  unfold bind at 1. rewrite (_get_time_stamp_ok this1 w1 C).
  unfold bind at 1. rewrite (sign_lift crc16ccitt crc16ccitt_fits).
  destruct (_getsocket_ready this1 w1 R)
    as (this2 & w2 & s2 & G1 & U1 & I1 & C1 & R1 & B1 & W1 & M1).
  unfold bind at 1. rewrite G1.
  destruct (_getsocket_usable this2 w2 U1) as (s3 & G2).
  unfold bind at 1. unfold try_catch. unfold bind at 1. rewrite G2.
  unfold ret at 1.
  unfold bind, socket_write, once_data, emit.
  destruct this2 as [did ip ph pass port ps sock ssock].
  destruct w2 as [clk reach inb wr con em].
  cbn [inbox wire clock reachable emitted] in *. subst.
  destruct (inbox w1) as [|[d|e] rest]; cbn [inbox set_inbox];
    do 3 eexists; (split; [reflexivity|]);
    cbn [wire emitted set_inbox mark_destroyed]; (split; [|split; [reflexivity|]]).
  1, 3, 5: try exact I1.
  all: try (destruct I1 as (? & ? & ? & ? & ? & ? & ?); repeat split; assumption).
  all: try (symmetry; apply app_nil_r).
  all: reflexivity.
Qed.

(** A power command once [_login] has returned, the device being out of
    reach. *)
Lemma power_command_after_login_offline (this this1 : Switcher) (w w1 : World)
      (p : jsval) (cmd : string) :
  _login crc16ccitt (this, w) = Return p (this1, w1) ->
  0 <= clock w1 < 4294967296 ->
  socket_usable (socket this1) = false -> reachable w1 = false ->
  exists s',
    _run_power_command crc16ccitt cmd (this, w) = Throw ConnectFailed s'
    /\ p_session (fst s') = p_session this1
    /\ wire (snd s') = wire w1
    /\ emitted (snd s')
       = (emitted w1
          ++ [ERROR_EVENT (ConnectionError (switcher_ip this1) (SWITCHER_PORT this1))])%list
    /\ connects (snd s') = S (connects w1).
Proof.
  intros E C U R.
  unfold _run_power_command.
  unfold bind at 1. rewrite E.
  unfold bind at 1. unfold get_this at 1. cbn [fst].
  unfold bind at 1. rewrite (_get_time_stamp_ok this1 w1 C).
  unfold bind at 1. rewrite (sign_lift crc16ccitt crc16ccitt_fits).
  unfold bind at 1.
  destruct this1 as [did ip ph pass port ps sock ssock].
  destruct w1 as [clk reach inb wr con em]. cbn in U, R. subst reach.
  destruct sock as [[[|]]|]; try discriminate;
    eexists; (split; [reflexivity|]); repeat split.
Qed.

(** A power command once [_login] has returned and left no usable
    connection, the device being within reach: it connects anew, and the
    socket stays usable unless the next reply is an error. *)
Lemma power_command_after_login_reconnects (this this1 : Switcher) (w w1 : World)
      (p : jsval) (cmd : string) :
  _login crc16ccitt (this, w) = Return p (this1, w1) ->
  0 <= clock w1 < 4294967296 -> reachable w1 = true ->
  socket_usable (socket this1) = false ->
  exists this' w' more,
    _run_power_command crc16ccitt cmd (this, w) = Return tt (this', w')
    /\ p_session this' = p_session this1
    /\ wire w'
       = (wire w1
          ++ [signed_frame crc16ccitt
                (power_frame this1 p (toString_hex (le32 (clock w1))) cmd)])%list
    /\ emitted w' = (emitted w1 ++ more)%list
    /\ connects w' = S (connects w1)
    /\ socket_usable (socket this')
       = match inbox w1 with
         | SocketError _ :: _ => false
         | _ => true
         end.
Proof.
  intros E C R U.
  unfold _run_power_command.
  unfold bind at 1. rewrite E.
  unfold bind at 1. unfold get_this at 1. cbn [fst].
  unfold bind at 1. rewrite (_get_time_stamp_ok this1 w1 C).
  unfold bind at 1. rewrite (sign_lift crc16ccitt crc16ccitt_fits).
  destruct this1 as [did ip ph pass port ps sock ssock].
  destruct w1 as [clk reach inb wr con em]. cbn in R, U. subst reach.
  destruct sock as [[[|]]|]; try discriminate;
    destruct inb as [|[d|e] rest];
    do 3 eexists; (split; [reflexivity|]);
    cbn [p_session wire emitted connects socket socket_usable destroyed negb inbox];
    repeat split; try reflexivity; symmetry; apply app_nil_r.
Qed.

Lemma null_token_frame (this : Switcher) (time_stamp cmd : string) :
  signed_frame crc16ccitt (power_frame this JNull time_stamp cmd) = POWER_HEADER.
Proof.
  unfold signed_frame, power_frame.
  change "fef05d0002320102" with (toString_hex POWER_HEADER).
  rewrite string_app_assoc, Buffer_from_hex_app. reflexivity.
Qed.

End LoginFailures.

(** X15: a power command on an instance without a token and without a
    connection, the device being out of reach, is rejected with the
    connection failure: it tries to connect twice, emits a connection
    error, a login error and a second connection error, writes nothing and
    leaves the instance without a token. *)
Theorem power_command_unreachable
    (crc16ccitt : Buffer -> Z -> Z)
    (crc16ccitt_fits : forall buf, 0 <= crc16ccitt buf 4129 < 4294967296)
    (this : Switcher) (w : World) (cmd : string) :
  truthy (p_session this) = false ->
  socket_usable (socket this) = false -> reachable w = false ->
  0 <= clock w < 4294967296 ->
  exists s',
    _run_power_command crc16ccitt cmd (this, w) = Throw ConnectFailed s'
    /\ p_session (fst s') = p_session this
    /\ wire (snd s') = wire w
    /\ emitted (snd s')
       = (emitted w
          ++ [ERROR_EVENT (ConnectionError (switcher_ip this) (SWITCHER_PORT this));
              ERROR_EVENT (LoginFailed ConnectFailed);
              ERROR_EVENT (ConnectionError (switcher_ip this) (SWITCHER_PORT this))])%list
    /\ connects (snd s') = S (S (connects w)).
Proof.
  intros T U R C.
  destruct (login_unreachable crc16ccitt crc16ccitt_fits this w T U R C)
    as ([this1 w1] & E & P & S & W & Em & Cn & Ck & Rc & Ip & Pt).
  cbn [fst snd] in *.
  assert (U1 : socket_usable (socket this1) = false) by (now rewrite S).
  rewrite <- Ck in C.
  destruct (power_command_after_login_offline crc16ccitt crc16ccitt_fits this this1
              w w1 _ cmd E C U1 Rc) as (s' & E' & P' & W' & Em' & Cn').
  exists s'. split; [exact E'|].
  rewrite P', P, W', W, Em', Em, Cn', Cn, Ip, Pt, <- app_assoc.
  repeat split.
Qed.

Lemma power_command_unreachable_witness :
  exists s',
    _run_power_command Crc.crc16ccitt "000"
      (new_Switcher sample_device_id sample_ip, offline_world)
    = Throw ConnectFailed s'
    /\ p_session (fst s') = JNull
    /\ wire (snd s') = []
    /\ emitted (snd s')
       = [ERROR_EVENT (ConnectionError sample_ip 9957);
          ERROR_EVENT (LoginFailed ConnectFailed);
          ERROR_EVENT (ConnectionError sample_ip 9957)]
    /\ connects (snd s') = 2%nat.
Proof.
  apply (power_command_unreachable Crc.crc16ccitt crc16ccitt_fits32
           (new_Switcher sample_device_id sample_ip) offline_world "000").
  - reflexivity.
  - reflexivity.
  - reflexivity.
  - cbn. lia.
Defined.

(** X16: when the device does not answer the login, a power command never
    settles: the login frame is written, and then nothing more happens, no
    command frame, no event, no token. *)
Theorem power_command_without_login_reply
    (crc16ccitt : Buffer -> Z -> Z)
    (crc16ccitt_fits : forall buf, 0 <= crc16ccitt buf 4129 < 4294967296)
    (this : Switcher) (w : World) (cmd : string) :
  truthy (p_session this) = false -> reachable w = true ->
  0 <= clock w < 4294967296 -> inbox w = [] ->
  exists (s' : State) (login : Buffer),
    _run_power_command crc16ccitt cmd (this, w) = Pending s'
    /\ wire (snd s') = (wire w ++ [login])%list
    /\ frame_header login = LOGIN_HEADER
    /\ emitted (snd s') = emitted w
    /\ p_session (fst s') = p_session this.
Proof.
  intros T R C B.
  destruct (login_unanswered crc16ccitt crc16ccitt_fits this w T R C B)
    as (s' & E & P & W & Em).
  exists s'. eexists. split.
  { unfold _run_power_command. unfold bind at 1. rewrite E. reflexivity. }
  split; [exact W|]. split; [apply login_frame_header|]. split; assumption.
Qed.

Lemma power_command_without_login_reply_witness :
  exists (s' : State) (login : Buffer),
    _run_power_command Crc.crc16ccitt "000"
      (new_Switcher sample_device_id sample_ip,
       {| clock := 1700000000; reachable := true; inbox := [];
          wire := []; connects := 0; emitted := [] |})
    = Pending s'
    /\ wire (snd s') = [login]
    /\ frame_header login = LOGIN_HEADER
    /\ emitted (snd s') = []
    /\ p_session (fst s') = JNull.
Proof.
  apply (power_command_without_login_reply Crc.crc16ccitt crc16ccitt_fits32
           (new_Switcher sample_device_id sample_ip)
           {| clock := 1700000000; reachable := true; inbox := [];
              wire := []; connects := 0; emitted := [] |} "000").
  - reflexivity.
  - reflexivity.
  - cbn. lia.
  - reflexivity.
Defined.

(** X17: when the login of an instance without a token ends in a socket
    error, the power command goes on without a token: it connects anew
    (one connection more than the login made, two in all on a fresh
    instance) and writes a frame that holds the eight header bytes and
    nothing else, the text null in place of the token ending the hex
    decoding; the login error is emitted, the token stays null, and the new
    socket is usable unless the next reply is an error too. *)
Theorem power_command_after_failed_login
    (crc16ccitt : Buffer -> Z -> Z)
    (crc16ccitt_fits : forall buf, 0 <= crc16ccitt buf 4129 < 4294967296)
    (this : Switcher) (w : World) (cmd e : string) (rest : list Reply) :
  p_session this = JNull -> reachable w = true ->
  0 <= clock w < 4294967296 -> inbox w = SocketError e :: rest ->
  exists (s' : State) (login : Buffer) (more : list Event),
    _run_power_command crc16ccitt cmd (this, w) = Return tt s'
    /\ wire (snd s') = (wire w ++ [login; POWER_HEADER])%list
    /\ frame_header login = LOGIN_HEADER
    /\ p_session (fst s') = JNull
    /\ emitted (snd s')
       = (emitted w ++ ERROR_EVENT (LoginFailed (SocketFailed e)) :: more)%list
    /\ connects (snd s')
       = S ((if socket_usable (socket this) then 0 else 1) + connects w)
    /\ (socket this = None -> connects (snd s') = S (S (connects w)))
    /\ socket_usable (socket (fst s'))
       = match rest with
         | SocketError _ :: _ => false
         | _ => true
         end.
Proof.
  intros P R C B.
  assert (T : truthy (p_session this) = false) by (now rewrite P).
  destruct (login_socket_error crc16ccitt crc16ccitt_fits this w e rest T R C B)
    as (this1 & w1 & E & I1 & U1 & W1 & Em1 & C1 & R1 & B1 & Cn1).
  rewrite <- C1 in C. rewrite <- R1 in R.
  destruct (power_command_after_login_reconnects crc16ccitt crc16ccitt_fits
              this this1 w w1 _ cmd E C R U1)
    as (this' & w' & more & E' & P' & W' & Em' & Cn' & U').
  exists (this', w'), (signed_frame crc16ccitt
                         (login_frame this (toString_hex (le32 (clock w))))), more.
  split; [exact E'|]. cbn [fst snd].
  rewrite W', W1, Em', Em1, P, null_token_frame, <- !app_assoc, Cn', Cn1, U', B1.
  split; [reflexivity|]. split; [apply login_frame_header|].
  split.
  { rewrite P'. destruct I1 as (_ & _ & _ & _ & _ & <- & _). exact P. }
  split; [reflexivity|]. split; [reflexivity|]. split; [|reflexivity].
  intros ->. reflexivity.
Qed.

Lemma power_command_after_failed_login_witness :
  exists (s' : State) (login : Buffer) (more : list Event),
    _run_power_command Crc.crc16ccitt "000"
      (new_Switcher sample_device_id sample_ip,
       {| clock := 1700000000; reachable := true;
          inbox := [SocketError "ECONNRESET"];
          wire := []; connects := 0; emitted := [] |})
    = Return tt s'
    /\ wire (snd s') = [login; POWER_HEADER]
    /\ frame_header login = LOGIN_HEADER
    /\ p_session (fst s') = JNull
    /\ emitted (snd s')
       = ERROR_EVENT (LoginFailed (SocketFailed "ECONNRESET")) :: more
    /\ connects (snd s') = 2%nat
    /\ socket_usable (socket (fst s')) = true.
Proof.
  destruct (power_command_after_failed_login Crc.crc16ccitt crc16ccitt_fits32
              (new_Switcher sample_device_id sample_ip)
              {| clock := 1700000000; reachable := true;
                 inbox := [SocketError "ECONNRESET"];
                 wire := []; connects := 0; emitted := [] |}
              "000" "ECONNRESET" [] eq_refl eq_refl ltac:(cbn; lia) eq_refl)
    as (s' & login & more & E & W & H & P & Em & _ & Cn & U).
  exists s', login, more.
  split; [exact E|]. split; [exact W|]. split; [exact H|]. split; [exact P|].
  split; [exact Em|]. split; [exact (Cn eq_refl) | exact U].
Defined.

(** X18: a login reply of at most 8 bytes leaves the empty string as the
    token, which counts as no token: the next [_login] performs the whole
    exchange again and writes a second login frame. *)
Theorem short_reply_forces_new_login
    (crc16ccitt : Buffer -> Z -> Z)
    (crc16ccitt_fits : forall buf, 0 <= crc16ccitt buf 4129 < 4294967296)
    (this : Switcher) (w : World) (reply reply2 : Buffer) (rest : list Reply) :
  truthy (p_session this) = false -> reachable w = true ->
  0 <= clock w < 4294967296 ->
  inbox w = Data reply :: Data reply2 :: rest ->
  (List.length reply <= 8)%nat ->
  exists (s1 s2 : State) (f1 f2 : Buffer),
    _login crc16ccitt (this, w) = Return (JString "") s1
    /\ wire (snd s1) = (wire w ++ [f1])%list
    /\ _login crc16ccitt s1
       = Return (JString (substr (toString_hex reply2) 16 8)) s2
    /\ wire (snd s2) = (wire w ++ [f1; f2])%list
    /\ frame_header f1 = LOGIN_HEADER /\ frame_header f2 = LOGIN_HEADER.
Proof.
  intros T R C B L.
  destruct (login_from_scratch crc16ccitt crc16ccitt_fits this w reply _ T R C B)
    as (this1 & w1 & E1 & P1 & W1 & C1 & R1 & B1).
  rewrite (substr_beyond reply 16 8) in E1, P1 by lia.
  assert (T1 : truthy (p_session this1) = false) by (now rewrite P1).
  rewrite <- C1 in C. rewrite <- R1 in R.
  destruct (login_from_scratch crc16ccitt crc16ccitt_fits this1 w1 reply2 rest
              T1 R C B1) as (this2 & w2 & E2 & P2 & W2 & _).
  exists (this1, w1), (this2, w2). do 2 eexists.
  split; [exact E1|]. split; [exact W1|]. split; [exact E2|].
  cbn [snd]. rewrite W2, W1, <- app_assoc.
  split; [reflexivity|]. split; apply login_frame_header.
Qed.

Lemma short_reply_forces_new_login_witness :
  exists (s1 s2 : State) (f1 f2 : Buffer),
    _login Crc.crc16ccitt
      (new_Switcher sample_device_id sample_ip,
       {| clock := 1700000000; reachable := true;
          inbox := [Data [xfe; xf0]; Data sample_login_reply];
          wire := []; connects := 0; emitted := [] |})
    = Return (JString "") s1
    /\ wire (snd s1) = [f1]
    /\ _login Crc.crc16ccitt s1 = Return (JString "deadbeef") s2
    /\ wire (snd s2) = [f1; f2]
    /\ frame_header f1 = LOGIN_HEADER /\ frame_header f2 = LOGIN_HEADER.
Proof.
  apply (short_reply_forces_new_login Crc.crc16ccitt crc16ccitt_fits32
           (new_Switcher sample_device_id sample_ip)
           {| clock := 1700000000; reachable := true;
              inbox := [Data [xfe; xf0]; Data sample_login_reply];
              wire := []; connects := 0; emitted := [] |}
           [xfe; xf0] sample_login_reply []).
  - reflexivity.
  - reflexivity.
  - cbn. lia.
  - reflexivity.
  - cbn. lia.
Defined.

(** A first [close()] on an instance whose listener is open. *)
Lemma close_first (this : Switcher) (w : World) :
  dgram_open (status_socket this) = true ->
  exists this1,
    close (this, w) = Return tt (this1, w)
    /\ p_session this1 = p_session this
    /\ socket_usable (socket this1) = false
    /\ dgram_open (status_socket this1) = false.
Proof.
  intros O. destruct this as [did ip ph pass port ps sock [o]].
  cbn in O. subst o.
  destruct sock as [[[|]]|]; eexists; (split; [reflexivity|]); repeat split.
Qed.

(** A power command with a token and without a usable connection, the
    device being within reach. *)
Lemma power_command_reconnects
    (crc16ccitt : Buffer -> Z -> Z)
    (crc16ccitt_fits : forall buf, 0 <= crc16ccitt buf 4129 < 4294967296)
    (this : Switcher) (w : World) (cmd tok : string) :
  p_session this = JString tok -> tok <> "" ->
  0 <= clock w < 4294967296 -> reachable w = true ->
  socket_usable (socket this) = false ->
  exists this' w',
    _run_power_command crc16ccitt cmd (this, w) = Return tt (this', w')
    /\ connects w' = S (connects w)
    /\ wire w'
       = (wire w
          ++ [signed_frame crc16ccitt
                (power_frame this (JString tok) (toString_hex (le32 (clock w))) cmd)])%list
    /\ status_socket this' = status_socket this.
Proof.
  intros E N C R U.
  unfold _run_power_command.
  unfold bind at 1. rewrite (_login_cached crc16ccitt this w tok E N).
  unfold bind at 1. unfold get_this at 1. cbn [fst].
  unfold bind at 1. rewrite (_get_time_stamp_ok this w C).
  unfold bind at 1. rewrite (sign_lift crc16ccitt crc16ccitt_fits).
  destruct this as [did ip ph pass port ps sock ssock].
  destruct w as [clk reach inb wr con em]. cbn in R, U. subst reach.
  destruct sock as [[[|]]|]; try discriminate;
    destruct inb as [|[d|e] rest];
    do 2 eexists; (split; [reflexivity|]); repeat split.
Qed.

(** X19: [close()] does not end the session: a power command issued after
    it on a logged-in instance opens a new connection and writes its
    frame, with the token cached before. *)
Theorem command_after_close_reconnects
    (crc16ccitt : Buffer -> Z -> Z)
    (crc16ccitt_fits : forall buf, 0 <= crc16ccitt buf 4129 < 4294967296)
    (this : Switcher) (w : World) (token : Buffer) (cmd : string) :
  dgram_open (status_socket this) = true ->
  p_session this = JString (toString_hex token) -> List.length token = 4%nat ->
  0 <= clock w < 4294967296 -> reachable w = true ->
  exists (s' : State) (frame : Buffer),
    bind close (fun _ => _run_power_command crc16ccitt cmd) (this, w)
    = Return tt s'
    /\ connects (snd s') = S (connects w)
    /\ wire (snd s') = (wire w ++ [frame])%list
    /\ frame_header frame = POWER_HEADER /\ token_field frame = token
    /\ dgram_open (status_socket (fst s')) = false.
Proof.
  intros O P L C R.
  destruct (close_first this w O) as (this1 & E1 & P1 & U1 & O1).
  rewrite P in P1.
  destruct (power_command_reconnects crc16ccitt crc16ccitt_fits this1 w cmd _
              P1 (token_not_empty token L) C R U1) as (this' & w' & E & Cn & W & S).
  exists (this', w'). eexists. unfold bind. rewrite E1.
  split; [exact E|]. cbn [fst snd].
  split; [exact Cn|]. split; [exact W|].
  split; [apply power_frame_header|].
  split; [|now rewrite S].
  apply (frame_carries_token token L POWER_HEADER _ _ eq_refl ltac:(discriminate)).
Qed.

Lemma command_after_close_reconnects_witness :
  exists (s' : State) (frame : Buffer),
    bind close (fun _ => _run_power_command Crc.crc16ccitt "000")
         (sample_session, sample_world)
    = Return tt s'
    /\ connects (snd s') = 1%nat
    /\ wire (snd s') = [frame]
    /\ frame_header frame = POWER_HEADER
    /\ token_field frame = [xde; xad; xbe; xef]
    /\ dgram_open (status_socket (fst s')) = false.
Proof.
  apply (command_after_close_reconnects Crc.crc16ccitt crc16ccitt_fits32
           sample_session sample_world [xde; xad; xbe; xef] "000").
  - reflexivity.
  - reflexivity.
  - reflexivity.
  - cbn. lia.
  - reflexivity.
Defined.



(** ** Discovery *)

Lemma ustring_eqb_eq (a b : ustring) : ustring_eqb a b = true <-> a = b.
Proof.
  revert b. induction a as [|x a IH]; intros [|y b]; cbn; try (split; congruence).
  rewrite andb_true_iff, Z.eqb_eq, IH.
  split; [intros [-> ->]; reflexivity | intros E; inversion E; auto].
Qed.

Lemma close_and_forget_open (d : Discovery) (armed : bool) (evs : list Event) :
  disc_socket d = Some {| dgram_open := true |} ->
  close_and_forget d armed evs
  = Some {| identifier := identifier d; disc_socket := None;
            timeout := timeout d; timeout_armed := armed; proxy_events := evs |}.
Proof. intros O. unfold close_and_forget. now rewrite O. Qed.

(** X21: while the discovery socket is open, a broadcast of 165 bytes that
    starts with FE F0 and matches the identifier (none given, or equal to
    the device id, the device name or the sender's address) makes
    [discover] emit [ready] once, with the device id read at byte offset 18
    and the sender's address, clear the timer, and close and drop the
    socket; after that neither the timer nor any further datagram has an
    effect. *)
Theorem discover_first_match (d : Discovery) (buf : Buffer) (ipaddr : string) :
  disc_socket d = Some {| dgram_open := true |} ->
  well_formed_broadcast buf ->
  identifier_matches (identifier d) (toString_hex (slice buf 18 3))
    (extract_device_name (new_SwitcherUDPMessage buf)) ipaddr ->
  exists found : Discovery,
    on_message d buf ipaddr = Some found
    /\ proxy_events found
       = (proxy_events d ++ [READY_EVENT (toString_hex (slice buf 18 3)) ipaddr])%list
    /\ disc_socket found = None
    /\ timeout_armed found = false
    /\ on_timeout found = Some found
    /\ (forall (raw_msg : Buffer) (from : string),
          on_message found raw_msg from = Some found).
Proof.
  intros O [L Mg] Match.
  assert (V : is_valid buf = true) by (apply is_valid_iff; now left).
  unfold on_message. rewrite O, V. cbn [negb].
  rewrite extract_device_id_slice.
  assert (Done : forall evs,
             exists found,
               close_and_forget d false evs = Some found
               /\ proxy_events found = evs /\ disc_socket found = None
               /\ timeout_armed found = false /\ on_timeout found = Some found
               /\ (forall raw_msg from, on_message found raw_msg from = Some found)).
  { intros evs. rewrite (close_and_forget_open d false evs O).
    eexists. repeat split. }
  destruct (identifier d) as [| |[|c id]]; try apply Done.
  cbn [truthy andb]. cbn [identifier_matches] in Match.
  destruct Match as [E|[E|E]].
  - rewrite E, String.eqb_refl. cbn [negb andb]. apply Done.
  - rewrite (proj2 (ustring_eqb_eq _ _) E). cbn [negb andb].
    rewrite andb_false_r. apply Done.
  - rewrite E, String.eqb_refl. cbn [negb andb].
    rewrite andb_false_r. apply Done.
Qed.

Lemma discover_first_match_witness :
  exists found : Discovery,
    on_message (discover (JString "a1b2c3") (Some 5)) sample_broadcast "192.168.1.50"
    = Some found
    /\ proxy_events found = [READY_EVENT "a1b2c3" "192.168.1.50"]
    /\ disc_socket found = None
    /\ timeout_armed found = false
    /\ on_timeout found = Some found
    /\ (forall (raw_msg : Buffer) (from : string),
          on_message found raw_msg from = Some found).
Proof.
  apply (discover_first_match (discover (JString "a1b2c3") (Some 5))
           sample_broadcast "192.168.1.50").
  - reflexivity.
  - split; reflexivity.
  - left. reflexivity.
Defined.

(** X22: a valid broadcast of a device whose id, name and address all
    differ from a non-empty identifier is passed over: nothing is emitted,
    the socket stays open and the timer armed. *)
Theorem discover_passes_over_other_device
    (d : Discovery) (buf : Buffer) (ipaddr id : string) :
  identifier d = JString id -> id <> "" ->
  id <> extract_device_id (new_SwitcherUDPMessage buf) ->
  ustring_of_string id <> extract_device_name (new_SwitcherUDPMessage buf) ->
  id <> ipaddr ->
  on_message d buf ipaddr = Some d.
Proof.
  intros I N Hid Hname Hip. unfold on_message.
  destruct (disc_socket d) as [[[|]]|]; try reflexivity.
  destruct (negb (is_valid buf)); [reflexivity|].
  rewrite I. destruct id as [|c id]; [congruence|].
  cbn [truthy andb].
  apply String.eqb_neq in Hid. apply String.eqb_neq in Hip.
  rewrite Hid, Hip.
  destruct (ustring_eqb _ _) eqn:E; [apply ustring_eqb_eq in E; congruence|].
  reflexivity.
Qed.

Lemma discover_passes_over_other_device_witness :
  on_message (discover (JString "ffffff") None) sample_broadcast "192.168.1.50"
  = Some (discover (JString "ffffff") None).
Proof.
  apply (discover_passes_over_other_device (discover (JString "ffffff") None)
           sample_broadcast "192.168.1.50" "ffffff").
  - reflexivity.
  - discriminate.
  - vm_compute. discriminate.
  - vm_compute. discriminate.
  - discriminate.
Defined.

(** X23: a datagram that neither starts with FE F0 nor is 165 bytes long
    changes nothing in a discovery. *)
Theorem discover_ignores_foreign (d : Discovery) (buf : Buffer) (ipaddr : string) :
  firstn 2 buf <> [xfe; xf0] -> List.length buf <> 165%nat ->
  on_message d buf ipaddr = Some d.
Proof.
  intros Mg L. unfold on_message.
  destruct (disc_socket d) as [[[|]]|]; try reflexivity.
  destruct (is_valid buf) eqn:V; [|reflexivity].
  apply is_valid_iff in V. tauto.
Qed.

Lemma discover_ignores_foreign_witness :
  on_message (discover JUndefined None) [x01; x02; x03] "192.168.1.50"
  = Some (discover JUndefined None).
Proof.
  apply discover_ignores_foreign; [discriminate | discriminate].
Defined.

(** X24: [proxy.close()] closes the socket of a discovery but neither
    drops it nor clears the timer: the timer callback that follows calls
    [close()] on the closed socket and throws, and so does a second
    [proxy.close()]. *)
Theorem proxy_close_leaves_timer_armed
    (identifier : jsval) (discovery_timeout : option Z) :
  exists closed : Discovery,
    proxy_close (discover identifier discovery_timeout) = Some closed
    /\ disc_socket closed = Some {| dgram_open := false |}
    /\ timeout_armed closed = true
    /\ on_timeout closed = None
    /\ proxy_close closed = None.
Proof. eexists. repeat split. Qed.

(** X25: an error of the discovery socket is passed on as one [error]
    event, the timer is cleared and the socket closed and dropped; the
    timer does nothing afterwards. *)
Theorem discover_error_closes (d : Discovery) (message : string) :
  disc_socket d = Some {| dgram_open := true |} ->
  exists failed : Discovery,
    on_error d message = Some failed
    /\ proxy_events failed
       = (proxy_events d ++ [ERROR_EVENT (ListenerError message)])%list
    /\ disc_socket failed = None
    /\ timeout_armed failed = false
    /\ on_timeout failed = Some failed.
Proof.
  intros O. unfold on_error. rewrite (close_and_forget_open d false _ O).
  eexists. repeat split.
Qed.

Lemma discover_error_closes_witness :
  exists failed : Discovery,
    on_error (discover JUndefined (Some 5)) "EADDRINUSE" = Some failed
    /\ proxy_events failed = [ERROR_EVENT (ListenerError "EADDRINUSE")]
    /\ disc_socket failed = None
    /\ timeout_armed failed = false
    /\ on_timeout failed = Some failed.
Proof.
  apply (discover_error_closes (discover JUndefined (Some 5)) "EADDRINUSE").
  reflexivity.
Defined.

(** ** What the decoder can return at all *)

Lemma hex_value_range (c : ascii) (d : N) :
  hex_value c = Some d -> 0 <= Z.of_N d < 16.
Proof.
  unfold hex_value. intros Hd.
  destruct ((48 <=? N_of_ascii c)%N && (N_of_ascii c <=? 57)%N) eqn:E1;
    [|destruct ((97 <=? N_of_ascii c)%N && (N_of_ascii c <=? 102)%N) eqn:E2;
      [|destruct ((65 <=? N_of_ascii c)%N && (N_of_ascii c <=? 70)%N) eqn:E3;
        [|discriminate]]];
    inversion Hd; subst;
    match goal with
    | H : (_ && _)%bool = true |- _ =>
        apply andb_true_iff in H; destruct H as [H1 H2];
        apply N.leb_le in H1; apply N.leb_le in H2; lia
    end.
Qed.

Lemma parseInt16_from_some_bound (s : string) (a v : Z) :
  0 <= a -> parseInt16_from (Some a) s = Some v ->
  0 <= v < (a + 1) * 16 ^ Z.of_nat (String.length s).
Proof.
  revert a. induction s as [|c s IH]; intros a Ha E.
  - cbn in E. inversion E; subst. cbn. lia.
  - cbn [parseInt16_from] in E. cbn [String.length].
    rewrite Nat2Z.inj_succ, Z.pow_succ_r by lia.
    assert (P : 0 < 16 ^ Z.of_nat (String.length s)) by (apply Z.pow_pos_nonneg; lia).
    destruct (hex_value c) as [d|] eqn:Hd.
    + pose proof (hex_value_range c d Hd) as D.
      cbn [acc_value] in E.
      specialize (IH (16 * a + Z.of_N d) ltac:(lia) E). nia.
    + inversion E; subst. nia.
Qed.

(** [parseInt] of a string of [n] characters is [NaN] or below [16 ^ n]. *)
Lemma parseInt16_bound (s : string) (v : Z) :
  parseInt16 s = Some v -> 0 <= v < 16 ^ Z.of_nat (String.length s).
Proof.
  unfold parseInt16. destruct s as [|c s]; [discriminate|].
  cbn [parseInt16_from]. destruct (hex_value c) as [d|] eqn:Hd; [|discriminate].
  intros E. cbn [String.length]. rewrite Nat2Z.inj_succ, Z.pow_succ_r by lia.
  assert (P : 0 < 16 ^ Z.of_nat (String.length s)) by (apply Z.pow_pos_nonneg; lia).
  pose proof (hex_value_range c d Hd) as D.
  pose proof (parseInt16_from_some_bound s (16 * 0 + Z.of_N d) v ltac:(lia) E). nia.
Qed.

Lemma substring_length_le (s : string) (n m : nat) :
  (String.length (substring n m s) <= m)%nat.
Proof.
  revert n m. induction s as [|c s IH]; intros n m.
  - destruct n, m; cbn; lia.
  - destruct n as [|n].
    + destruct m as [|m]; cbn; [lia|]. specialize (IH 0%nat m). lia.
    + cbn. apply IH.
Qed.

Lemma string_length_app (a b : string) :
  String.length (a ++ b) = (String.length a + String.length b)%nat.
Proof. induction a as [|c a IH]; cbn; [reflexivity | now rewrite IH]. Qed.

Lemma parse_bound_of_length (s : string) (v : Z) (n : nat) :
  (String.length s <= n)%nat -> parseInt16 s = Some v ->
  0 <= v < 16 ^ Z.of_nat n.
Proof.
  intros L E. pose proof (parseInt16_bound s v E) as [H0 H1]. split; [exact H0|].
  eapply Z.lt_le_trans; [exact H1|]. apply Z.pow_le_mono_r; lia.
Qed.

(** X26: whatever the datagram, short, long or random, the fields decoded
    from it stay in range: the power is [NaN] or below 2^16, the remaining
    time and the default shutdown are [NaN] or below 2^32, the state is OFF
    or ON, and the name has at most 32 characters, none of them NUL. *)
Theorem decoded_fields_in_range (buf : Buffer) :
  (forall v, extract_power_consumption (new_SwitcherUDPMessage buf) = Some v ->
             0 <= v < 65536)
  /\ (forall v, extract_shutdown_remaining_seconds (new_SwitcherUDPMessage buf) = Some v ->
                0 <= v < 4294967296)
  /\ (forall v, extract_default_shutdown_seconds (new_SwitcherUDPMessage buf) = Some v ->
                0 <= v < 4294967296)
  /\ (extract_switch_state (new_SwitcherUDPMessage buf) = OFF
      \/ extract_switch_state (new_SwitcherUDPMessage buf) = ON)
  /\ (List.length (extract_device_name (new_SwitcherUDPMessage buf)) <= 32)%nat
  /\ ~ In 0 (extract_device_name (new_SwitcherUDPMessage buf)).
Proof.
  split; [|split; [|split; [|split; [|split]]]].
  - intros v E. apply (parse_bound_of_length _ v 4) in E; [exact E|].
    rewrite string_length_app.
    pose proof (substring_length_le
                  (substr (data_hex (new_SwitcherUDPMessage buf)) 270 4) 2 2).
    pose proof (substring_length_le
                  (substr (data_hex (new_SwitcherUDPMessage buf)) 270 4) 0 2).
    unfold substr in *. lia.
  - intros v E. apply (parse_bound_of_length _ v 8) in E; [exact E|].
    rewrite !string_length_app.
    pose proof (substring_length_le
                  (substr (data_hex (new_SwitcherUDPMessage buf)) 294 8) 6 2).
    pose proof (substring_length_le
                  (substr (data_hex (new_SwitcherUDPMessage buf)) 294 8) 4 2).
    pose proof (substring_length_le
                  (substr (data_hex (new_SwitcherUDPMessage buf)) 294 8) 2 2).
    pose proof (substring_length_le
                  (substr (data_hex (new_SwitcherUDPMessage buf)) 294 8) 0 2).
    unfold substr in *. lia.
  - intros v E. apply (parse_bound_of_length _ v 8) in E; [exact E|].
    rewrite !string_length_app.
    pose proof (substring_length_le
                  (substr (data_hex (new_SwitcherUDPMessage buf)) 310 8) 6 2).
    pose proof (substring_length_le
                  (substr (data_hex (new_SwitcherUDPMessage buf)) 310 8) 4 2).
    pose proof (substring_length_le
                  (substr (data_hex (new_SwitcherUDPMessage buf)) 310 8) 2 2).
    pose proof (substring_length_le
                  (substr (data_hex (new_SwitcherUDPMessage buf)) 310 8) 0 2).
    unfold substr in *. lia.
  - unfold extract_switch_state. destruct (String.eqb _ _); auto.
  - unfold extract_device_name, remove_nul, usubstr.
    eapply Nat.le_trans; [apply filter_length_le|].
    rewrite length_firstn. lia.
  - unfold extract_device_name, remove_nul. intros H.
    apply filter_In in H. destruct H as [_ H]. discriminate H.
Qed.

(** X27: the first [close()] on an instance whose status listener is open
    returns; afterwards the TCP socket, if there was one, is destroyed and
    the listener is closed, the token is kept, and nothing was written or
    emitted. *)
Theorem close_releases_both (this : Switcher) (w : World) :
  dgram_open (status_socket this) = true ->
  exists this' : Switcher,
    close (this, w) = Return tt (this', w)
    /\ socket_usable (socket this') = false
    /\ (socket this = None -> socket this' = None)
    /\ dgram_open (status_socket this') = false
    /\ p_session this' = p_session this
    /\ device_id this' = device_id this.
Proof.
  intros O. destruct this as [did ip ph pass port ps sock [o]].
  cbn in O. subst o.
  destruct sock as [[[|]]|]; eexists; (split; [reflexivity|]); repeat split;
    try discriminate.
Qed.

Lemma close_releases_both_witness :
  exists this' : Switcher,
    close (sample_session, sample_world) = Return tt (this', sample_world)
    /\ socket_usable (socket this') = false
    /\ dgram_open (status_socket this') = false
    /\ p_session this' = JString "deadbeef"
    /\ device_id this' = sample_device_id.
Proof.
  destruct (close_releases_both sample_session sample_world eq_refl)
    as (this' & E & U & _ & D & P & I).
  exists this'. repeat split; assumption.
Defined.
